(** * ddns-updater-mijnhost: the reconciliation daemon of [script.py]

    A shallow embedding of [script.py] and the properties of its
    configuration loader, its DNS updater and its main loop.

    Layout: the Python values and builtins the script relies on ([Py]),
    then the script's functions in source order, the document as an
    object with the assignments the script makes to it, and the facts
    about them. *)

From Stdlib Require Import ZArith List String Ascii Bool Lia.
From Stdlib Require Import DecimalString DecimalZ.
From Stdlib Require DecimalFacts.
Import ListNotations.

Set Warnings "-register-all".
Open Scope string_scope.
Open Scope Z_scope.

(* ================================================================= *)
(** ** Python values and builtins *)

Module Py.

(** The exception classes that the script's [except] clauses tell apart. *)
Inductive pyexc := ValueError | TypeError | OverflowError | AttributeError.

(** A float.  Infinities and NaN are explicit.  A finite float is kept as
    the two things the script can observe of it: its [str()] and the
    integer [int()] truncates it to. *)
Inductive pyfloat :=
| FInf (negative : bool)
| FNan
| FFinite (repr : string) (trunc : Z).

(** What [yaml.safe_load] can return.  A mapping keeps the insertion order
    of its keys, as a Python dict does; only string keys are modelled, the
    script never looks up another kind.  A value is a finite tree.

    Two things are outside these values.  Strings are over ASCII: [strip]
    and [upper] below are the ASCII part of [str.strip] and [str.upper].
    And [str()] of an int, and with it the formatting of a value into a
    log line, is total here, while CPython refuses to convert an int of
    more than 4300 decimal digits.  [plain], further down, says of a
    value that it stays inside both limits. *)
Inductive yaml :=
| YNone
| YBool (b : bool)
| YInt (z : Z)
| YFloat (f : pyfloat)
| YStr (s : string)
| YList (items : list yaml)
| YDict (entries : list (string * yaml)).

Definition pydict := list (string * yaml).

(** *** Characters and strings *)

Definition double_quote : ascii := "034"%char.

(** [str.isspace] on ASCII: tab, LF, VT, FF, CR, FS, GS, RS, US, space. *)
Definition is_space (c : ascii) : bool :=
  let n := nat_of_ascii c in
  ((9 <=? n) && (n <=? 13) || (28 <=? n) && (n <=? 32))%nat.

Definition is_digit (c : ascii) : bool :=
  let n := nat_of_ascii c in ((48 <=? n) && (n <=? 57))%nat.

Definition upper_char (c : ascii) : ascii :=
  let n := nat_of_ascii c in
  if ((97 <=? n) && (n <=? 122))%nat then ascii_of_nat (n - 32) else c.

(** [str.upper] *)
Fixpoint upper (s : string) : string :=
  match s with
  | EmptyString => EmptyString
  | String c s' => String (upper_char c) (upper s')
  end.

(** [str.lstrip], [str.rstrip] and [str.strip] without argument *)
Fixpoint lstrip (s : string) : string :=
  match s with
  | EmptyString => EmptyString
  | String c s' => if is_space c then lstrip s' else s
  end.

Fixpoint rstrip (s : string) : string :=
  match s with
  | EmptyString => EmptyString
  | String c s' =>
      match rstrip s' with
      | EmptyString => if is_space c then EmptyString else String c EmptyString
      | r => String c r
      end
  end.

Definition strip (s : string) : string := rstrip (lstrip s).

(** [s.startswith(p)] *)
Definition startswith (p s : string) : bool := String.prefix p s.

(** [p in s] for two strings *)
Definition substring_in (p s : string) : bool :=
  match String.index 0 p s with Some _ => true | None => false end.

Definition contains_char (c : ascii) (s : string) : bool :=
  existsb (Ascii.eqb c) (list_ascii_of_string s).

(** *** Integers and text *)

(** [str(z)] for an int *)
Definition str_of_int (z : Z) : string := NilEmpty.string_of_int (Z.to_int z).

(** CPython's limit on the number of digits in a conversion between int
    and str ([sys.int_info.default_max_str_digits]). *)
Definition MAX_STR_DIGITS : nat := 4300.

(** The decimal digits of an int, without its sign, and whether [str()]
    accepts it. *)
Definition digits_of_int (z : Z) : string :=
  match Z.to_int z with
  | Decimal.Pos d | Decimal.Neg d => NilEmpty.string_of_uint d
  end.

Definition printable_int (z : Z) : bool :=
  (String.length (digits_of_int z) <=? MAX_STR_DIGITS)%nat.

(** The white space that [int()] skips around the number: tab, LF, VT, FF,
    CR and space.  It is less than [str.strip] removes: the separators
    FS, GS, RS and US make [int()] fail. *)
Definition is_int_space (c : ascii) : bool :=
  let n := nat_of_ascii c in
  ((9 <=? n) && (n <=? 13) || (n =? 32))%nat.

Fixpoint int_lstrip (s : string) : string :=
  match s with
  | EmptyString => EmptyString
  | String c s' => if is_int_space c then int_lstrip s' else s
  end.

Fixpoint int_rstrip (s : string) : string :=
  match s with
  | EmptyString => EmptyString
  | String c s' =>
      match int_rstrip s' with
      | EmptyString => if is_int_space c then EmptyString else String c EmptyString
      | r => String c r
      end
  end.

(** The digits of an integer literal as [int()] reads them: decimal digits,
    with single underscores allowed between two digits.  The result is
    the digit string without the underscores. *)
Fixpoint literal_digits (after_digit : bool) (s : string) : option string :=
  match s with
  | EmptyString => if after_digit then Some EmptyString else None
  | String c s' =>
      if Ascii.eqb c "_" then
        if after_digit then literal_digits false s' else None
      else if is_digit c then
        option_map (String c) (literal_digits true s')
      else None
  end.

(** More than [MAX_STR_DIGITS] digits, leading zeros counted, are
    refused. *)
Definition unsigned_of_str (s : string) : option Z :=
  match literal_digits false s with
  | Some ds =>
      if (String.length ds <=? MAX_STR_DIGITS)%nat
      then option_map Z.of_uint (NilEmpty.uint_of_string ds)
      else None
  | None => None
  end.

(** [int(s)] for a string: surrounding white space is skipped, one sign
    is allowed; [None] stands for [ValueError]. *)
Definition int_of_str (s : string) : option Z :=
  match int_rstrip (int_lstrip s) with
  | String c r =>
      if Ascii.eqb c "-" then option_map Z.opp (unsigned_of_str r)
      else if Ascii.eqb c "+" then unsigned_of_str r
      else unsigned_of_str (String c r)
  | EmptyString => None
  end.

Inductive int_result := IntOk (z : Z) | IntRaise (e : pyexc).

(** [int(v)] *)
Definition py_int (v : yaml) : int_result :=
  match v with
  | YNone => IntRaise TypeError
  | YBool b => IntOk (if b then 1 else 0)
  | YInt z => IntOk z
  | YFloat (FInf _) => IntRaise OverflowError
  | YFloat FNan => IntRaise ValueError
  | YFloat (FFinite _ t) => IntOk t
  | YStr s => match int_of_str s with Some z => IntOk z | None => IntRaise ValueError end
  | YList _ | YDict _ => IntRaise TypeError
  end.

(** *** [repr] and [str] *)

Definition hex_digit (n : nat) : ascii :=
  ascii_of_nat (if (n <? 10)%nat then 48 + n else 87 + n).

Definition repr_quote (s : string) : ascii :=
  if contains_char "'" s && negb (contains_char double_quote s)
  then double_quote else "'"%char.

Definition repr_char (quote c : ascii) : string :=
  let n := nat_of_ascii c in
  if Ascii.eqb c quote || Ascii.eqb c "\" then String "\" (String c "")
  else if Ascii.eqb c "009" then "\t"
  else if Ascii.eqb c "010" then "\n"
  else if Ascii.eqb c "013" then "\r"
  else if ((n <? 32) || (n =? 127))%nat then
    "\x" ++ String (hex_digit (n / 16)) (String (hex_digit (n mod 16)) "")
  else String c "".

Fixpoint repr_chars (quote : ascii) (s : string) : string :=
  match s with
  | EmptyString => EmptyString
  | String c s' => repr_char quote c ++ repr_chars quote s'
  end.

Definition repr_str (s : string) : string :=
  let q := repr_quote s in
  String q (repr_chars q s ++ String q "").

Definition str_of_float (f : pyfloat) : string :=
  match f with
  | FInf false => "inf"
  | FInf true => "-inf"
  | FNan => "nan"
  | FFinite r _ => r
  end.

Fixpoint py_repr (v : yaml) : string :=
  match v with
  | YNone => "None"
  | YBool true => "True"
  | YBool false => "False"
  | YInt z => str_of_int z
  | YFloat f => str_of_float f
  | YStr s => repr_str s
  | YList items => "[" ++ String.concat ", " (map py_repr items) ++ "]"
  | YDict entries =>
      "{" ++ String.concat ", "
               (map (fun kv : string * yaml =>
                       let (k, x) := kv in (repr_str k ++ ": " ++ py_repr x)%string)
                    entries) ++ "}"
  end.

(** [str(v)] *)
Definition py_str (v : yaml) : string :=
  match v with
  | YStr s => s
  | _ => py_repr v
  end.

(** Truth value of [v], as [if v:] and [not v] take it. *)
Definition truthy (v : yaml) : bool :=
  match v with
  | YNone => false
  | YBool b => b
  | YInt z => negb (z =? 0)
  | YFloat (FFinite r _) => negb ((r =? "0.0")%string || (r =? "-0.0")%string)
  | YFloat _ => true
  | YStr s => negb (s =? "")%string
  | YList items => match items with [] => false | _ => true end
  | YDict entries => match entries with [] => false | _ => true end
  end.

(** *** Dicts *)

(** [k in d] and the value under [k] *)
Fixpoint dict_get (k : string) (d : pydict) : option yaml :=
  match d with
  | [] => None
  | (k', v) :: d' => if (k =? k')%string then Some v else dict_get k d'
  end.

Definition dict_has (k : string) (d : pydict) : bool :=
  match dict_get k d with Some _ => true | None => false end.

(** [d.get(k, default)]; [d.get(k)] is [get YNone]. *)
Definition get (default : yaml) (k : string) (d : pydict) : yaml :=
  match dict_get k d with Some v => v | None => default end.

(** [d[k] = v]: an existing key keeps its place, a new one goes last. *)
Fixpoint dict_set (k : string) (v : yaml) (d : pydict) : pydict :=
  match d with
  | [] => [(k, v)]
  | (k', v') :: d' =>
      if (k =? k')%string then (k, v) :: d' else (k', v') :: dict_set k v d'
  end.

Definition is_dict (v : yaml) : bool :=
  match v with YDict _ => true | _ => false end.

Definition is_list (v : yaml) : bool :=
  match v with YList _ => true | _ => false end.

(** *** [time.sleep] *)

(** The largest number of seconds that [time.sleep] converts to its
    64-bit count of nanoseconds. *)
Definition MAX_SLEEP_SECONDS : Z := 9223372036.

(** The exception that [time.sleep(seconds)] raises for an int, if any:
    [OverflowError] when the conversion fails, [ValueError] for a negative
    duration; otherwise the call returns. *)
Definition sleep_error (seconds : Z) : option pyexc :=
  if (MAX_SLEEP_SECONDS <? seconds) || (seconds <? - MAX_SLEEP_SECONDS)
  then Some OverflowError
  else if seconds <? 0 then Some ValueError
  else None.

End Py.
Import Py.


(* ================================================================= *)
(** ** Script-level defaults and globals (lines 7-17) *)

Definition DEFAULT_CHECK_INTERVAL_SECONDS : Z := 300.
Definition DEFAULT_PUBLIC_IP_SERVICE_URL : string :=
  "https://api.ipify.org?format=json".

(** The module's global variables.  [parsed_config_data] holds the whole
    loaded YAML document for later writing. *)
Record globals := mkGlobals {
  MIJNHOST_API_KEY : option string;
  CHECK_INTERVAL_SECONDS : Z;
  PUBLIC_IP_SERVICE_URL : string;
  parsed_config_data : pydict
}.

Definition initial_globals : globals :=
  {| MIJNHOST_API_KEY := None;
     CHECK_INTERVAL_SECONDS := DEFAULT_CHECK_INTERVAL_SECONDS;
     PUBLIC_IP_SERVICE_URL := DEFAULT_PUBLIC_IP_SERVICE_URL;
     parsed_config_data := [] |}.

(** The structure the loader falls back to:
    [{'global_settings': {}, 'domains': []}]. *)
Definition empty_structure : pydict :=
  [("global_settings", YDict []); ("domains", YList [])].

(* ================================================================= *)
(** ** The validated configuration *)

(** The dicts [{"name", "type", "ttl"}] and [{"domain_name", "records"}]
    that validation builds (lines 161 and 164). *)
Record RecordConfig := mkRecord {
  rec_name : string;
  rec_type : string;
  rec_ttl : Z
}.

Record DomainConfig := mkDomain {
  domain_name : string;
  records : list RecordConfig
}.

Definition record_dict (r : RecordConfig) : yaml :=
  YDict [("name", YStr (rec_name r)); ("type", YStr (rec_type r));
         ("ttl", YInt (rec_ttl r))].

Definition domain_dict (d : DomainConfig) : yaml :=
  YDict [("domain_name", YStr (domain_name d));
         ("records", YList (map record_dict (records d)))].

(* ================================================================= *)
(** ** load_and_validate_config (lines 24-171) *)

(** What opening and parsing the main configuration file gives
    (lines 36-38): a document, [FileNotFoundError], [yaml.YAMLError], or
    another exception. *)
Inductive read_outcome :=
| ReadOk (document : yaml)
| ReadNotFound
| ReadYamlError
| ReadOtherError.

(** What one call of the loader finds outside the process: the environment
    variable, the main file, and, for the case that the main file is
    absent, the result of seeding it from the default template
    (lines 46-80): the document read back, or [None] when one of the
    [except] clauses of the inner [try] is taken. *)
Record load_env := mkLoadEnv {
  env_api_key : option string;
  config_file : read_outcome;
  seeded_file : option yaml
}.

Inductive load_result :=
| LoadOk (last_known_ip : yaml) (valid_domain_configs : list DomainConfig)
| LoadFatal                      (* return None, None *)
| LoadRaise (e : pyexc).         (* an exception leaves the function *)

(** The pair that the caller unpacks. *)
Definition returned (r : load_result) : yaml * option (list DomainConfig) :=
  match r with
  | LoadOk ip ds => (ip, Some ds)
  | _ => (YNone, None)
  end.

(** ['k' not in d or not isinstance(d.get('k'), T)], then [d['k'] = fresh]
    (lines 91-92, 116-117, 183-184, 193-194). *)
Definition ensure_key (k : string) (is_T : yaml -> bool) (fresh : yaml)
    (d : pydict) : pydict :=
  if negb (dict_has k d) || negb (is_T (get YNone k d))
  then dict_set k fresh d else d.

(** Lines 101-108.  [int()] of the YAML value, or of the default when the
    value is [None]; non-positive values and the exceptions of the
    [except (ValueError, TypeError)] clause give the default; any other
    exception propagates. *)
Definition check_interval_of (_check_interval_yaml : yaml) : Z + pyexc :=
  let converted :=
    match _check_interval_yaml with
    | YNone => IntOk DEFAULT_CHECK_INTERVAL_SECONDS
    | v => py_int v
    end in
  match converted with
  | IntOk z => inl (if z <=? 0 then DEFAULT_CHECK_INTERVAL_SECONDS else z)
  | IntRaise ValueError | IntRaise TypeError => inl DEFAULT_CHECK_INTERVAL_SECONDS
  | IntRaise e => inr e
  end.

(** Lines 110-113. *)
Definition service_url_of (_public_ip_url_yaml : yaml) : string :=
  let url :=
    py_str (match _public_ip_url_yaml with
            | YNone => YStr DEFAULT_PUBLIC_IP_SERVICE_URL
            | v => v
            end) in
  if startswith "http://" url || startswith "https://" url
  then url else DEFAULT_PUBLIC_IP_SERVICE_URL.

(** The body of the record loop (lines 138-161): [None] is a [continue]. *)
Definition validate_record (record_item : yaml) : option RecordConfig :=
  match record_item with
  | YDict item =>
      if negb (dict_has "name" item && dict_has "type" item && dict_has "ttl" item)
      then None
      else
        let record_name := strip (py_str (get (YStr "") "name" item)) in
        let record_type := strip (upper (py_str (get (YStr "") "type" item))) in
        let record_ttl_str := strip (py_str (get (YStr "") "ttl" item)) in
        if (record_name =? "")%string then None
        else if negb ((record_type =? "A")%string || (record_type =? "AAAA")%string)
        then None
        else
          match int_of_str record_ttl_str with
          | Some record_ttl =>
              if record_ttl <=? 0 then None
              else Some (mkRecord record_name record_type record_ttl)
          | None => None
          end
  | _ => None
  end.

(** The record loop (lines 136-161). *)
Definition validate_records (items : list yaml) : list RecordConfig :=
  fold_left
    (fun valid_records_for_domain record_item =>
       match validate_record record_item with
       | Some r => (valid_records_for_domain ++ [r])%list
       | None => valid_records_for_domain
       end)
    items [].

(** The body of the domain loop (lines 124-166). *)
Definition validate_domain (domain_entry : yaml) : option DomainConfig :=
  match domain_entry with
  | YDict entry =>
      if negb (dict_has "domain_name" entry && dict_has "records" entry) then None
      else
        match get YNone "records" entry with
        | YList [] => None
        | YList items =>
            let current_domain_name :=
              strip (py_str (get (YStr "") "domain_name" entry)) in
            if (current_domain_name =? "")%string then None
            else
              match validate_records items with
              | [] => None
              | valid_records_for_domain =>
                  Some (mkDomain current_domain_name valid_records_for_domain)
              end
        | _ => None
        end
  | _ => None
  end.

(** The domain loop (lines 122-166). *)
Definition validate_domains (_domain_configs_yaml : list yaml) : list DomainConfig :=
  fold_left
    (fun valid_domain_configs domain_entry =>
       match validate_domain domain_entry with
       | Some d => (valid_domain_configs ++ [d])%list
       | None => valid_domain_configs
       end)
    _domain_configs_yaml [].

(** The exception of lines 91-92 on a document that is true but not a
    mapping.  A string or list that holds ['global_settings'] fails at
    [.get]; the others at [in] or at the item assignment. *)
Definition not_a_mapping_error (document : yaml) : pyexc :=
  match document with
  | YStr s => if substring_in "global_settings" s then AttributeError else TypeError
  | YList items =>
      if existsb (fun x => match x with
                           | YStr k => (k =? "global_settings")%string
                           | _ => false
                           end) items
      then AttributeError else TypeError
  | _ => TypeError
  end.

Definition items_of (v : yaml) : list yaml :=
  match v with YList items => items | _ => [] end.

Definition entries_of (v : yaml) : pydict :=
  match v with YDict entries => entries | _ => [] end.

(** The validation pipeline (lines 90-171) on the mapping assigned to
    [parsed_config_data]. *)
Definition validate_document (g : globals) (document : pydict)
    : globals * load_result :=
  let doc1 := ensure_key "global_settings" is_dict (YDict []) document in
  let gs := entries_of (get YNone "global_settings" doc1) in
  let _last_known_ip_yaml := get YNone "last_known_ip" gs in
  let _check_interval_yaml := get YNone "check_interval_seconds" gs in
  let _public_ip_url_yaml := get YNone "public_ip_service_url" gs in
  match check_interval_of _check_interval_yaml with
  | inr e =>
      (mkGlobals (MIJNHOST_API_KEY g) (CHECK_INTERVAL_SECONDS g)
         (PUBLIC_IP_SERVICE_URL g) doc1, LoadRaise e)
  | inl interval =>
      let url := service_url_of _public_ip_url_yaml in
      let doc2 := ensure_key "domains" is_list (YList []) doc1 in
      let _domain_configs_yaml := items_of (get YNone "domains" doc2) in
      (mkGlobals (MIJNHOST_API_KEY g) interval url doc2,
       LoadOk _last_known_ip_yaml (validate_domains _domain_configs_yaml))
  end.

(** Lines 40-41 and 65-67: an empty document becomes the empty structure;
    then the pipeline runs.  A true document that is not a mapping makes
    line 91 raise.  Neither call site catches the exception, so the
    process ends there; the globals of that case are not modelled further. *)
Definition validate_loaded (g : globals) (document : yaml)
    : globals * load_result :=
  if negb (truthy document) then validate_document g empty_structure
  else
    match document with
    | YDict entries => validate_document g entries
    | _ => (g, LoadRaise (not_a_mapping_error document))
    end.

Definition load_and_validate_config (env : load_env) (g : globals)
    : globals * load_result :=
  let g := mkGlobals (env_api_key env) (CHECK_INTERVAL_SECONDS g)
             (PUBLIC_IP_SERVICE_URL g) (parsed_config_data g) in
  match MIJNHOST_API_KEY g with
  | None | Some EmptyString => (g, LoadFatal)
  | Some _ =>
      match config_file env with
      | ReadOk document => validate_loaded g document
      | ReadNotFound =>
          match seeded_file env with
          | Some document => validate_loaded g document
          | None => validate_document g empty_structure
          end
      | ReadYamlError => (g, LoadFatal)
      | ReadOtherError => (g, LoadFatal)
      end
  end.

(* ================================================================= *)
(** ** cache_ip_in_yaml (lines 173-205) *)

(** The globals after the call; the new [parsed_config_data] is the
    document handed to [yaml.dump].  A failing write is only logged.
    The document is taken as a value here; [cache_ip_in_memory] below has
    the assignments on the objects, and [cache_ip_in_memory_view] says
    when the two agree. *)
Definition cache_ip_in_yaml (ip_address : string) (g : globals) : globals :=
  let doc0 :=
    if negb (truthy (YDict (parsed_config_data g)))
    then empty_structure else parsed_config_data g in
  let doc1 := ensure_key "global_settings" is_dict (YDict []) doc0 in
  let gs := entries_of (get YNone "global_settings" doc1) in
  let gs := dict_set "last_known_ip" (YStr ip_address) gs in
  let gs := dict_set "check_interval_seconds" (YInt (CHECK_INTERVAL_SECONDS g)) gs in
  let gs := dict_set "public_ip_service_url" (YStr (PUBLIC_IP_SERVICE_URL g)) gs in
  let doc2 := dict_set "global_settings" (YDict gs) doc1 in
  let doc3 := ensure_key "domains" is_list (YList []) doc2 in
  mkGlobals (MIJNHOST_API_KEY g) (CHECK_INTERVAL_SECONDS g)
    (PUBLIC_IP_SERVICE_URL g) doc3.

(* ================================================================= *)
(** ** The document as an object (lines 91-92, 116-117, 176-194)

    [validate_document] and [cache_ip_in_yaml] above take the document as
    a value.  The script builds no new document: it assigns to items of
    two dicts in place, the document and the dict under
    [global_settings].  On values that is the same as long as the second
    dict occurs nowhere else in the document.  It can: PyYAML loads an
    alias ([*name]) as the very object that carries the anchor
    ([&name]).  The functions below are the same lines with one dict kept
    as a single object, wherever it occurs.  The document itself can
    occur inside itself only in a recursive structure, which is no finite
    tree and outside [yaml]. *)

(** A value in which one dict, [Shared], may occur at several places. *)
Inductive node :=
| Leaf (v : yaml)
| Shared
| Seq (items : list node)
| Map (entries : list (string * node)).

(** The items of the shared dict and the items of [parsed_config_data]. *)
Record memory := mkMemory {
  shared_items : pydict;
  root_items : list (string * node)
}.

(** The value that a node shows, and [parsed_config_data] as the value
    that [yaml.dump] writes. *)
Fixpoint resolve (shared : pydict) (n : node) : yaml :=
  match n with
  | Leaf v => v
  | Shared => YDict shared
  | Seq items => YList (map (resolve shared) items)
  | Map entries =>
      YDict (map (fun kv : string * node =>
                    let (k, x) := kv in (k, resolve shared x)) entries)
  end.

Definition view_items (shared : pydict) (entries : list (string * node))
    : pydict :=
  map (fun kv : string * node => let (k, x) := kv in (k, resolve shared x))
    entries.

Definition view (m : memory) : pydict :=
  view_items (shared_items m) (root_items m).

(** A document without sharing. *)
Definition unshared (document : pydict) : memory :=
  mkMemory [] (map (fun kv : string * yaml => let (k, v) := kv in (k, Leaf v))
                 document).

(** [d.get(k)] and [d[k] = n] on a dict of nodes. *)
Fixpoint node_get (k : string) (d : list (string * node)) : option node :=
  match d with
  | [] => None
  | (k', n) :: d' => if (k =? k')%string then Some n else node_get k d'
  end.

Fixpoint node_set (k : string) (n : node) (d : list (string * node))
    : list (string * node) :=
  match d with
  | [] => [(k, n)]
  | (k', n') :: d' =>
      if (k =? k')%string then (k, n) :: d' else (k', n') :: node_set k n d'
  end.

Definition is_dict_node (n : node) : bool :=
  match n with
  | Leaf v => is_dict v
  | Shared | Map _ => true
  | Seq _ => false
  end.

Definition is_list_node (n : node) : bool :=
  match n with
  | Leaf v => is_list v
  | Seq _ => true
  | Shared | Map _ => false
  end.

(** ['k' not in d or not isinstance(d.get('k'), T)], then [d['k'] = fresh]
    on the document, [fresh] being a new object. *)
Definition ensure_item (k : string) (is_T : node -> bool) (fresh : yaml)
    (m : memory) : memory :=
  match node_get k (root_items m) with
  | Some n =>
      if is_T n then m
      else mkMemory (shared_items m) (node_set k (Leaf fresh) (root_items m))
  | None => mkMemory (shared_items m) (node_set k (Leaf fresh) (root_items m))
  end.

(** The assignments of the loader (lines 91-92 and 116-117). *)
Definition ensure_sections (m : memory) : memory :=
  ensure_item "domains" is_list_node (YList [])
    (ensure_item "global_settings" is_dict_node (YDict []) m).

(** [gs[k] = v] for [gs = parsed_config_data['global_settings']]
    (lines 186-189): the assignment goes to the object that is there.
    After lines 183-184 that is a dict; the last case is not reached. *)
Definition settings_assign (k : string) (v : yaml) (m : memory) : memory :=
  match node_get "global_settings" (root_items m) with
  | Some Shared => mkMemory (dict_set k v (shared_items m)) (root_items m)
  | Some (Leaf (YDict gs)) =>
      mkMemory (shared_items m)
        (node_set "global_settings" (Leaf (YDict (dict_set k v gs)))
           (root_items m))
  | Some (Map gs) =>
      mkMemory (shared_items m)
        (node_set "global_settings" (Map (node_set k (Leaf v) gs))
           (root_items m))
  | _ => m
  end.

(** Lines 176-194. *)
Definition cache_ip_in_memory (ip_address : string) (g : globals) (m : memory)
    : memory :=
  let m :=
    match root_items m with
    | [] => mkMemory (shared_items m)
              [("global_settings", Leaf (YDict [])); ("domains", Leaf (YList []))]
    | _ => m
    end in
  let m := ensure_item "global_settings" is_dict_node (YDict []) m in
  let m := settings_assign "last_known_ip" (YStr ip_address) m in
  let m :=
    settings_assign "check_interval_seconds" (YInt (CHECK_INTERVAL_SECONDS g)) m in
  let m :=
    settings_assign "public_ip_service_url" (YStr (PUBLIC_IP_SERVICE_URL g)) m in
  ensure_item "domains" is_list_node (YList []) m.

(* ================================================================= *)
(** ** get_public_ip (lines 208-226) *)

(** The answer of the IP service as the function sees it: the value under
    ['ip'] in the JSON body, which the service's interface makes a string,
    or [None] when the request, the status or the decoding fails or the
    key is absent.  An empty value is reported as a failure (line 215). *)
Definition get_public_ip (response_ip : option string) : option string :=
  match response_ip with
  | Some ip_address => if (ip_address =? "")%string then None else Some ip_address
  | None => None
  end.

(* ================================================================= *)
(** ** update_dns_record (lines 228-280) *)

(** The PATCH request of line 257: URL, API key header and the fields of
    [payload["record"]]. *)
Record dns_request := mkRequest {
  api_url : string;
  header_api_key : option string;
  payload_type : string;
  payload_name : string;
  payload_value : string;
  payload_ttl : Z
}.

(** Lines 231-236. *)
Definition is_apex (record_name : string) : bool :=
  (record_name =? "@")%string || (record_name =? "")%string.

Definition fqdn_record_name (domain_name_param record_name : string) : string :=
  if is_apex record_name then domain_name_param ++ "."
  else record_name ++ "." ++ domain_name_param ++ ".".

Definition display_name (record_name : string) : string :=
  if is_apex record_name then "@" else record_name.

Definition update_request (api_key : option string)
    (ip_address domain_name_param record_name record_type : string)
    (record_ttl : Z) : dns_request :=
  {| api_url := "https://mijn.host/api/v2/domains/" ++ domain_name_param ++ "/dns";
     header_api_key := api_key;
     payload_type := record_type;
     payload_name := fqdn_record_name domain_name_param record_name;
     payload_value := ip_address;
     payload_ttl := record_ttl |}.

(** The provider: whether the PATCH of a request succeeds (a 2xx answer and
    no exception), given the number of requests sent before it in the same
    cycle. *)
Definition dns_api := nat -> dns_request -> bool.

(** [True] exactly when the request succeeds; every failure is caught and
    turned into [False] (lines 255-280). *)
Definition update_dns_record (api : dns_api) (sent : nat) (api_key : option string)
    (ip_address domain_name_param record_name record_type : string)
    (record_ttl : Z) : dns_request * bool :=
  let request :=
    update_request api_key ip_address domain_name_param record_name
      record_type record_ttl in
  (request, api sent request).

(* ================================================================= *)
(** ** Main execution logic (lines 283-379) *)

(** The lines the main block logs, by the place that logs them. *)
Inductive log_line :=
| LogStarted                                   (* 284 *)
| LogCriticalNoApiKeyAtStartup                 (* 291 *)
| LogConfigNotFoundOnStartup                   (* 298 *)
| LogInitialSettings                           (* 301-303 *)
| LogInitialIp (known : bool)                  (* 306, 308 *)
| LogNoDomainsInitially                        (* 311 *)
| LogConfigInaccessible                        (* 320 *)
| LogChangeDetected                            (* 325 *)
| LogCriticalApiKeyUnset                       (* 331 *)
| LogCriticalReloadFailed                      (* 336 *)
| LogConfigReloaded                            (* 341 *)
| LogNoDomainsAfterReload                      (* 343 *)
| LogIpDiffers                                 (* 350 *)
| LogNoDomainsCachingIp                        (* 353 *)
| LogProcessingDomain (name : string)          (* 360 *)
| LogAllUpdatesSuccessful                      (* 367 *)
| LogUpdatesFailed                             (* 371 *)
| LogNoUpdateNeeded                            (* 373 *)
| LogNoPublicIp                                (* 375 *)
| LogWaiting (seconds : Z).                    (* 378 *)

(** What the main block does to the outside, in order.  The log lines of
    the called functions are not recorded. *)
Inductive event :=
| EvLog (line : log_line)
| EvLoadConfig                                 (* load_and_validate_config() *)
| EvGetPublicIp (url : string)                 (* get_public_ip() *)
| EvPatch (request : dns_request) (ok : bool)  (* update_dns_record(...) *)
| EvCacheIp (document : pydict)                (* cache_ip_in_yaml(...) *)
| EvSleep (seconds : Z).                       (* time.sleep(...) *)

(** The variables of the main block together with the module globals. *)
Record loop_state := mkState {
  module_globals : globals;
  cached_ip_from_config : yaml;
  domain_configurations : option (list DomainConfig);
  dns_config_last_modified_time : Z
}.

(** What one iteration meets outside the process: the modification time of
    the configuration file ([None] for [OSError]), what a reload would
    find, the answer of the IP service and the DNS provider. *)
Record iteration_env := mkEnv {
  getmtime : option Z;
  reload_env : load_env;
  ip_response : option string;
  provider : dns_api
}.

(** [current_public_ip != cached_ip_from_config], for a string on the left. *)
Definition ip_differs (current_public_ip : string) (cached : yaml) : bool :=
  match cached with
  | YStr c => negb (current_public_ip =? c)%string
  | _ => true
  end.

(** The locals of the update loops (lines 357-364): the aggregate flag, the
    number of requests sent so far, and the events so far. *)
Record update_pass := mkPass {
  all_updates_successful_for_new_ip : bool;
  sent_requests : nat;
  pass_events : list event
}.

(** The inner loop (lines 361-364). *)
Definition update_records (api : dns_api) (api_key : option string)
    (current_public_ip domain_name : string) (recs : list RecordConfig)
    (pass : update_pass) : update_pass :=
  fold_left
    (fun pass record =>
       let (request, ok) :=
         update_dns_record api (sent_requests pass) api_key current_public_ip
           domain_name (rec_name record) (rec_type record) (rec_ttl record) in
       mkPass
         (if negb ok then false else all_updates_successful_for_new_ip pass)
         (S (sent_requests pass))
         (pass_events pass ++ [EvPatch request ok])%list)
    recs pass.

(** The body of the outer loop (lines 359-364). *)
Definition update_domain (api : dns_api) (api_key : option string)
    (current_public_ip : string) (pass : update_pass)
    (domain_config : DomainConfig) : update_pass :=
  let domain_name := domain_name domain_config in
  update_records api api_key current_public_ip domain_name
    (records domain_config)
    (mkPass (all_updates_successful_for_new_ip pass) (sent_requests pass)
       (pass_events pass ++ [EvLog (LogProcessingDomain domain_name)])%list).

(** The outer loop (lines 357-364). *)
Definition update_domains (api : dns_api) (api_key : option string)
    (current_public_ip : string) (domain_configs : list DomainConfig)
    : update_pass :=
  fold_left (update_domain api api_key current_public_ip) domain_configs
    (mkPass true 0 []).

(** Lines 354-355 and 368-369: save, then advance the in-memory cache. *)
Definition cache_and_remember (current_public_ip : string) (st : loop_state)
    : list event * loop_state :=
  let g := cache_ip_in_yaml current_public_ip (module_globals st) in
  ([EvCacheIp (parsed_config_data g)],
   mkState g (YStr current_public_ip) (domain_configurations st)
     (dns_config_last_modified_time st)).

(** Lines 345-379: resolve the public IP, update and cache as needed, then
    sleep. *)
Definition reconcile (env : iteration_env) (st : loop_state)
    : list event * loop_state :=
  let g := module_globals st in
  let current_public_ip := get_public_ip (ip_response env) in
  let (events, st') :=
    match current_public_ip with
    | Some current_public_ip =>
        if ip_differs current_public_ip (cached_ip_from_config st) then
          match domain_configurations st with
          | None | Some [] =>
              let (saved, st') := cache_and_remember current_public_ip st in
              (EvLog LogIpDiffers :: EvLog LogNoDomainsCachingIp :: saved, st')
          | Some domain_configs =>
              let pass :=
                update_domains (provider env) (MIJNHOST_API_KEY g)
                  current_public_ip domain_configs in
              if all_updates_successful_for_new_ip pass then
                let (saved, st') := cache_and_remember current_public_ip st in
                (EvLog LogIpDiffers :: pass_events pass
                   ++ EvLog LogAllUpdatesSuccessful :: saved, st')%list
              else
                (EvLog LogIpDiffers :: pass_events pass
                   ++ [EvLog LogUpdatesFailed], st)%list
          end
        else ([EvLog LogNoUpdateNeeded], st)
    | None => ([EvLog LogNoPublicIp], st)
    end in
  let interval := CHECK_INTERVAL_SECONDS (module_globals st') in
  (EvGetPublicIp (PUBLIC_IP_SERVICE_URL g) :: events
     ++ [EvLog (LogWaiting interval); EvSleep interval], st')%list.

(** How a step of the program ends: it goes on in a new state, it exits
    with a code, or an exception that nothing catches ends the process. *)
Inductive outcome :=
| Continues (st : loop_state)
| Exits (code : Z)
| Dies (e : pyexc).

(** One iteration of [while True] (lines 313-379), up to the return of the
    [time.sleep] that ends it (lines 332, 338, 379): the events, of which
    that call is the last, and with [Continues] the state in which the
    next iteration starts once the call has returned.  Whether it returns is
    for [round], below. *)
Definition iteration (env : iteration_env) (st : loop_state)
    : list event * outcome :=
  let current_mtime := getmtime env in
  (* lines 316-322 *)
  let (stat_events, last_modified) :=
    match current_mtime with
    | Some _ => ([], dns_config_last_modified_time st)
    | None =>
        ((if negb (dns_config_last_modified_time st =? 0)
          then [EvLog LogConfigInaccessible] else []), 0)
    end in
  let st := mkState (module_globals st) (cached_ip_from_config st)
              (domain_configurations st) last_modified in
  let go_on (events : list event) (st : loop_state) :=
    let (more, st') := reconcile env st in
    ((stat_events ++ events ++ more)%list, Continues st') in
  match current_mtime with
  | Some mtime =>
      if negb (mtime =? last_modified) then
        (* lines 325-343 *)
        let (g, result) :=
          load_and_validate_config (reload_env env) (module_globals st) in
        match result with
        | LoadRaise e =>
            ((stat_events ++ [EvLog LogChangeDetected; EvLoadConfig])%list, Dies e)
        | _ =>
            let (cached_ip, domain_configs) := returned result in
            let st := mkState g cached_ip domain_configs mtime in
            match MIJNHOST_API_KEY g, domain_configs with
            | None, _ =>
                ((stat_events ++
                  [EvLog LogChangeDetected; EvLoadConfig;
                   EvLog LogCriticalApiKeyUnset;
                   EvSleep DEFAULT_CHECK_INTERVAL_SECONDS])%list,
                 Continues st)
            | Some _, None =>
                ((stat_events ++
                  [EvLog LogChangeDetected; EvLoadConfig;
                   EvLog LogCriticalReloadFailed;
                   EvSleep (if CHECK_INTERVAL_SECONDS g >? 0
                            then CHECK_INTERVAL_SECONDS g
                            else DEFAULT_CHECK_INTERVAL_SECONDS)])%list,
                 Continues st)
            | Some _, Some ds =>
                go_on
                  (EvLog LogChangeDetected :: EvLoadConfig :: EvLog LogConfigReloaded
                   :: match ds with
                      | [] => [EvLog LogNoDomainsAfterReload]
                      | _ => []
                      end)
                  st
            end
        end
      else go_on [] st
  | None => go_on [] st
  end.

(** The statements before the loop (lines 284-311). *)
Definition startup (env : load_env) (mtime : option Z) : list event * outcome :=
  let (g, result) := load_and_validate_config env initial_globals in
  match result with
  | LoadRaise e => ([EvLog LogStarted; EvLoadConfig], Dies e)
  | _ =>
      let (cached_ip, domain_configs) := returned result in
      match MIJNHOST_API_KEY g with
      | None =>
          ([EvLog LogStarted; EvLoadConfig; EvLog LogCriticalNoApiKeyAtStartup],
           Exits 1)
      | Some _ =>
          let (stat_events, last_modified) :=
            match mtime with
            | Some m => ([], m)
            | None => ([EvLog LogConfigNotFoundOnStartup], 0)
            end in
          ((EvLog LogStarted :: EvLoadConfig :: stat_events
            ++ EvLog LogInitialSettings
            :: EvLog (LogInitialIp (truthy cached_ip))
            :: match domain_configs with
               | None | Some [] => [EvLog LogNoDomainsInitially]
               | _ => []
               end)%list,
           Continues (mkState g cached_ip domain_configs last_modified))
      end
  end.

(** The duration that the iteration's last call, [time.sleep], was given. *)
Definition slept (events : list event) : option Z :=
  match last events EvLoadConfig with
  | EvSleep seconds => Some seconds
  | _ => None
  end.

(** One iteration with the outcome of its [time.sleep]: none of the three
    calls is inside a [try], so an exception it raises ends the process. *)
Definition round (env : iteration_env) (st : loop_state)
    : list event * outcome :=
  match iteration env st with
  | (events, Continues st') =>
      (events,
       match slept events with
       | Some seconds =>
           match sleep_error seconds with
           | Some e => Dies e
           | None => Continues st'
           end
       | None => Continues st'
       end)
  | stopped => stopped
  end.

(** The loop, for as many iterations as there are environments. *)
Fixpoint run (envs : list iteration_env) (st : loop_state)
    : list event * outcome :=
  match envs with
  | [] => ([], Continues st)
  | env :: envs' =>
      match round env st with
      | (events, Continues st') =>
          let (more, final) := run envs' st' in ((events ++ more)%list, final)
      | stopped => stopped
      end
  end.

(* ================================================================= *)
(** ** Vocabulary of the statements *)

(** Strings without white space, and strings that do not start with it. *)
Fixpoint no_space (s : string) : bool :=
  match s with
  | EmptyString => true
  | String c s' => negb (is_space c) && no_space s'
  end.

Definition no_leading_space (s : string) : bool :=
  match s with
  | EmptyString => true
  | String c _ => negb (is_space c)
  end.

(** The entries that [f] accepts, in their order. *)
Fixpoint keep {A B : Type} (f : A -> option B) (l : list A) : list B :=
  match l with
  | [] => []
  | x :: l' =>
      match f x with
      | Some y => y :: keep f l'
      | None => keep f l'
      end
  end.

(** *** Record and domain entries of the raw document *)

Definition name_of (item : pydict) : string :=
  strip (py_str (get (YStr "") "name" item)).

Definition type_of (item : pydict) : string :=
  strip (upper (py_str (get (YStr "") "type" item))).

Definition ttl_of (item : pydict) : option Z :=
  int_of_str (strip (py_str (get (YStr "") "ttl" item))).

(** A key among [name], [type], [ttl] is missing (an entry that is no
    mapping has none of them). *)
Definition missing_record_key (record_item : yaml) : bool :=
  match record_item with
  | YDict item =>
      negb (dict_has "name" item && dict_has "type" item && dict_has "ttl" item)
  | _ => true
  end.

(** The type does not normalise to [A] or [AAAA]. *)
Definition invalid_type (record_item : yaml) : bool :=
  let t := type_of (entries_of record_item) in
  negb ((t =? "A")%string || (t =? "AAAA")%string).

(** The TTL is not a positive integer. *)
Definition invalid_ttl (record_item : yaml) : bool :=
  match ttl_of (entries_of record_item) with
  | Some ttl => ttl <=? 0
  | None => true
  end.

Definition malformed_record (record_item : yaml) : bool :=
  missing_record_key record_item || invalid_type record_item
  || invalid_ttl record_item.

(** The name is empty after trimming. *)
Definition empty_record_name (record_item : yaml) : bool :=
  (name_of (entries_of record_item) =? "")%string.

(** The entry lacks [domain_name] or [records]. *)
Definition lacks_domain_keys (domain_entry : yaml) : bool :=
  match domain_entry with
  | YDict entry => negb (dict_has "domain_name" entry && dict_has "records" entry)
  | _ => true
  end.

Definition domain_name_of (domain_entry : yaml) : string :=
  strip (py_str (get (YStr "") "domain_name" (entries_of domain_entry))).

(** The record entries of a domain entry: the items of its [records] when
    that is a sequence. *)
Definition record_items_of (domain_entry : yaml) : list yaml :=
  items_of (get YNone "records" (entries_of domain_entry)).

(** The document that [yaml.safe_load] returns to the loader, from the main
    file (line 38) or from the freshly seeded one (line 63). *)
Definition document_read (env : load_env) : option yaml :=
  match config_file env with
  | ReadOk document => Some document
  | ReadNotFound => seeded_file env
  | _ => None
  end.

(** *** Normalised configurations *)

Definition normal_record (r : RecordConfig) : bool :=
  (strip (rec_name r) =? rec_name r)%string
  && negb (rec_name r =? "")%string
  && ((rec_type r =? "A")%string || (rec_type r =? "AAAA")%string)
  && (0 <? rec_ttl r).

Definition normal_domain (d : DomainConfig) : bool :=
  (strip (domain_name d) =? domain_name d)%string
  && negb (domain_name d =? "")%string
  && match records d with [] => false | _ => true end
  && forallb normal_record (records d).

(** The TTLs are integers that [str()] accepts, as every integer is that
    [int()] has read from a string. *)
Definition printable_record (r : RecordConfig) : bool :=
  printable_int (rec_ttl r).

Definition printable_domain (d : DomainConfig) : bool :=
  forallb printable_record (records d).

Definition has_scheme (url : string) : bool :=
  startswith "http://" url || startswith "https://" url.

(** The shared dict occurs in the node. *)
Fixpoint mentions_shared (n : node) : bool :=
  match n with
  | Leaf _ => false
  | Shared => true
  | Seq items => existsb mentions_shared items
  | Map entries =>
      existsb (fun kv : string * node => let (_, x) := kv in mentions_shared x)
        entries
  end.

(** A document in which the mapping under [global_settings] has an anchor
    and is the one entry of [domains], as an alias:
    [{global_settings: &gs {last_known_ip: 203.0.113.1}, domains: [*gs]}]. *)
Definition example_aliased_memory : memory :=
  mkMemory [("last_known_ip", YStr "203.0.113.1")]
    [("global_settings", Shared); ("domains", Seq [Shared])].

(** *** Values inside the limits of the model *)

Definition ascii_only (s : string) : bool :=
  forallb (fun c => (nat_of_ascii c <? 128)%nat) (list_ascii_of_string s).

(** The strings and keys of the value are ASCII and its integers have at
    most [MAX_STR_DIGITS] digits: [str()] does not raise on it, and
    [strip] and [upper] are on its strings what they are in Python. *)
Fixpoint plain (v : yaml) : bool :=
  match v with
  | YNone | YBool _ => true
  | YInt z => printable_int z
  | YFloat (FFinite r t) => ascii_only r && printable_int t
  | YFloat _ => true
  | YStr s => ascii_only s
  | YList items => forallb plain items
  | YDict entries =>
      forallb (fun kv : string * yaml => let (k, x) := kv in ascii_only k && plain x)
        entries
  end.

(** The document that holds the result of a validation pass: the three
    global settings and the validated domains, as the dicts the loader
    builds. *)
Definition normalized_document (last_known_ip : yaml) (interval : Z)
    (url : string) (domains : list DomainConfig) : pydict :=
  [("global_settings",
    YDict [("last_known_ip", last_known_ip);
           ("check_interval_seconds", YInt interval);
           ("public_ip_service_url", YStr url)]);
   ("domains", YList (map domain_dict domains))].

(** A raw document for the examples: a non-positive interval, a domain
    with an invalid record and with a valid one that validation has to
    normalise, and a domain without a valid record. *)
Definition example_raw_document : pydict :=
  [("global_settings",
    YDict [("last_known_ip", YStr "203.0.113.1");
           ("check_interval_seconds", YInt (-5))]);
   ("domains",
    YList [YDict [("domain_name", YStr " example.com ");
                  ("records",
                   YList [YDict [("name", YStr "www"); ("type", YStr "CNAME");
                                 ("ttl", YInt 300)];
                          YDict [("name", YStr "@ "); ("type", YStr "a");
                                 ("ttl", YStr "3_00")]])];
           YDict [("domain_name", YStr "example.org");
                  ("records",
                   YList [YDict [("name", YStr "www"); ("type", YStr "A");
                                 ("ttl", YInt 0)]])]])].

(** *** Events of a cycle *)

(** The requests of one full batch: one per record of every domain, in
    configuration order. *)
Definition cycle_requests (api_key : option string) (ip_address : string)
    (domains : list DomainConfig) : list dns_request :=
  flat_map
    (fun d =>
       map (fun r => update_request api_key ip_address (domain_name d)
                       (rec_name r) (rec_type r) (rec_ttl r))
           (records d))
    domains.

(** The requests of a sequence together with the provider's answers, the
    first request being number [sent] of the cycle. *)
Fixpoint exchanges (api : dns_api) (sent : nat) (requests : list dns_request)
    : list (dns_request * bool) :=
  match requests with
  | [] => []
  | request :: rest => (request, api sent request) :: exchanges api (S sent) rest
  end.

Definition patch_event (x : dns_request * bool) : event :=
  EvPatch (fst x) (snd x).

(** The calls of [update_dns_record] among the events, with their results. *)
Fixpoint patches (events : list event) : list (dns_request * bool) :=
  match events with
  | [] => []
  | EvPatch request ok :: rest => (request, ok) :: patches rest
  | _ :: rest => patches rest
  end.

(** The documents that [cache_ip_in_yaml] was called to write. *)
Fixpoint saves (events : list event) : list pydict :=
  match events with
  | [] => []
  | EvCacheIp document :: rest => document :: saves rest
  | _ :: rest => saves rest
  end.

(** The durations that [time.sleep] was called with. *)
Fixpoint sleeps (events : list event) : list Z :=
  match events with
  | [] => []
  | EvSleep seconds :: rest => seconds :: sleeps rest
  | _ :: rest => sleeps rest
  end.

(** The URLs that [get_public_ip] was called on. *)
Fixpoint lookups (events : list event) : list string :=
  match events with
  | [] => []
  | EvGetPublicIp url :: rest => url :: lookups rest
  | _ :: rest => lookups rest
  end.

(** The settings in memory are valid: a positive interval and a service
    URL with a scheme. *)
Definition settings_ok (g : globals) : Prop :=
  0 < CHECK_INTERVAL_SECONDS g /\ has_scheme (PUBLIC_IP_SERVICE_URL g) = true.

(** The calls of [get_public_ip] and of [load_and_validate_config]. *)
Definition is_resolve (e : event) : bool :=
  match e with EvGetPublicIp _ => true | _ => false end.

Definition is_load (e : event) : bool :=
  match e with EvLoadConfig => true | _ => false end.

(** Events without an update cycle: no IP lookup, no DNS update, no save. *)
Definition no_cycle (events : list event) : Prop :=
  existsb is_resolve events = false /\ patches events = [] /\ saves events = [].

(** A state and two environments for the examples: the configuration of
    [example_raw_document] loaded at modification time 5 with the cached IP
    203.0.113.1; then the file changed at time 6 into something that is
    not YAML, the IP service answering 203.0.113.9. *)
Definition example_state : loop_state :=
  mkState
    (mkGlobals (Some "key") 300 DEFAULT_PUBLIC_IP_SERVICE_URL example_raw_document)
    (YStr "203.0.113.1")
    (Some [mkDomain "example.com" [mkRecord "@" "A" 300]])
    5.

Definition example_unparsable_env : iteration_env :=
  mkEnv (Some 6) (mkLoadEnv (Some "key") ReadYamlError None)
    (Some "203.0.113.9") (fun _ _ => true).

(** The file is as loaded; the IP service answers [ip] and the provider
    answers every request with [ok]. *)
Definition example_env (ip : string) (ok : bool) : iteration_env :=
  mkEnv (Some 5) (mkLoadEnv (Some "key") (ReadOk (YDict example_raw_document)) None)
    (Some ip) (fun _ _ => ok).

(* ================================================================= *)
(** * Facts *)

(** ** Strings *)

Section StringFacts.

Lemma rstrip_rstrip (s : string) : rstrip (rstrip s) = rstrip s.
Proof.
  induction s as [|c s IH]; simpl; [reflexivity|].
  destruct (rstrip s) as [|c' r] eqn:E.
  - destruct (is_space c) eqn:Hc; simpl; [reflexivity|].
    now rewrite Hc.
  - change (rstrip (String c (String c' r)))
      with (match rstrip (String c' r) with
            | EmptyString => if is_space c then EmptyString else String c EmptyString
            | r0 => String c r0
            end).
    now rewrite IH.
Qed.

Lemma lstrip_fixed (s : string) : no_leading_space s = true -> lstrip s = s.
Proof.
  destruct s as [|c s]; simpl; [reflexivity|].
  now destruct (is_space c).
Qed.

Lemma lstrip_no_leading_space (s : string) : no_leading_space (lstrip s) = true.
Proof.
  induction s as [|c s IH]; simpl; [reflexivity|].
  destruct (is_space c) eqn:E; [assumption|].
  simpl. now rewrite E.
Qed.

Lemma rstrip_no_leading_space (s : string) :
  no_leading_space s = true -> no_leading_space (rstrip s) = true.
Proof.
  destruct s as [|c s]; simpl; [reflexivity|].
  intros Hc. destruct (rstrip s); [|exact Hc].
  destruct (is_space c) eqn:E; [reflexivity|].
  simpl. now rewrite E.
Qed.

Lemma strip_strip (s : string) : strip (strip s) = strip s.
Proof.
  unfold strip.
  rewrite (lstrip_fixed (rstrip (lstrip s))).
  - apply rstrip_rstrip.
  - apply rstrip_no_leading_space, lstrip_no_leading_space.
Qed.

Lemma rstrip_no_space (s : string) : no_space s = true -> rstrip s = s.
Proof.
  induction s as [|c s IH]; simpl; [reflexivity|].
  intros H. apply andb_prop in H. destruct H as [Hc Hs].
  rewrite (IH Hs). destruct s; [|reflexivity].
  now destruct (is_space c).
Qed.

Lemma strip_no_space (s : string) : no_space s = true -> strip s = s.
Proof.
  intros H. unfold strip. rewrite lstrip_fixed.
  - now apply rstrip_no_space.
  - destruct s; simpl in *; [reflexivity|].
    now apply andb_prop in H.
Qed.

End StringFacts.

(** ** Integers and text *)

Section IntegerText.

Lemma int_space_is_space (c : ascii) : is_int_space c = true -> is_space c = true.
Proof.
  unfold is_int_space, is_space. cbv zeta.
  destruct ((9 <=? nat_of_ascii c) && (nat_of_ascii c <=? 13))%nat; [reflexivity|].
  cbn [orb]. intros H. apply Nat.eqb_eq in H. now rewrite H.
Qed.

Lemma not_space_not_int_space (c : ascii) :
  is_space c = false -> is_int_space c = false.
Proof.
  intros H. destruct (is_int_space c) eqn:E; [|reflexivity].
  apply int_space_is_space in E. congruence.
Qed.

Lemma int_lstrip_no_space (s : string) : no_space s = true -> int_lstrip s = s.
Proof.
  destruct s as [|c s]; [reflexivity|]. cbn [no_space int_lstrip]. intros H.
  apply andb_prop in H. destruct H as [Hc _]. apply negb_true_iff in Hc.
  now rewrite (not_space_not_int_space c Hc).
Qed.

Lemma int_rstrip_no_space (s : string) : no_space s = true -> int_rstrip s = s.
Proof.
  induction s as [|c s IH]; [reflexivity|]. cbn [no_space int_rstrip]. intros H.
  apply andb_prop in H. destruct H as [Hc Hs]. apply negb_true_iff in Hc.
  rewrite (IH Hs). destruct s; [|reflexivity].
  now rewrite (not_space_not_int_space c Hc).
Qed.

Lemma digits_no_space (d : Decimal.uint) :
  no_space (NilEmpty.string_of_uint d) = true.
Proof. induction d; simpl; auto. Qed.

Lemma literal_digits_of_uint (d : Decimal.uint) (after_digit : bool) :
  literal_digits after_digit (NilEmpty.string_of_uint d)
  = match d with
    | Decimal.Nil => if after_digit then Some EmptyString else None
    | _ => Some (NilEmpty.string_of_uint d)
    end.
Proof.
  revert after_digit.
  induction d; intros after_digit; [reflexivity| ..];
    cbn [NilEmpty.string_of_uint literal_digits];
    cbv [Ascii.eqb Bool.eqb is_digit nat_of_ascii]; simpl;
    rewrite IHd; destruct d; reflexivity.
Qed.

Lemma length_string_of_uint (d : Decimal.uint) :
  String.length (NilEmpty.string_of_uint d) = Decimal.nb_digits d.
Proof. induction d; simpl; congruence. Qed.

Lemma unsigned_of_digits (d : Decimal.uint) :
  d <> Decimal.Nil ->
  (Decimal.nb_digits d <= MAX_STR_DIGITS)%nat ->
  unsigned_of_str (NilEmpty.string_of_uint d) = Some (Z.of_uint d).
Proof.
  intros Hd Hlen. unfold unsigned_of_str.
  rewrite literal_digits_of_uint.
  assert (E : (String.length (NilEmpty.string_of_uint d) <=? MAX_STR_DIGITS)%nat
              = true)
    by (apply Nat.leb_le; now rewrite length_string_of_uint).
  destruct d; try congruence; now rewrite E, NilEmpty.usu.
Qed.

Lemma pos_to_uint_not_nil (p : positive) : Pos.to_uint p <> Decimal.Nil.
Proof.
  intros H.
  assert (E : Z.of_int (Z.to_int (Z.pos p)) = Z.pos p) by apply DecimalZ.of_to.
  simpl in E. rewrite H in E. discriminate E.
Qed.

Lemma of_uint_pos (p : positive) : Z.of_uint (Pos.to_uint p) = Z.pos p.
Proof. exact (DecimalZ.of_to (Z.pos p)). Qed.

Lemma digits_head (d : Decimal.uint) :
  d <> Decimal.Nil ->
  exists c r, NilEmpty.string_of_uint d = String c r
              /\ Ascii.eqb c "-" = false /\ Ascii.eqb c "+" = false.
Proof.
  destruct d; [congruence| ..]; intros _; simpl; eauto.
Qed.

Lemma str_of_int_no_space (z : Z) : no_space (str_of_int z) = true.
Proof.
  destruct z; unfold str_of_int; simpl; auto using digits_no_space.
Qed.

Lemma printable_pos (p : positive) :
  printable_int (Z.pos p) = true ->
  (Decimal.nb_digits (Pos.to_uint p) <= MAX_STR_DIGITS)%nat.
Proof.
  unfold printable_int, digits_of_int. cbn [Z.to_int].
  rewrite length_string_of_uint. apply Nat.leb_le.
Qed.

Lemma printable_neg (p : positive) :
  printable_int (Z.neg p) = true ->
  (Decimal.nb_digits (Pos.to_uint p) <= MAX_STR_DIGITS)%nat.
Proof.
  unfold printable_int, digits_of_int. cbn [Z.to_int].
  rewrite length_string_of_uint. apply Nat.leb_le.
Qed.

(** [int(str(z)) == z], for an int that [str()] accepts *)
Lemma int_of_str_of_int (z : Z) :
  printable_int z = true -> int_of_str (str_of_int z) = Some z.
Proof.
  intros Hz. unfold int_of_str.
  rewrite (int_lstrip_no_space _ (str_of_int_no_space z)).
  rewrite (int_rstrip_no_space _ (str_of_int_no_space z)).
  destruct z as [|p|p]; [reflexivity| |].
  - unfold str_of_int; simpl.
    destruct (digits_head _ (pos_to_uint_not_nil p)) as (c & r & E & Hm & Hp).
    rewrite E, Hm, Hp, <- E.
    rewrite unsigned_of_digits
      by (apply pos_to_uint_not_nil || now apply printable_pos).
    now rewrite of_uint_pos.
  - unfold str_of_int; simpl.
    rewrite unsigned_of_digits
      by (apply pos_to_uint_not_nil || now apply printable_neg).
    now rewrite of_uint_pos.
Qed.

(** What [int()] reads from a string, [str()] accepts. *)
Lemma printable_of_uint (u : Decimal.uint) :
  (Decimal.nb_digits u <= MAX_STR_DIGITS)%nat ->
  printable_int (Z.of_uint u) = true /\ printable_int (- Z.of_uint u) = true.
Proof.
  intros Hlen. unfold printable_int, digits_of_int. split; apply Nat.leb_le.
  - change (Z.of_uint u) with (Z.of_int (Decimal.Pos u)).
    rewrite DecimalZ.to_of. cbn [Decimal.norm].
    rewrite length_string_of_uint.
    destruct (Decimal.uint_eq_dec u Decimal.Nil) as [->|Hne].
    + cbn. unfold MAX_STR_DIGITS. lia.
    + pose proof (DecimalFacts.nb_digits_unorm u Hne). lia.
  - change (- Z.of_uint u) with (Z.of_int (Decimal.Neg u)).
    rewrite DecimalZ.to_of. cbn [Decimal.norm].
    pose proof (DecimalFacts.nb_digits_nzhead u) as Hnz.
    destruct (Decimal.nzhead u) eqn:E;
      rewrite length_string_of_uint;
      try (cbn [Decimal.nb_digits] in *; lia).
    cbn. unfold MAX_STR_DIGITS. lia.
Qed.

Lemma unsigned_of_str_printable (s : string) (z : Z) :
  unsigned_of_str s = Some z ->
  printable_int z = true /\ printable_int (- z) = true.
Proof.
  unfold unsigned_of_str.
  destruct (literal_digits false s) as [ds|]; [|discriminate].
  destruct (String.length ds <=? MAX_STR_DIGITS)%nat eqn:Hlen; [|discriminate].
  destruct (NilEmpty.uint_of_string ds) as [u|] eqn:Hu; [|discriminate].
  cbn [option_map]. intros [= <-].
  apply printable_of_uint.
  apply NilEmpty.sus in Hu. rewrite <- length_string_of_uint, Hu.
  now apply Nat.leb_le.
Qed.

Lemma int_of_str_printable (s : string) (z : Z) :
  int_of_str s = Some z -> printable_int z = true.
Proof.
  unfold int_of_str.
  destruct (int_rstrip (int_lstrip s)) as [|c r]; [discriminate|].
  destruct (Ascii.eqb c "-").
  - destruct (unsigned_of_str r) as [n|] eqn:E; [|discriminate].
    cbn [option_map]. intros [= <-].
    exact (proj2 (unsigned_of_str_printable _ _ E)).
  - destruct (Ascii.eqb c "+"); intros E;
      exact (proj1 (unsigned_of_str_printable _ _ E)).
Qed.

End IntegerText.

(** ** Loops that collect the accepted entries *)

Section CollectingLoops.

Context {A B : Type} (f : A -> option B).

Lemma collect_keep (l : list A) (acc : list B) :
  fold_left
    (fun acc x => match f x with Some y => (acc ++ [y])%list | None => acc end)
    l acc
  = (acc ++ keep f l)%list.
Proof.
  revert acc. induction l as [|x l IH]; intros acc; simpl.
  - now rewrite app_nil_r.
  - rewrite IH. destruct (f x); [|reflexivity].
    now rewrite <- app_assoc.
Qed.

Lemma keep_In (l : list A) (y : B) :
  In y (keep f l) <-> exists x, In x l /\ f x = Some y.
Proof.
  induction l as [|x l IH]; simpl.
  - split; [contradiction|]. now intros (x & [] & _).
  - destruct (f x) as [y'|] eqn:E; simpl; rewrite IH; split.
    + intros [->|(x' & Hin & Hx')]; eauto.
    + intros (x' & [->|Hin] & Hx'); [left; congruence|eauto].
    + intros (x' & Hin & Hx'); eauto.
    + intros (x' & [->|Hin] & Hx'); [congruence|eauto].
Qed.

End CollectingLoops.

Lemma validate_records_keep (items : list yaml) :
  validate_records items = keep validate_record items.
Proof. unfold validate_records. now rewrite collect_keep. Qed.

Lemma validate_domains_keep (entries : list yaml) :
  validate_domains entries = keep validate_domain entries.
Proof. unfold validate_domains. now rewrite collect_keep. Qed.

(** ** Validation of records and domains *)

Section Validation.

(** The record loop's body, by the conditions of the statements. *)
Lemma validate_record_cases (record_item : yaml) :
  validate_record record_item
  = if missing_record_key record_item || empty_record_name record_item
       || invalid_type record_item || invalid_ttl record_item
    then None
    else
      let item := entries_of record_item in
      option_map (mkRecord (name_of item) (type_of item)) (ttl_of item).
Proof.
  destruct record_item as [| | | | |items|item]; try reflexivity.
  unfold validate_record, missing_record_key, empty_record_name, invalid_type,
    invalid_ttl, name_of, type_of, ttl_of, entries_of.
  destruct (negb (dict_has "name" item && dict_has "type" item
                  && dict_has "ttl" item)); [reflexivity|].
  cbn [orb].
  destruct (strip (py_str (get (YStr "") "name" item)) =? "")%string;
    [reflexivity|].
  cbn [orb].
  destruct (negb _); [reflexivity|].
  cbn [orb].
  destruct (int_of_str _) as [ttl|]; [|reflexivity].
  now destruct (ttl <=? 0).
Qed.

Lemma validate_record_malformed (record_item : yaml) :
  malformed_record record_item = true -> validate_record record_item = None.
Proof.
  intros H. rewrite validate_record_cases.
  unfold malformed_record in H.
  destruct (missing_record_key record_item); [reflexivity|].
  destruct (invalid_type record_item);
    [now rewrite orb_true_r|].
  simpl in H. rewrite H. now rewrite orb_true_r.
Qed.

Lemma validate_record_empty_name (record_item : yaml) :
  empty_record_name record_item = true -> validate_record record_item = None.
Proof.
  intros H. rewrite validate_record_cases, H.
  now rewrite orb_true_r.
Qed.

Lemma validate_record_accepts (record_item : yaml) :
  malformed_record record_item = false ->
  empty_record_name record_item = false ->
  exists ttl,
    ttl_of (entries_of record_item) = Some ttl /\ 0 < ttl /\
    validate_record record_item
    = Some (mkRecord (name_of (entries_of record_item))
              (type_of (entries_of record_item)) ttl).
Proof.
  intros Hm He. rewrite validate_record_cases.
  unfold malformed_record in Hm.
  apply orb_false_elim in Hm. destruct Hm as [Hm Httl].
  apply orb_false_elim in Hm. destruct Hm as [Hk Ht].
  rewrite Hk, He, Ht, Httl. cbn [orb].
  unfold invalid_ttl in Httl.
  destruct (ttl_of (entries_of record_item)) as [ttl|]; [|discriminate].
  exists ttl. repeat split. apply Z.leb_gt in Httl. lia.
Qed.

Lemma validate_record_none (record_item : yaml) :
  validate_record record_item = None
  <-> malformed_record record_item = true \/ empty_record_name record_item = true.
Proof.
  split.
  - intros Hnone.
    destruct (malformed_record record_item) eqn:Hm; [now left|].
    destruct (empty_record_name record_item) eqn:He; [now right|].
    destruct (validate_record_accepts record_item Hm He) as (ttl & _ & _ & E).
    congruence.
  - intros [H|H];
      [now apply validate_record_malformed|now apply validate_record_empty_name].
Qed.

(** The domain loop's body. *)
Lemma validate_domain_cases (domain_entry : yaml) :
  validate_domain domain_entry
  = if lacks_domain_keys domain_entry
       || (domain_name_of domain_entry =? "")%string
    then None
    else
      match keep validate_record (record_items_of domain_entry) with
      | [] => None
      | valid => Some (mkDomain (domain_name_of domain_entry) valid)
      end.
Proof.
  destruct domain_entry as [| | | | |items|entry]; try reflexivity.
  unfold validate_domain, lacks_domain_keys, domain_name_of, record_items_of,
    entries_of.
  destruct (negb (dict_has "domain_name" entry && dict_has "records" entry));
    [reflexivity|].
  cbn [orb].
  destruct (get YNone "records" entry) as [| | | | |items|d]; cbn [items_of keep];
    try (now destruct (_ =? "")%string).
  destruct items as [|item items]; [now destruct (_ =? "")%string|].
  destruct (_ =? "")%string; [reflexivity|].
  now rewrite validate_records_keep.
Qed.

End Validation.

(** ** Normal forms *)

Section NormalForms.

Lemma validate_record_normal (r : RecordConfig) :
  normal_record r = true -> printable_record r = true ->
  validate_record (record_dict r) = Some r.
Proof.
  destruct r as [name type ttl]. unfold normal_record, printable_record.
  cbn [rec_name rec_type rec_ttl].
  intros H Hprint.
  apply andb_prop in H. destruct H as [H Httl].
  apply andb_prop in H. destruct H as [H Htype].
  apply andb_prop in H. destruct H as [Hstrip Hname].
  apply String.eqb_eq in Hstrip. apply Z.ltb_lt in Httl.
  unfold validate_record, record_dict. cbn [rec_name rec_type rec_ttl].
  change (dict_has "name" _ && dict_has "type" _ && dict_has "ttl" _) with true.
  cbn [negb].
  change (get (YStr "") "name" _) with (YStr name).
  change (get (YStr "") "type" _) with (YStr type).
  change (get (YStr "") "ttl" _) with (YInt ttl).
  cbn [py_str py_repr]. rewrite Hstrip.
  apply negb_true_iff in Hname. rewrite Hname.
  rewrite (strip_no_space _ (str_of_int_no_space ttl)).
  rewrite (int_of_str_of_int ttl Hprint).
  replace (ttl <=? 0) with false by (symmetry; apply Z.leb_gt; lia).
  apply orb_prop in Htype.
  destruct Htype as [E|E]; apply String.eqb_eq in E; subst type; reflexivity.
Qed.

Lemma keep_records_normal (rs : list RecordConfig) :
  forallb normal_record rs = true ->
  forallb printable_record rs = true ->
  keep validate_record (map record_dict rs) = rs.
Proof.
  induction rs as [|r rs IH]; [reflexivity|].
  cbn [forallb map keep]. intros H Hp.
  apply andb_prop in H. destruct H as [Hr Hrs].
  apply andb_prop in Hp. destruct Hp as [Hpr Hprs].
  now rewrite (validate_record_normal r Hr Hpr), (IH Hrs Hprs).
Qed.

Lemma validate_domain_normal (d : DomainConfig) :
  normal_domain d = true -> printable_domain d = true ->
  validate_domain (domain_dict d) = Some d.
Proof.
  destruct d as [name rs]. unfold normal_domain, printable_domain.
  cbn [domain_name records].
  intros H Hp.
  apply andb_prop in H. destruct H as [H Hrs].
  apply andb_prop in H. destruct H as [H Hne].
  apply andb_prop in H. destruct H as [Hstrip Hname].
  apply String.eqb_eq in Hstrip. apply negb_true_iff in Hname.
  rewrite validate_domain_cases.
  unfold lacks_domain_keys, domain_name_of, record_items_of, domain_dict.
  cbn [domain_name records entries_of].
  change (dict_has "domain_name" _ && dict_has "records" _) with true.
  change (get (YStr "") "domain_name" _) with (YStr name).
  change (get YNone "records" _) with (YList (map record_dict rs)).
  cbn [negb orb py_str items_of]. rewrite Hstrip, Hname.
  rewrite (keep_records_normal rs Hrs Hp).
  destruct rs; [discriminate|reflexivity].
Qed.

Lemma validate_domains_normal (ds : list DomainConfig) :
  forallb normal_domain ds = true ->
  forallb printable_domain ds = true ->
  validate_domains (map domain_dict ds) = ds.
Proof.
  rewrite validate_domains_keep.
  induction ds as [|d ds IH]; [reflexivity|].
  cbn [forallb map keep]. intros H Hp.
  apply andb_prop in H. destruct H as [Hd Hds].
  apply andb_prop in Hp. destruct Hp as [Hpd Hpds].
  now rewrite (validate_domain_normal d Hd Hpd), (IH Hds Hpds).
Qed.

Lemma validate_record_gives_printable (record_item : yaml) (r : RecordConfig) :
  validate_record record_item = Some r -> printable_record r = true.
Proof.
  rewrite validate_record_cases.
  destruct (_ || _); [discriminate|].
  cbv zeta. unfold ttl_of.
  destruct (int_of_str _) as [ttl|] eqn:E; [|discriminate].
  cbn [option_map]. intros [= <-].
  unfold printable_record. cbn [rec_ttl].
  exact (int_of_str_printable _ _ E).
Qed.

Lemma keep_records_give_printable (items : list yaml) :
  forallb printable_record (keep validate_record items) = true.
Proof.
  induction items as [|item items IH]; [reflexivity|].
  cbn [keep]. destruct (validate_record item) as [r|] eqn:E; [|exact IH].
  cbn [forallb]. now rewrite (validate_record_gives_printable _ _ E).
Qed.

Lemma validate_domain_gives_printable (domain_entry : yaml) (d : DomainConfig) :
  validate_domain domain_entry = Some d -> printable_domain d = true.
Proof.
  rewrite validate_domain_cases.
  destruct (_ || _); [discriminate|].
  pose proof (keep_records_give_printable (record_items_of domain_entry)) as Hp.
  destruct (keep validate_record (record_items_of domain_entry)) as [|r rs];
    [discriminate|].
  intros [= <-]. exact Hp.
Qed.

Lemma validate_domains_give_printable (entries : list yaml) :
  forallb printable_domain (validate_domains entries) = true.
Proof.
  rewrite validate_domains_keep.
  induction entries as [|e entries IH]; [reflexivity|].
  cbn [keep]. destruct (validate_domain e) as [d|] eqn:E; [|exact IH].
  cbn [forallb]. now rewrite (validate_domain_gives_printable _ _ E).
Qed.

Lemma validate_record_gives_normal (record_item : yaml) (r : RecordConfig) :
  validate_record record_item = Some r -> normal_record r = true.
Proof.
  rewrite validate_record_cases.
  destruct (missing_record_key record_item); [discriminate|].
  destruct (empty_record_name record_item) eqn:He; [discriminate|].
  destruct (invalid_type record_item) eqn:Ht; [discriminate|].
  destruct (invalid_ttl record_item) eqn:Hl; [discriminate|].
  cbn [orb]. unfold invalid_ttl in Hl.
  destruct (ttl_of (entries_of record_item)) as [ttl|]; [|discriminate].
  cbn [option_map]. intros [= <-].
  unfold normal_record. cbn [rec_name rec_type rec_ttl].
  unfold empty_record_name in He. unfold invalid_type in Ht.
  apply negb_false_iff in Ht.
  rewrite He, Ht. unfold name_of at 1 2. rewrite strip_strip, String.eqb_refl.
  apply Z.leb_gt in Hl. apply Z.ltb_lt in Hl. now rewrite Hl.
Qed.

Lemma keep_records_give_normal (items : list yaml) :
  forallb normal_record (keep validate_record items) = true.
Proof.
  induction items as [|item items IH]; [reflexivity|].
  cbn [keep]. destruct (validate_record item) as [r|] eqn:E; [|exact IH].
  cbn [forallb]. now rewrite (validate_record_gives_normal _ _ E).
Qed.

Lemma validate_domain_gives_normal (domain_entry : yaml) (d : DomainConfig) :
  validate_domain domain_entry = Some d -> normal_domain d = true.
Proof.
  rewrite validate_domain_cases.
  destruct (lacks_domain_keys domain_entry); [discriminate|].
  destruct (domain_name_of domain_entry =? "")%string eqn:En; [discriminate|].
  cbn [orb].
  pose proof (keep_records_give_normal (record_items_of domain_entry)) as Hn.
  destruct (keep validate_record (record_items_of domain_entry)) as [|r rs];
    [discriminate|].
  intros [= <-]. unfold normal_domain. cbn [domain_name records].
  rewrite En, Hn. unfold domain_name_of at 1 2.
  now rewrite strip_strip, String.eqb_refl.
Qed.

Lemma validate_domains_give_normal (entries : list yaml) :
  forallb normal_domain (validate_domains entries) = true.
Proof.
  rewrite validate_domains_keep.
  induction entries as [|e entries IH]; [reflexivity|].
  cbn [keep]. destruct (validate_domain e) as [d|] eqn:E; [|exact IH].
  cbn [forallb]. now rewrite (validate_domain_gives_normal _ _ E).
Qed.

End NormalForms.

(** ** Dicts *)

Section DictFacts.

Lemma dict_get_set_same (k : string) (v : yaml) (d : pydict) :
  dict_get k (dict_set k v d) = Some v.
Proof.
  induction d as [|[k' v'] d IH]; simpl.
  - now rewrite String.eqb_refl.
  - destruct (k =? k')%string eqn:E; simpl.
    + now rewrite String.eqb_refl.
    + now rewrite E.
Qed.

Lemma dict_get_set_other (k k' : string) (v : yaml) (d : pydict) :
  k' <> k -> dict_get k' (dict_set k v d) = dict_get k' d.
Proof.
  intros Hne. apply String.eqb_neq in Hne.
  induction d as [|[k0 v0] d IH]; simpl.
  - now rewrite Hne.
  - destruct (k =? k0)%string eqn:E; simpl.
    + apply String.eqb_eq in E. subst k0. now rewrite Hne.
    + now rewrite IH.
Qed.

Lemma ensure_key_other (k k' : string) (is_T : yaml -> bool) (fresh : yaml)
    (d : pydict) :
  k' <> k -> dict_get k' (ensure_key k is_T fresh d) = dict_get k' d.
Proof.
  intros Hne. unfold ensure_key.
  destruct (_ || _); [now apply dict_get_set_other|reflexivity].
Qed.

Lemma ensure_key_kept (k : string) (is_T : yaml -> bool) (fresh v : yaml)
    (d : pydict) :
  dict_get k d = Some v -> is_T v = true -> ensure_key k is_T fresh d = d.
Proof.
  intros Hget HT. unfold ensure_key, dict_has, get. now rewrite Hget, HT.
Qed.

End DictFacts.

(** ** Global settings *)

Section GlobalSettings.

Lemma check_interval_of_positive (v : yaml) (z : Z) :
  check_interval_of v = inl z -> 0 < z.
Proof.
  unfold check_interval_of, DEFAULT_CHECK_INTERVAL_SECONDS.
  destruct v as [| b | n | [neg| |r t] | s | l | d]; cbn [py_int];
    try (intros [= <-]; lia); try discriminate.
  - destruct b; intros [= <-]; simpl; lia.
  - destruct (n <=? 0) eqn:E; intros [= <-]; [lia|]. apply Z.leb_gt in E. lia.
  - destruct (t <=? 0) eqn:E; intros [= <-]; [lia|]. apply Z.leb_gt in E. lia.
  - destruct (int_of_str s) as [n|]; [|intros [= <-]; lia].
    destruct (n <=? 0) eqn:E; intros [= <-]; [lia|]. apply Z.leb_gt in E. lia.
Qed.

(** Every value but an infinite float gives an interval: the converted
    value when [int()] accepts it and it is positive, the default
    otherwise. *)
Lemma check_interval_of_cases (v : yaml) :
  (forall negative, v <> YFloat (FInf negative)) ->
  check_interval_of v
  = inl (match py_int v with
         | IntOk z => if 0 <? z then z else DEFAULT_CHECK_INTERVAL_SECONDS
         | IntRaise _ => DEFAULT_CHECK_INTERVAL_SECONDS
         end).
Proof.
  intros Hfin. unfold check_interval_of.
  destruct v as [| b | n | [neg| |r t] | s | l | d]; cbn [py_int];
    try reflexivity.
  - now destruct b.
  - f_equal. rewrite Z.ltb_antisym. now destruct (n <=? 0).
  - now elim (Hfin neg).
  - f_equal. rewrite Z.ltb_antisym. now destruct (t <=? 0).
  - destruct (int_of_str s) as [n|]; [|reflexivity].
    f_equal. rewrite Z.ltb_antisym. now destruct (n <=? 0).
Qed.

Lemma service_url_of_has_scheme (v : yaml) : has_scheme (service_url_of v) = true.
Proof.
  unfold service_url_of.
  match goal with |- context [py_str ?x] => set (url := py_str x) end.
  fold (has_scheme url).
  destruct (has_scheme url) eqn:E; [exact E|reflexivity].
Qed.

End GlobalSettings.

(** ** The loader and the save *)

Section LoaderFacts.

Lemma validate_document_ok (g g1 : globals) (document : pydict) (ip : yaml)
    (ds : list DomainConfig) :
  validate_document g document = (g1, LoadOk ip ds) ->
  let doc1 := ensure_key "global_settings" is_dict (YDict []) document in
  let gs := entries_of (get YNone "global_settings" doc1) in
  let doc2 := ensure_key "domains" is_list (YList []) doc1 in
  check_interval_of (get YNone "check_interval_seconds" gs)
    = inl (CHECK_INTERVAL_SECONDS g1)
  /\ PUBLIC_IP_SERVICE_URL g1 = service_url_of (get YNone "public_ip_service_url" gs)
  /\ MIJNHOST_API_KEY g1 = MIJNHOST_API_KEY g
  /\ parsed_config_data g1 = doc2
  /\ ip = get YNone "last_known_ip" gs
  /\ ds = validate_domains (items_of (get YNone "domains" doc2)).
Proof.
  unfold validate_document. cbv zeta.
  destruct (check_interval_of _) as [interval|e]; [|discriminate].
  intros [= <- <- <-]. cbn. repeat split.
Qed.

Lemma validate_document_normalized (g : globals) (ip : yaml) (interval : Z)
    (url : string) (ds : list DomainConfig) :
  0 < interval ->
  has_scheme url = true ->
  forallb normal_domain ds = true ->
  forallb printable_domain ds = true ->
  validate_document g (normalized_document ip interval url ds)
  = (mkGlobals (MIJNHOST_API_KEY g) interval url
       (normalized_document ip interval url ds),
     LoadOk ip ds).
Proof.
  intros Hpos Hurl Hds Hprint.
  unfold validate_document, normalized_document.
  change (ensure_key "global_settings" is_dict (YDict []) ?d) with d.
  change (ensure_key "domains" is_list (YList []) ?d) with d.
  cbv zeta.
  change (entries_of (get YNone "global_settings" _))
    with [("last_known_ip", ip); ("check_interval_seconds", YInt interval);
          ("public_ip_service_url", YStr url)].
  change (get YNone "last_known_ip" _) with ip.
  change (get YNone "check_interval_seconds" _) with (YInt interval).
  change (get YNone "public_ip_service_url" _) with (YStr url).
  change (get YNone "domains" _) with (YList (map domain_dict ds)).
  cbn [items_of]. rewrite (validate_domains_normal ds Hds Hprint).
  unfold check_interval_of. cbn [py_int].
  replace (interval <=? 0) with false by (symmetry; apply Z.leb_gt; lia).
  unfold service_url_of. cbn [py_str].
  fold (has_scheme url). now rewrite Hurl.
Qed.

Lemma load_ok_validates (env : load_env) (g g1 : globals) (document : pydict)
    (ip : yaml) (ds : list DomainConfig) :
  document_read env = Some (YDict document) ->
  document <> [] ->
  load_and_validate_config env g = (g1, LoadOk ip ds) ->
  exists g0,
    MIJNHOST_API_KEY g0 = env_api_key env /\
    validate_document g0 document = (g1, LoadOk ip ds).
Proof.
  intros Hread Hne. unfold load_and_validate_config. cbn [MIJNHOST_API_KEY].
  destruct (env_api_key env) as [[|c key]|] eqn:Ekey; try discriminate.
  assert (Hloaded : forall g0,
             validate_loaded g0 (YDict document) = validate_document g0 document).
  { intros g0. unfold validate_loaded.
    destruct document; [congruence|reflexivity]. }
  unfold document_read in Hread.
  destruct (config_file env) as [d| | |]; try discriminate.
  - injection Hread as ->. rewrite Hloaded. intros H.
    eexists. split; [|exact H]. reflexivity.
  - rewrite Hread, Hloaded. intros H.
    eexists. split; [|exact H]. reflexivity.
Qed.

End LoaderFacts.

(* ================================================================= *)
(** * The claims about the configuration loader *)

(** C5, as the claim states it, fails.  A record entry with the three
    keys, a type that normalises to [AAAA] and a positive TTL is not
    malformed; its name trims to the empty string, and it is dropped.  It
    does not stay as the valid sibling of a malformed record, and the
    domain that is left with it alone is dropped although one of its
    records is not malformed. *)
Lemma unnamed_sibling_is_dropped :
  malformed_record
    (YDict [("name", YStr " "); ("type", YStr "aaaa"); ("ttl", YStr "60")])
  = false
  /\ validate_records
       [YDict [("name", YStr "www"); ("type", YStr "CNAME"); ("ttl", YInt 300)];
        YDict [("name", YStr " "); ("type", YStr "aaaa"); ("ttl", YStr "60")]]
     = []
  /\ lacks_domain_keys
       (YDict [("domain_name", YStr "example.com");
               ("records",
                YList [YDict [("name", YStr "www"); ("type", YStr "CNAME");
                              ("ttl", YInt 300)];
                       YDict [("name", YStr " "); ("type", YStr "aaaa");
                              ("ttl", YStr "60")]])])
     = false
  /\ validate_domains
       [YDict [("domain_name", YStr "example.com");
               ("records",
                YList [YDict [("name", YStr "www"); ("type", YStr "CNAME");
                              ("ttl", YInt 300)];
                       YDict [("name", YStr " "); ("type", YStr "aaaa");
                              ("ttl", YStr "60")]])]]
     = [].
Proof. repeat split. Qed.

(** C5, amended.  On record and domain entries inside the limits of the
    model ([plain]), [load_and_validate_config] drops a record entry that
    is malformed (a missing [name], [type] or [ttl] key, a type that does
    not normalise to [A] or [AAAA], a TTL that is not a positive integer)
    and a record entry whose name trims to the empty string, and no
    other; every other record entry is retained as the trimmed name, the
    upper-cased and trimmed type and the TTL as an integer.  A domain that
    is kept has its trimmed name and the retained records of its entry,
    in their order, so the retained siblings of a dropped record stay.  A
    domain entry is dropped exactly when it lacks [domain_name] or
    [records], its name trims to the empty string, or no record entry of
    it is retained; and the active set is the kept domains in their
    order. *)
Theorem invalid_entries_are_dropped :
  (forall record_item,
      plain record_item = true ->
      malformed_record record_item = true -> validate_record record_item = None)
  /\ (forall record_item,
         plain record_item = true ->
         (validate_record record_item = None
          <-> (malformed_record record_item = true
               \/ empty_record_name record_item = true)))
  /\ (forall record_item,
         plain record_item = true ->
         malformed_record record_item = false ->
         empty_record_name record_item = false ->
         exists ttl,
           ttl_of (entries_of record_item) = Some ttl /\ 0 < ttl /\
           validate_record record_item
           = Some (mkRecord (name_of (entries_of record_item))
                     (type_of (entries_of record_item)) ttl))
  /\ (forall domain_entry d,
         plain domain_entry = true ->
         validate_domain domain_entry = Some d ->
         domain_name d = domain_name_of domain_entry
         /\ records d = keep validate_record (record_items_of domain_entry))
  /\ (forall domain_entry,
         plain domain_entry = true ->
         (validate_domain domain_entry = None
          <-> (lacks_domain_keys domain_entry = true
               \/ domain_name_of domain_entry = ""
               \/ keep validate_record (record_items_of domain_entry) = [])))
  /\ (forall entries,
         forallb plain entries = true ->
         validate_domains entries = keep validate_domain entries).
Proof.
  split; [intros record_item _; apply validate_record_malformed|].
  split; [intros record_item _; apply validate_record_none|].
  split; [intros record_item _; apply validate_record_accepts|].
  split; [|split; [|intros entries _; apply validate_domains_keep]].
  - intros domain_entry d _. rewrite validate_domain_cases.
    destruct (_ || _); [discriminate|].
    destruct (keep validate_record _); [discriminate|].
    intros [= <-]. now split.
  - intros domain_entry _. rewrite validate_domain_cases.
    destruct (lacks_domain_keys domain_entry); cbn [orb]; [now split; auto|].
    destruct (domain_name_of domain_entry =? "")%string eqn:En.
    + apply String.eqb_eq in En. now split; auto.
    + apply String.eqb_neq in En.
      destruct (keep validate_record (record_items_of domain_entry)).
      * now split; auto.
      * split; [discriminate|].
        intros [H|[H|H]]; [discriminate|contradiction|discriminate].
Qed.

(** The scenario of the specification: of a [CNAME] record and a record of
    type ["a"] under [example.com], the second one alone is kept, with
    the name trimmed, the type ["A"] and the TTL 300. *)
Lemma invalid_entries_are_dropped_witness :
  validate_record
    (YDict [("name", YStr "www"); ("type", YStr "CNAME"); ("ttl", YInt 300)])
  = None
  /\ (exists ttl,
         ttl_of [("name", YStr "@ "); ("type", YStr "a"); ("ttl", YStr "3_00")]
         = Some ttl /\ 0 < ttl /\
         validate_record
           (YDict [("name", YStr "@ "); ("type", YStr "a"); ("ttl", YStr "3_00")])
         = Some (mkRecord "@" "A" ttl))
  /\ validate_domains
       [YDict [("domain_name", YStr "example.com");
               ("records",
                YList [YDict [("name", YStr "www"); ("type", YStr "CNAME");
                              ("ttl", YInt 300)];
                       YDict [("name", YStr "@"); ("type", YStr "a");
                              ("ttl", YInt 300)]])]]
     = [mkDomain "example.com" [mkRecord "@" "A" 300]].
Proof.
  split; [|split].
  - apply (proj1 invalid_entries_are_dropped); reflexivity.
  - apply (proj1 (proj2 (proj2 invalid_entries_are_dropped))
             (YDict [("name", YStr "@ "); ("type", YStr "a");
                     ("ttl", YStr "3_00")])); reflexivity.
  - rewrite (proj2 (proj2 (proj2 (proj2 (proj2 invalid_entries_are_dropped)))))
      by reflexivity.
    reflexivity.
Defined.

(** C2, as the claim states it, fails: a record entry whose name is empty,
    with a valid type and TTL, is not kept, and its valid sibling is. *)
Lemma empty_name_is_not_retained :
  empty_record_name
    (YDict [("name", YStr ""); ("type", YStr "A"); ("ttl", YInt 300)]) = true
  /\ malformed_record
       (YDict [("name", YStr ""); ("type", YStr "A"); ("ttl", YInt 300)]) = false
  /\ validate_record
       (YDict [("name", YStr ""); ("type", YStr "A"); ("ttl", YInt 300)]) = None
  /\ validate_domains
       [YDict [("domain_name", YStr "example.com");
               ("records",
                YList [YDict [("name", YStr ""); ("type", YStr "A");
                              ("ttl", YInt 300)];
                       YDict [("name", YStr "www"); ("type", YStr "A");
                              ("ttl", YInt 300)]])]]
     = [mkDomain "example.com" [mkRecord "www" "A" 300]].
Proof. repeat split. Qed.

(** C2, amended.  Validation drops a record entry whose name is empty after
    trimming; the apex is configured by the name ["@"], which validation
    keeps when the entry is not malformed; and [update_dns_record], for a
    record name that is ["@"] or empty, builds the fully-qualified name
    [domainName.] and displays it as ["@"]. *)
Theorem apex_record_name :
  (forall record_item,
      empty_record_name record_item = true -> validate_record record_item = None)
  /\ (forall record_item,
         name_of (entries_of record_item) = "@" ->
         malformed_record record_item = false ->
         exists r, validate_record record_item = Some r /\ rec_name r = "@")
  /\ (forall api_key ip domain record_name record_type ttl,
         is_apex record_name = true ->
         payload_name
           (update_request api_key ip domain record_name record_type ttl)
         = (domain ++ ".")%string
         /\ display_name record_name = "@").
Proof.
  split; [exact validate_record_empty_name|split].
  - intros record_item Hname Hm.
    destruct (validate_record_accepts record_item Hm) as (ttl & _ & _ & E).
    + unfold empty_record_name. now rewrite Hname.
    + rewrite E, Hname. eexists. split; reflexivity.
  - intros api_key ip domain record_name record_type ttl Hapex.
    unfold update_request, fqdn_record_name, display_name. cbn [payload_name].
    now rewrite Hapex.
Qed.

Lemma apex_record_name_witness :
  validate_record
    (YDict [("name", YStr "  "); ("type", YStr "A"); ("ttl", YInt 300)]) = None
  /\ (exists r,
         validate_record
           (YDict [("name", YStr " @ "); ("type", YStr "aaaa"); ("ttl", YStr "60")])
         = Some r /\ rec_name r = "@")
  /\ payload_name (update_request (Some "key") "203.0.113.9" "example.com" "" "A" 300)
     = "example.com."
  /\ display_name "" = "@".
Proof.
  split; [|split].
  - apply (proj1 apex_record_name). reflexivity.
  - apply (proj1 (proj2 apex_record_name)); reflexivity.
  - apply (proj2 (proj2 apex_record_name) (Some "key") "203.0.113.9"
             "example.com" "" "A" 300). reflexivity.
Defined.

(** C7.  Validation is idempotent: the document that holds the result of a
    validation pass (the effective interval and service URL, the cached IP
    and the validated domains) is validated to the same result, and is
    itself left as it is. *)
Theorem validation_is_idempotent (g g1 : globals) (document : pydict)
    (ip : yaml) (ds : list DomainConfig) :
  validate_document g document = (g1, LoadOk ip ds) ->
  let normalized :=
    normalized_document ip (CHECK_INTERVAL_SECONDS g1)
      (PUBLIC_IP_SERVICE_URL g1) ds in
  validate_document g1 normalized
  = (mkGlobals (MIJNHOST_API_KEY g1) (CHECK_INTERVAL_SECONDS g1)
       (PUBLIC_IP_SERVICE_URL g1) normalized,
     LoadOk ip ds).
Proof.
  intros H. apply validate_document_ok in H.
  destruct H as (Hint & Hurl & _ & _ & _ & Hds).
  cbv zeta. apply validate_document_normalized.
  - exact (check_interval_of_positive _ _ Hint).
  - rewrite Hurl. apply service_url_of_has_scheme.
  - rewrite Hds. apply validate_domains_give_normal.
  - rewrite Hds. apply validate_domains_give_printable.
Qed.

Lemma validation_is_idempotent_witness :
  validate_document
    (fst (validate_document initial_globals example_raw_document))
    (normalized_document (YStr "203.0.113.1") 300 DEFAULT_PUBLIC_IP_SERVICE_URL
       [mkDomain "example.com" [mkRecord "@" "A" 300]])
  = (mkGlobals None 300 DEFAULT_PUBLIC_IP_SERVICE_URL
       (normalized_document (YStr "203.0.113.1") 300
          DEFAULT_PUBLIC_IP_SERVICE_URL
          [mkDomain "example.com" [mkRecord "@" "A" 300]]),
     LoadOk (YStr "203.0.113.1") [mkDomain "example.com" [mkRecord "@" "A" 300]]).
Proof.
  apply (validation_is_idempotent initial_globals
           (fst (validate_document initial_globals example_raw_document))
           example_raw_document).
  reflexivity.
Defined.

(** C8, the code at the failing input.  For [check_interval_seconds: .inf]
    (and for [-.inf], which is not positive) the conversion raises
    [OverflowError], which the clause [except (ValueError, TypeError)] does
    not catch: the loader raises and the process ends at startup. *)
Theorem infinite_check_interval_is_fatal :
  check_interval_of (YFloat (FInf false)) = inr OverflowError
  /\ check_interval_of (YFloat (FInf true)) = inr OverflowError
  /\ snd (load_and_validate_config
            (mkLoadEnv (Some "key")
               (ReadOk (YDict [("global_settings",
                                YDict [("check_interval_seconds",
                                        YFloat (FInf false))])]))
               None)
            initial_globals)
     = LoadRaise OverflowError
  /\ snd (startup
            (mkLoadEnv (Some "key")
               (ReadOk (YDict [("global_settings",
                                YDict [("check_interval_seconds",
                                        YFloat (FInf false))])]))
               None)
            (Some 0))
     = Dies OverflowError.
Proof. repeat split. Qed.

(** The scenario of the specification: [check_interval_seconds: -5] gives
    the default of 300 seconds, and the load succeeds. *)
Example check_interval_minus_five :
  load_and_validate_config
    (mkLoadEnv (Some "key")
       (ReadOk (YDict [("global_settings",
                        YDict [("check_interval_seconds", YInt (-5))])]))
       None)
    initial_globals
  = (mkGlobals (Some "key") 300 DEFAULT_PUBLIC_IP_SERVICE_URL
       [("global_settings", YDict [("check_interval_seconds", YInt (-5))]);
        ("domains", YList [])],
     LoadOk YNone []).
Proof. reflexivity. Qed.

Section SaveFrame.

Lemma ensure_key_again (k : string) (is_T : yaml -> bool) (fresh : yaml)
    (d : pydict) :
  is_T fresh = true ->
  ensure_key k is_T fresh (ensure_key k is_T fresh d) = ensure_key k is_T fresh d.
Proof.
  intros HT.
  destruct (negb (dict_has k d) || negb (is_T (get YNone k d))) eqn:E.
  - assert (Hd : ensure_key k is_T fresh d = dict_set k fresh d)
      by (unfold ensure_key; now rewrite E).
    rewrite Hd.
    apply (ensure_key_kept k is_T fresh fresh); [apply dict_get_set_same|exact HT].
  - assert (Hd : ensure_key k is_T fresh d = d)
      by (unfold ensure_key; now rewrite E).
    now rewrite !Hd.
Qed.

(** The document that [cache_ip_in_yaml] writes, when the loaded document
    has a [domains] sequence. *)
Lemma cache_ip_in_yaml_document (ip : string) (g : globals) (L : list yaml) :
  dict_get "domains" (parsed_config_data g) = Some (YList L) ->
  let doc1 :=
    ensure_key "global_settings" is_dict (YDict []) (parsed_config_data g) in
  parsed_config_data (cache_ip_in_yaml ip g)
  = dict_set "global_settings"
      (YDict
         (dict_set "public_ip_service_url" (YStr (PUBLIC_IP_SERVICE_URL g))
            (dict_set "check_interval_seconds" (YInt (CHECK_INTERVAL_SECONDS g))
               (dict_set "last_known_ip" (YStr ip)
                  (entries_of (get YNone "global_settings" doc1))))))
      doc1.
Proof.
  intros Hdom. cbv zeta. unfold cache_ip_in_yaml. cbn [parsed_config_data].
  destruct (parsed_config_data g) as [|e d] eqn:E; [discriminate|].
  cbn [truthy negb]. rewrite <- E.
  apply (ensure_key_kept "domains" is_list (YList []) (YList L)); [|reflexivity].
  rewrite dict_get_set_other by discriminate.
  rewrite ensure_key_other by discriminate.
  now rewrite E.
Qed.

End SaveFrame.

(** ** The document as an object *)

Section SharedDocument.

Lemma node_get_set_same (k : string) (n : node) (d : list (string * node)) :
  node_get k (node_set k n d) = Some n.
Proof.
  induction d as [|[k' n'] d IH]; simpl.
  - now rewrite String.eqb_refl.
  - destruct (k =? k')%string eqn:E; simpl.
    + now rewrite String.eqb_refl.
    + now rewrite E.
Qed.

Lemma node_get_set_other (k k' : string) (n : node) (d : list (string * node)) :
  k' <> k -> node_get k' (node_set k n d) = node_get k' d.
Proof.
  intros Hne. apply String.eqb_neq in Hne.
  induction d as [|[k0 n0] d IH]; simpl.
  - now rewrite Hne.
  - destruct (k =? k0)%string eqn:E; simpl.
    + apply String.eqb_eq in E. subst k0. now rewrite Hne.
    + now rewrite IH.
Qed.

Lemma dict_get_view_items (s : pydict) (k : string) (d : list (string * node)) :
  dict_get k (view_items s d) = option_map (resolve s) (node_get k d).
Proof.
  induction d as [|[k' n] d IH]; [reflexivity|]. simpl.
  now destruct (k =? k')%string.
Qed.

Lemma view_items_set (s : pydict) (k : string) (n : node)
    (d : list (string * node)) :
  view_items s (node_set k n d) = dict_set k (resolve s n) (view_items s d).
Proof.
  induction d as [|[k' n'] d IH]; [reflexivity|]. simpl.
  destruct (k =? k')%string; [reflexivity|].
  simpl. f_equal. exact IH.
Qed.

Lemma view_unshared (document : pydict) : view (unshared document) = document.
Proof.
  unfold view, unshared, view_items. cbn [shared_items root_items].
  induction document as [|[k v] d IH]; [reflexivity|]. simpl. now rewrite IH.
Qed.

Lemma is_dict_resolve (s : pydict) (n : node) :
  is_dict (resolve s n) = is_dict_node n.
Proof. now destruct n. Qed.

Lemma is_list_resolve (s : pydict) (n : node) :
  is_list (resolve s n) = is_list_node n.
Proof. now destruct n. Qed.

(** A node in which the shared dict does not occur shows the same value
    whatever that dict holds. *)
Lemma resolve_unshared (s s' : pydict) :
  forall n, mentions_shared n = false -> resolve s n = resolve s' n.
Proof.
  fix IH 1. intros [v| |items|entries]; cbn [mentions_shared resolve].
  - reflexivity.
  - discriminate.
  - intros H. f_equal.
    induction items as [|x items IHitems]; [reflexivity|].
    cbn [existsb map] in *. apply orb_false_elim in H. destruct H as [Hx Hitems].
    now rewrite (IH x Hx), (IHitems Hitems).
  - intros H. f_equal.
    induction entries as [|[k x] entries IHentries]; [reflexivity|].
    cbn [existsb map] in *. apply orb_false_elim in H. destruct H as [Hx Hentries].
    now rewrite (IH x Hx), (IHentries Hentries).
Qed.

(** *** The assignments to the document *)

Lemma ensure_item_shared (k : string) (is_T : node -> bool) (fresh : yaml)
    (m : memory) :
  shared_items (ensure_item k is_T fresh m) = shared_items m.
Proof.
  unfold ensure_item.
  destruct (node_get k (root_items m)) as [n|]; [|reflexivity].
  now destruct (is_T n).
Qed.

Lemma ensure_item_other (k k' : string) (is_T : node -> bool) (fresh : yaml)
    (m : memory) :
  k' <> k ->
  node_get k' (root_items (ensure_item k is_T fresh m))
  = node_get k' (root_items m).
Proof.
  intros Hne. unfold ensure_item.
  destruct (node_get k (root_items m)) as [n|];
    [destruct (is_T n); [reflexivity|]|];
    cbn [root_items]; now apply node_get_set_other.
Qed.

Lemma ensure_item_kept (k : string) (is_T : node -> bool) (fresh : yaml)
    (m : memory) (n : node) :
  node_get k (root_items m) = Some n -> is_T n = true ->
  ensure_item k is_T fresh m = m.
Proof. intros Hget HT. unfold ensure_item. now rewrite Hget, HT. Qed.

Lemma ensure_item_has (k : string) (is_T : node -> bool) (fresh : yaml)
    (m : memory) :
  is_T (Leaf fresh) = true ->
  exists n,
    node_get k (root_items (ensure_item k is_T fresh m)) = Some n
    /\ is_T n = true.
Proof.
  intros HT. unfold ensure_item.
  destruct (node_get k (root_items m)) as [n|] eqn:E;
    [destruct (is_T n) eqn:En; [now exists n|]|];
    exists (Leaf fresh); cbn [root_items];
    now rewrite node_get_set_same.
Qed.

(** On values, that is [ensure_key]. *)
Lemma view_ensure_item (k : string) (is_Tn : node -> bool) (is_T : yaml -> bool)
    (fresh : yaml) (m : memory) :
  (forall n, is_T (resolve (shared_items m) n) = is_Tn n) ->
  view (ensure_item k is_Tn fresh m) = ensure_key k is_T fresh (view m).
Proof.
  intros HT. unfold ensure_item, ensure_key, dict_has, get, view.
  rewrite dict_get_view_items.
  destruct (node_get k (root_items m)) as [n|]; cbn [option_map negb orb].
  - rewrite HT. destruct (is_Tn n); cbn [negb]; [reflexivity|].
    cbn [shared_items root_items]. now rewrite view_items_set.
  - cbn [shared_items root_items]. now rewrite view_items_set.
Qed.

Lemma view_ensure_sections (m : memory) :
  view (ensure_sections m)
  = ensure_key "domains" is_list (YList [])
      (ensure_key "global_settings" is_dict (YDict []) (view m)).
Proof.
  unfold ensure_sections.
  rewrite (view_ensure_item "domains" is_list_node is_list)
    by (intros n; apply is_list_resolve).
  now rewrite (view_ensure_item "global_settings" is_dict_node is_dict)
    by (intros n; apply is_dict_resolve).
Qed.

(** *** The assignments to the settings *)

Lemma settings_assign_other (k : string) (v : yaml) (m : memory) (k' : string) :
  k' <> "global_settings" ->
  node_get k' (root_items (settings_assign k v m)) = node_get k' (root_items m).
Proof.
  intros Hne. unfold settings_assign.
  destruct (node_get "global_settings" (root_items m))
    as [[[| | | | | |gs]| |items|gs]|]; try reflexivity;
    cbn [root_items]; now apply node_get_set_other.
Qed.

Lemma settings_assign_dict (k : string) (v : yaml) (m : memory) (n : node) :
  node_get "global_settings" (root_items m) = Some n ->
  is_dict_node n = true ->
  exists n',
    node_get "global_settings" (root_items (settings_assign k v m)) = Some n'
    /\ is_dict_node n' = true.
Proof.
  intros Hget Hdict. unfold settings_assign. rewrite Hget.
  destruct n as [[| | | | | |gs]| |items|gs]; try discriminate;
    cbn [root_items]; rewrite ?node_get_set_same; eauto.
Qed.

(** At every place that shows the settings, the assignment shows. *)
Lemma settings_assign_view (k : string) (v : yaml) (m : memory) (n : node) :
  node_get "global_settings" (root_items m) = Some n ->
  is_dict_node n = true ->
  entries_of (get YNone "global_settings" (view (settings_assign k v m)))
  = dict_set k v (entries_of (get YNone "global_settings" (view m))).
Proof.
  intros Hget Hdict. unfold settings_assign, get, view.
  rewrite !dict_get_view_items, Hget.
  destruct n as [[| | | | | |gs]| |items|gs]; try discriminate;
    cbn [root_items shared_items]; rewrite ?node_get_set_same, ?Hget;
    cbn [option_map resolve entries_of]; try reflexivity.
  apply (view_items_set _ k (Leaf v) gs).
Qed.

Lemma settings_assign_shared (k : string) (v : yaml) (m : memory) :
  node_get "global_settings" (root_items m) = Some Shared ->
  shared_items (settings_assign k v m) = dict_set k v (shared_items m)
  /\ root_items (settings_assign k v m) = root_items m.
Proof. intros Hget. unfold settings_assign. now rewrite Hget. Qed.

End SharedDocument.

(** C10, as the claim states it, fails.  In the document
    [{global_settings: &gs {last_known_ip: 203.0.113.1}, domains: [*gs]}]
    the one entry of [domains] is the settings mapping itself.  Validation
    drops it from the active set and leaves the document as loaded; the
    save then writes a [domains] sequence whose entry is not what was
    loaded: it has the new IP and two more keys. *)
Lemma aliased_domain_entry_is_changed :
  validate_document initial_globals (view example_aliased_memory)
  = (mkGlobals None 300 DEFAULT_PUBLIC_IP_SERVICE_URL
       (view example_aliased_memory),
     LoadOk (YStr "203.0.113.1") [])
  /\ ensure_sections example_aliased_memory = example_aliased_memory
  /\ get YNone "domains" (view example_aliased_memory)
     = YList [YDict [("last_known_ip", YStr "203.0.113.1")]]
  /\ get YNone "domains"
       (view (cache_ip_in_memory "203.0.113.9"
                (mkGlobals None 300 DEFAULT_PUBLIC_IP_SERVICE_URL
                   (view example_aliased_memory))
                (ensure_sections example_aliased_memory)))
     = YList [YDict [("last_known_ip", YStr "203.0.113.9");
                     ("check_interval_seconds", YInt 300);
                     ("public_ip_service_url",
                      YStr DEFAULT_PUBLIC_IP_SERVICE_URL)]].
Proof. repeat split. Qed.

(** C10, amended.  Validation assigns to no item of the loaded document
    but a missing or invalid [global_settings], and to no item of the
    settings: the [domains] sequence stays the object that was loaded, and
    the active set is a separate list, the result of filtering it.  A
    later [cache_ip_in_yaml] assigns to the items [last_known_ip],
    [check_interval_seconds] and [public_ip_service_url] of the settings
    and to nothing else, so the document it writes has the same objects
    under the other keys, the [domains] sequence with the dropped entries
    among them; what is written for such an object is what was loaded
    provided the settings mapping does not occur in it. *)
Theorem domains_sequence_is_written_back (env : load_env) (g g1 : globals)
    (m : memory) (domains : node) (ip : yaml) (ds : list DomainConfig)
    (new_ip : string) :
  document_read env = Some (YDict (view m)) ->
  node_get "domains" (root_items m) = Some domains ->
  is_list_node domains = true ->
  load_and_validate_config env g = (g1, LoadOk ip ds) ->
  let loaded := ensure_sections m in
  let saved := cache_ip_in_memory new_ip g1 loaded in
  parsed_config_data g1 = view loaded
  /\ ds = validate_domains (items_of (resolve (shared_items m) domains))
  /\ shared_items loaded = shared_items m
  /\ (forall k, k <> "global_settings" ->
        node_get k (root_items loaded) = node_get k (root_items m))
  /\ (forall k, k <> "global_settings" ->
        node_get k (root_items saved) = node_get k (root_items loaded))
  /\ (forall k n, k <> "global_settings" ->
        node_get k (root_items loaded) = Some n ->
        mentions_shared n = false ->
        dict_get k (view saved) = dict_get k (view loaded))
  /\ (forall k,
        k <> "last_known_ip" -> k <> "check_interval_seconds" ->
        k <> "public_ip_service_url" ->
        dict_get k (entries_of (get YNone "global_settings" (view saved)))
        = dict_get k (entries_of (get YNone "global_settings" (view loaded)))).
Proof.
  intros Hfile Hdom Hlist Hload.
  assert (Hview : dict_get "domains" (view m)
                  = Some (resolve (shared_items m) domains))
    by (unfold view; now rewrite dict_get_view_items, Hdom).
  assert (Hne : view m <> []) by (intros E; rewrite E in Hview; discriminate).
  destruct (load_ok_validates env g g1 (view m) ip ds Hfile Hne Hload)
    as (g0 & _ & Hval).
  apply validate_document_ok in Hval.
  destruct Hval as (_ & _ & _ & Hdoc & _ & Hds).
  rewrite <- view_ensure_sections in Hdoc, Hds.
  (* the loader's assignments *)
  set (m1 := ensure_item "global_settings" is_dict_node (YDict []) m).
  assert (Hdom1 : node_get "domains" (root_items m1) = Some domains)
    by (unfold m1; rewrite ensure_item_other by discriminate; exact Hdom).
  assert (Hloaded : ensure_sections m = m1)
    by (exact (ensure_item_kept "domains" is_list_node (YList []) m1 domains
                 Hdom1 Hlist)).
  cbv zeta. rewrite Hloaded in *.
  destruct (ensure_item_has "global_settings" is_dict_node (YDict []) m eq_refl)
    as (gs & Hgs & Hgsdict). fold m1 in Hgs.
  (* the save's assignments *)
  assert (Hsave : cache_ip_in_memory new_ip g1 m1
                  = settings_assign "public_ip_service_url"
                      (YStr (PUBLIC_IP_SERVICE_URL g1))
                      (settings_assign "check_interval_seconds"
                         (YInt (CHECK_INTERVAL_SECONDS g1))
                         (settings_assign "last_known_ip" (YStr new_ip) m1))).
  { unfold cache_ip_in_memory.
    replace (match root_items m1 with
             | [] => mkMemory (shared_items m1)
                       [("global_settings", Leaf (YDict []));
                        ("domains", Leaf (YList []))]
             | _ :: _ => m1
             end) with m1
      by (destruct (root_items m1); [discriminate|reflexivity]).
    rewrite (ensure_item_kept "global_settings" is_dict_node (YDict []) m1 gs
               Hgs Hgsdict).
    apply (ensure_item_kept "domains" is_list_node (YList []) _ domains);
      [|exact Hlist].
    now rewrite !settings_assign_other by discriminate. }
  rewrite Hsave.
  destruct (settings_assign_dict "last_known_ip" (YStr new_ip) m1 gs Hgs Hgsdict)
    as (gs1 & Hgs1 & Hgs1dict).
  destruct (settings_assign_dict "check_interval_seconds"
              (YInt (CHECK_INTERVAL_SECONDS g1)) _ gs1 Hgs1 Hgs1dict)
    as (gs2 & Hgs2 & Hgs2dict).
  assert (Hnodes : forall k, k <> "global_settings" ->
            node_get k
              (root_items
                 (settings_assign "public_ip_service_url"
                    (YStr (PUBLIC_IP_SERVICE_URL g1))
                    (settings_assign "check_interval_seconds"
                       (YInt (CHECK_INTERVAL_SECONDS g1))
                       (settings_assign "last_known_ip" (YStr new_ip) m1))))
            = node_get k (root_items m1))
    by (intros k Hk; now rewrite !settings_assign_other by exact Hk).
  split; [exact Hdoc|].
  split; [rewrite Hds; unfold get, view;
          rewrite dict_get_view_items, Hdom1; unfold m1;
          now rewrite ensure_item_shared|].
  split; [unfold m1; apply ensure_item_shared|].
  split; [intros k Hk; unfold m1; now apply ensure_item_other|].
  split; [exact Hnodes|].
  split.
  - intros k n Hk Hn Hunshared. unfold view.
    rewrite !dict_get_view_items, (Hnodes k Hk), Hn. cbn [option_map].
    f_equal. now apply resolve_unshared.
  - intros k H1 H2 H3.
    rewrite (settings_assign_view _ _ _ gs2 Hgs2 Hgs2dict).
    rewrite (settings_assign_view _ _ _ gs1 Hgs1 Hgs1dict).
    rewrite (settings_assign_view _ _ _ gs Hgs Hgsdict).
    now rewrite !dict_get_set_other by assumption.
Qed.

(** [example_raw_document], in which nothing is shared: the save writes
    the [domains] sequence as loaded, with the two entries that validation
    dropped or changed. *)
Lemma domains_sequence_is_written_back_witness :
  dict_get "domains"
    (view (cache_ip_in_memory "203.0.113.9"
             (fst (load_and_validate_config
                     (mkLoadEnv (Some "key")
                        (ReadOk (YDict example_raw_document)) None)
                     initial_globals))
             (ensure_sections (unshared example_raw_document))))
  = dict_get "domains" example_raw_document.
Proof.
  pose proof
    (domains_sequence_is_written_back
       (mkLoadEnv (Some "key") (ReadOk (YDict example_raw_document)) None)
       initial_globals
       (fst (load_and_validate_config
               (mkLoadEnv (Some "key") (ReadOk (YDict example_raw_document)) None)
               initial_globals))
       (unshared example_raw_document)
       (Leaf (get YNone "domains" example_raw_document))
       (YStr "203.0.113.1")
       [mkDomain "example.com" [mkRecord "@" "A" 300]]
       "203.0.113.9" eq_refl eq_refl eq_refl eq_refl) as H.
  exact (proj1 (proj2 (proj2 (proj2 (proj2 (proj2 H)))))
           "domains" (Leaf (get YNone "domains" example_raw_document))
           ltac:(discriminate) eq_refl eq_refl).
Defined.

(* ================================================================= *)
(** * The main loop *)

(** ** Events *)

Section EventFacts.

Lemma patches_app (a b : list event) :
  patches (a ++ b) = (patches a ++ patches b)%list.
Proof.
  induction a as [|e a IH]; [reflexivity|].
  destruct e; simpl; now rewrite IH.
Qed.

Lemma saves_app (a b : list event) : saves (a ++ b) = (saves a ++ saves b)%list.
Proof.
  induction a as [|e a IH]; [reflexivity|].
  destruct e; simpl; now rewrite IH.
Qed.

Lemma patches_patch_events (xs : list (dns_request * bool)) :
  patches (map patch_event xs) = xs.
Proof.
  induction xs as [|[request ok] xs IH]; [reflexivity|].
  simpl. now rewrite IH.
Qed.

Lemma saves_patch_events (xs : list (dns_request * bool)) :
  saves (map patch_event xs) = [].
Proof. induction xs as [|x xs IH]; [reflexivity|exact IH]. Qed.

Lemma resolves_patch_events (xs : list (dns_request * bool)) :
  existsb is_resolve (map patch_event xs) = false.
Proof. induction xs as [|x xs IH]; [reflexivity|exact IH]. Qed.

Lemma loads_patch_events (xs : list (dns_request * bool)) :
  existsb is_load (map patch_event xs) = false.
Proof. induction xs as [|x xs IH]; [reflexivity|exact IH]. Qed.

Lemma exchanges_app (api : dns_api) (sent : nat) (a b : list dns_request) :
  exchanges api sent (a ++ b)
  = (exchanges api sent a ++ exchanges api (sent + List.length a)%nat b)%list.
Proof.
  revert sent. induction a as [|r a IH]; intros sent; simpl.
  - now rewrite Nat.add_0_r.
  - rewrite IH. do 3 f_equal. lia.
Qed.

Lemma exchanges_requests (api : dns_api) (sent : nat) (requests : list dns_request) :
  map fst (exchanges api sent requests) = requests.
Proof.
  revert sent. induction requests as [|r rs IH]; intros sent; simpl;
    [reflexivity|now rewrite IH].
Qed.

Lemma forallb_In_false {A : Type} (f : A -> bool) (l : list A) (x : A) :
  In x l -> f x = false -> forallb f l = false.
Proof.
  intros Hin Hx. destruct (forallb f l) eqn:E; [|reflexivity].
  rewrite forallb_forall in E. rewrite (E x Hin) in Hx. discriminate.
Qed.

End EventFacts.

(** ** The update loops *)

Section UpdatePass.

Variables (api : dns_api) (api_key : option string) (ip : string).

Lemma update_records_spec (dn : string) (recs : list RecordConfig)
    (pass : update_pass) :
  let xs :=
    exchanges api (sent_requests pass)
      (map (fun r => update_request api_key ip dn (rec_name r) (rec_type r)
                       (rec_ttl r)) recs) in
  update_records api api_key ip dn recs pass
  = mkPass (all_updates_successful_for_new_ip pass && forallb snd xs)
      (sent_requests pass + List.length recs)%nat
      (pass_events pass ++ map patch_event xs)%list.
Proof.
  cbv zeta. unfold update_records. revert pass.
  induction recs as [|r recs IH]; intros [flag sent events]; simpl.
  - now rewrite andb_true_r, Nat.add_0_r, app_nil_r.
  - rewrite IH. simpl. f_equal.
    + now destruct (api sent _), flag.
    + lia.
    + now rewrite <- app_assoc.
Qed.

Lemma update_domains_from (ds : list DomainConfig) (pass : update_pass) :
  let p := fold_left (update_domain api api_key ip) ds pass in
  let xs := exchanges api (sent_requests pass) (cycle_requests api_key ip ds) in
  all_updates_successful_for_new_ip p
    = all_updates_successful_for_new_ip pass && forallb snd xs
  /\ patches (pass_events p) = (patches (pass_events pass) ++ xs)%list
  /\ saves (pass_events p) = saves (pass_events pass)
  /\ existsb is_resolve (pass_events p) = existsb is_resolve (pass_events pass)
  /\ existsb is_load (pass_events p) = existsb is_load (pass_events pass).
Proof.
  cbv zeta. revert pass.
  induction ds as [|d ds IH]; intros pass; cbn [fold_left cycle_requests flat_map].
  - cbn. now rewrite andb_true_r, app_nil_r.
  - destruct (IH (update_domain api api_key ip pass d))
      as (Hflag & Hp & Hs & Hr & Hl).
    rewrite Hflag, Hp, Hs, Hr, Hl. clear IH Hflag Hp Hs Hr Hl.
    unfold update_domain. rewrite update_records_spec.
    cbn [all_updates_successful_for_new_ip sent_requests pass_events].
    rewrite exchanges_app, length_map, forallb_app.
    rewrite !patches_app, !saves_app, !existsb_app.
    rewrite patches_patch_events, saves_patch_events, resolves_patch_events,
      loads_patch_events.
    cbn. rewrite !app_nil_r, !orb_false_r.
    repeat split.
    + now rewrite andb_assoc.
    + now rewrite <- app_assoc.
Qed.

Lemma update_domains_spec (ds : list DomainConfig) :
  let p := update_domains api api_key ip ds in
  let xs := exchanges api 0 (cycle_requests api_key ip ds) in
  all_updates_successful_for_new_ip p = forallb snd xs
  /\ patches (pass_events p) = xs
  /\ saves (pass_events p) = []
  /\ existsb is_resolve (pass_events p) = false
  /\ existsb is_load (pass_events p) = false.
Proof. exact (update_domains_from ds (mkPass true 0 [])). Qed.

End UpdatePass.

(** ** One reconciliation cycle *)

Section Reconcile.

Variables (env : iteration_env) (st : loop_state).

Local Abbreviation api_key := (MIJNHOST_API_KEY (module_globals st)).
Local Abbreviation interval := (CHECK_INTERVAL_SECONDS (module_globals st)).
Local Abbreviation url := (PUBLIC_IP_SERVICE_URL (module_globals st)).

(** The cycle that updates: the IP differs and there are domains. *)
Lemma reconcile_updating (ip : string) (d : DomainConfig) (ds : list DomainConfig) :
  get_public_ip (ip_response env) = Some ip ->
  ip_differs ip (cached_ip_from_config st) = true ->
  domain_configurations st = Some (d :: ds) ->
  let pass := update_domains (provider env) api_key ip (d :: ds) in
  reconcile env st
  = if all_updates_successful_for_new_ip pass
    then
      (EvGetPublicIp url
         :: (EvLog LogIpDiffers
               :: pass_events pass
               ++ [EvLog LogAllUpdatesSuccessful;
                   EvCacheIp
                     (parsed_config_data
                        (cache_ip_in_yaml ip (module_globals st)))])
         ++ [EvLog (LogWaiting interval); EvSleep interval],
       mkState (cache_ip_in_yaml ip (module_globals st)) (YStr ip)
         (domain_configurations st) (dns_config_last_modified_time st))%list
    else
      (EvGetPublicIp url
         :: (EvLog LogIpDiffers :: pass_events pass ++ [EvLog LogUpdatesFailed])
         ++ [EvLog (LogWaiting interval); EvSleep interval],
       st)%list.
Proof.
  intros Hip Hdiff Hdom. cbv zeta. unfold reconcile.
  rewrite Hip, Hdiff, Hdom.
  destruct (all_updates_successful_for_new_ip _); [|reflexivity].
  unfold cache_and_remember. rewrite Hdom. reflexivity.
Qed.

(** The cycle that finds the cached IP. *)
Lemma reconcile_unchanged (ip : string) :
  get_public_ip (ip_response env) = Some ip ->
  cached_ip_from_config st = YStr ip ->
  reconcile env st
  = ([EvGetPublicIp url; EvLog LogNoUpdateNeeded;
      EvLog (LogWaiting interval); EvSleep interval],
     st).
Proof.
  intros Hip Hcached. unfold reconcile.
  rewrite Hip, Hcached. unfold ip_differs. now rewrite String.eqb_refl.
Qed.

(** The calls of [update_dns_record] of a cycle. *)
Lemma reconcile_patches :
  patches (fst (reconcile env st))
  = match get_public_ip (ip_response env), domain_configurations st with
    | Some ip, Some (d :: ds) =>
        if ip_differs ip (cached_ip_from_config st)
        then exchanges (provider env) 0 (cycle_requests api_key ip (d :: ds))
        else []
    | _, _ => []
    end.
Proof.
  destruct (get_public_ip (ip_response env)) as [ip|] eqn:Hip;
    [|unfold reconcile; now rewrite Hip].
  destruct (ip_differs ip (cached_ip_from_config st)) eqn:Hdiff.
  - destruct (domain_configurations st) as [[|d ds]|] eqn:Hdom;
      try (unfold reconcile; now rewrite Hip, Hdiff, Hdom).
    rewrite (reconcile_updating ip d ds Hip Hdiff Hdom).
    destruct (update_domains_spec (provider env) api_key ip (d :: ds))
      as (_ & Hp & _ & _).
    destruct (all_updates_successful_for_new_ip _);
      cbn [fst patches app]; rewrite !patches_app, Hp; cbn [patches];
      now rewrite !app_nil_r.
  - unfold reconcile. rewrite Hip, Hdiff.
    now destruct (domain_configurations st) as [[|d ds]|].
Qed.

(** A failed update leaves the state as it is and nothing is saved. *)
Lemma reconcile_failed (request : dns_request) :
  In (request, false) (patches (fst (reconcile env st))) ->
  snd (reconcile env st) = st /\ saves (fst (reconcile env st)) = [].
Proof.
  intros Hin. pose proof Hin as Hin'. rewrite reconcile_patches in Hin'.
  destruct (get_public_ip (ip_response env)) as [ip|] eqn:Hip; [|contradiction].
  destruct (domain_configurations st) as [[|d ds]|] eqn:Hdom; try contradiction.
  destruct (ip_differs ip (cached_ip_from_config st)) eqn:Hdiff; [|contradiction].
  rewrite (reconcile_updating ip d ds Hip Hdiff Hdom).
  destruct (update_domains_spec (provider env) api_key ip (d :: ds))
    as (Hflag & _ & Hs & _).
  rewrite Hflag, (forallb_In_false snd _ _ Hin' eq_refl).
  cbn [fst snd saves app]. rewrite !saves_app, Hs. now split.
Qed.

(** A cycle does not load the configuration. *)
Lemma reconcile_loads : existsb is_load (fst (reconcile env st)) = false.
Proof.
  unfold reconcile.
  destruct (get_public_ip (ip_response env)) as [ip|]; [|reflexivity].
  destruct (ip_differs ip (cached_ip_from_config st)); [|reflexivity].
  destruct (domain_configurations st) as [[|d ds]|]; try reflexivity.
  destruct (update_domains_spec (provider env) api_key ip (d :: ds))
    as (_ & _ & _ & _ & Hl).
  destruct (all_updates_successful_for_new_ip _);
    cbn [cache_and_remember fst existsb is_load orb app];
    rewrite !existsb_app, Hl; reflexivity.
Qed.

End Reconcile.

(* ================================================================= *)
(** * The claims about the reconciliation cycle *)

(** C4.  In a cycle in which the resolved IP differs from the cached IP and
    there are configured domains, [update_dns_record] is called exactly
    once for every record of every domain, in configuration order and
    whatever the earlier calls returned; the aggregate flag is the
    conjunction of all the results, and the IP is cached exactly when
    all of them are true. *)
Theorem every_record_is_updated (env : iteration_env) (st : loop_state)
    (ip : string) (ds : list DomainConfig) :
  get_public_ip (ip_response env) = Some ip ->
  ip_differs ip (cached_ip_from_config st) = true ->
  domain_configurations st = Some ds ->
  ds <> [] ->
  let api_key := MIJNHOST_API_KEY (module_globals st) in
  let events := fst (reconcile env st) in
  map fst (patches events) = cycle_requests api_key ip ds
  /\ patches events = exchanges (provider env) 0 (cycle_requests api_key ip ds)
  /\ all_updates_successful_for_new_ip (update_domains (provider env) api_key ip ds)
     = forallb snd (patches events)
  /\ (saves events <> [] <-> forallb snd (patches events) = true).
Proof.
  intros Hip Hdiff Hdom Hne. cbv zeta.
  destruct ds as [|d ds]; [congruence|].
  assert (Hp : patches (fst (reconcile env st))
               = exchanges (provider env) 0
                   (cycle_requests (MIJNHOST_API_KEY (module_globals st)) ip
                      (d :: ds)))
    by now rewrite reconcile_patches, Hip, Hdom, Hdiff.
  destruct (update_domains_spec (provider env)
              (MIJNHOST_API_KEY (module_globals st)) ip (d :: ds))
    as (Hflag & _ & Hs & _).
  rewrite Hp, exchanges_requests, <- Hflag.
  repeat split.
  - rewrite (reconcile_updating env st ip d ds Hip Hdiff Hdom).
    destruct (all_updates_successful_for_new_ip _); [reflexivity|].
    cbn [fst saves app]. rewrite !saves_app, Hs. intros H. now elim H.
  - rewrite (reconcile_updating env st ip d ds Hip Hdiff Hdom).
    intros ->. cbn [fst saves app]. rewrite !saves_app, Hs. discriminate.
Qed.

Lemma every_record_is_updated_witness :
  map fst (patches (fst (reconcile (example_env "203.0.113.9" false) example_state)))
  = [update_request (Some "key") "203.0.113.9" "example.com" "@" "A" 300].
Proof.
  exact (proj1 (every_record_is_updated (example_env "203.0.113.9" false)
                  example_state "203.0.113.9"
                  [mkDomain "example.com" [mkRecord "@" "A" 300]]
                  eq_refl eq_refl eq_refl
                  (fun H => eq_ind [] (fun l => match l with
                                                | [] => True
                                                | _ :: _ => False
                                                end) I _ (eq_sym H)))).
Defined.

(** C1.  In a cycle in which the resolved IP differs from the cached IP and
    a record update returns false, [cache_ip_in_yaml] is not called and
    the state, [cached_ip_from_config] with it, is left as it was; so in
    the next cycle the same IP still differs from the cached one and the
    full batch of record updates is sent again. *)
Theorem failed_batch_is_not_cached (env : iteration_env) (st : loop_state)
    (ip : string) (request : dns_request) :
  get_public_ip (ip_response env) = Some ip ->
  ip_differs ip (cached_ip_from_config st) = true ->
  In (request, false) (patches (fst (reconcile env st))) ->
  let st' := snd (reconcile env st) in
  saves (fst (reconcile env st)) = []
  /\ st' = st
  /\ ip_differs ip (cached_ip_from_config st') = true
  /\ forall env',
       get_public_ip (ip_response env') = Some ip ->
       map fst (patches (fst (reconcile env' st')))
       = map fst (patches (fst (reconcile env st)))
       /\ map fst (patches (fst (reconcile env' st')))
          = cycle_requests (MIJNHOST_API_KEY (module_globals st)) ip
              (match domain_configurations st with Some ds => ds | None => [] end).
Proof.
  intros Hip Hdiff Hin. cbv zeta.
  destruct (reconcile_failed env st request Hin) as (Hst & Hsaves).
  rewrite Hst. split; [exact Hsaves|split; [reflexivity|split; [exact Hdiff|]]].
  intros env' Hip'. rewrite !reconcile_patches, Hip, Hip', Hdiff.
  destruct (domain_configurations st) as [[|d ds]|]; try (now split).
  now rewrite !exchanges_requests.
Qed.

Lemma failed_batch_is_not_cached_witness :
  snd (reconcile (example_env "203.0.113.9" false) example_state) = example_state.
Proof.
  exact (proj1 (proj2 (failed_batch_is_not_cached
                         (example_env "203.0.113.9" false) example_state
                         "203.0.113.9"
                         (update_request (Some "key") "203.0.113.9"
                            "example.com" "@" "A" 300)
                         eq_refl eq_refl (or_introl eq_refl)))).
Defined.

(** C9.  In a cycle in which the IP service returns the cached IP, the
    loop logs that no update is needed and goes to the sleep step:
    [update_dns_record] and [cache_ip_in_yaml] are not called and the
    state is unchanged. *)
Theorem unchanged_ip_needs_no_update (env : iteration_env) (st : loop_state)
    (ip : string) :
  get_public_ip (ip_response env) = Some ip ->
  cached_ip_from_config st = YStr ip ->
  let interval := CHECK_INTERVAL_SECONDS (module_globals st) in
  reconcile env st
  = ([EvGetPublicIp (PUBLIC_IP_SERVICE_URL (module_globals st));
      EvLog LogNoUpdateNeeded; EvLog (LogWaiting interval); EvSleep interval],
     st)
  /\ patches (fst (reconcile env st)) = []
  /\ saves (fst (reconcile env st)) = [].
Proof.
  intros Hip Hcached. cbv zeta.
  rewrite (reconcile_unchanged env st ip Hip Hcached). now repeat split.
Qed.

Lemma unchanged_ip_needs_no_update_witness :
  reconcile (example_env "203.0.113.1" true) example_state
  = ([EvGetPublicIp DEFAULT_PUBLIC_IP_SERVICE_URL; EvLog LogNoUpdateNeeded;
      EvLog (LogWaiting 300); EvSleep 300],
     example_state).
Proof.
  exact (proj1 (unchanged_ip_needs_no_update (example_env "203.0.113.1" true)
                  example_state "203.0.113.1" eq_refl eq_refl)).
Defined.

(* ================================================================= *)
(** * The claims about reloading *)

Section Reload.

Variables (env : iteration_env) (st : loop_state).

(** An unparsable file makes the loader return [None, None]. *)
Lemma load_yaml_error (lenv : load_env) (g : globals) :
  config_file lenv = ReadYamlError ->
  load_and_validate_config lenv g
  = (mkGlobals (env_api_key lenv) (CHECK_INTERVAL_SECONDS g)
       (PUBLIC_IP_SERVICE_URL g) (parsed_config_data g),
     LoadFatal).
Proof.
  intros Hfile. unfold load_and_validate_config. cbn [MIJNHOST_API_KEY].
  rewrite Hfile. now destruct (env_api_key lenv) as [[|c key]|].
Qed.

(** An unchanged modification time means no reload: the iteration is the
    reconciliation cycle. *)
Lemma iteration_unchanged_file :
  getmtime env = Some (dns_config_last_modified_time st) ->
  iteration env st
  = (fst (reconcile env st), Continues (snd (reconcile env st))).
Proof.
  intros Hm. unfold iteration. rewrite Hm, Z.eqb_refl. cbn [negb app].
  destruct st as [g cached doms last]. cbn [module_globals cached_ip_from_config
    domain_configurations dns_config_last_modified_time].
  now destruct (reconcile env _).
Qed.

Lemma iteration_unchanged_file_loads :
  getmtime env = Some (dns_config_last_modified_time st) ->
  existsb is_load (fst (iteration env st)) = false.
Proof.
  intros Hm. rewrite (iteration_unchanged_file Hm). apply reconcile_loads.
Qed.

(** A reload that fails on the file's content: the loop sleeps and goes
    on with the new modification time and without configuration. *)
Lemma iteration_failed_reload (m : Z) :
  getmtime env = Some m ->
  m <> dns_config_last_modified_time st ->
  config_file (reload_env env) = ReadYamlError ->
  let g := fst (load_and_validate_config (reload_env env) (module_globals st)) in
  iteration env st
  = ([EvLog LogChangeDetected; EvLoadConfig;
      EvLog (match MIJNHOST_API_KEY g with
             | None => LogCriticalApiKeyUnset
             | Some _ => LogCriticalReloadFailed
             end);
      EvSleep (match MIJNHOST_API_KEY g with
               | None => DEFAULT_CHECK_INTERVAL_SECONDS
               | Some _ =>
                   if CHECK_INTERVAL_SECONDS g >? 0
                   then CHECK_INTERVAL_SECONDS g
                   else DEFAULT_CHECK_INTERVAL_SECONDS
               end)],
     Continues (mkState g YNone None m)).
Proof.
  intros Hm Hne Hfile. cbv zeta. unfold iteration.
  rewrite Hm. apply Z.eqb_neq in Hne. rewrite Hne. cbn [negb module_globals].
  rewrite (load_yaml_error _ _ Hfile). cbn [fst returned MIJNHOST_API_KEY].
  now destruct (env_api_key (reload_env env)).
Qed.

End Reload.

(** The call in the loop (line 327) tests the sentinel.  When the
    configuration file has changed and does not parse as YAML,
    [load_and_validate_config] returns it (both components [None]) and
    the iteration does no update cycle: it logs a critical line and
    sleeps, without looking up the IP, updating a record or saving. *)
Theorem unparsable_reload_skips_cycle (env : iteration_env) (st : loop_state)
    (m : Z) :
  getmtime env = Some m ->
  m <> dns_config_last_modified_time st ->
  config_file (reload_env env) = ReadYamlError ->
  returned (snd (load_and_validate_config (reload_env env) (module_globals st)))
  = (YNone, None)
  /\ no_cycle (fst (iteration env st))
  /\ exists critical seconds st',
       iteration env st
       = ([EvLog LogChangeDetected; EvLoadConfig; EvLog critical; EvSleep seconds],
          Continues st')
       /\ (critical = LogCriticalApiKeyUnset \/ critical = LogCriticalReloadFailed).
Proof.
  intros Hm Hne Hfile.
  rewrite (iteration_failed_reload env st m Hm Hne Hfile).
  rewrite (load_yaml_error _ _ Hfile). cbn [fst snd returned MIJNHOST_API_KEY].
  split; [reflexivity|split; [now repeat split|]].
  do 3 eexists. split; [reflexivity|].
  destruct (env_api_key (reload_env env)); auto.
Qed.

Lemma unparsable_reload_skips_cycle_witness :
  no_cycle (fst (iteration example_unparsable_env example_state)).
Proof.
  refine (proj1 (proj2 (unparsable_reload_skips_cycle example_unparsable_env
                          example_state 6 eq_refl _ eq_refl))).
  discriminate.
Defined.

(** C3, the code at the failing input.  The file changed at time 6 and does
    not parse.  The iteration logs the critical line and sleeps, and it
    has set [dns_config_last_modified_time] to 6 and both
    [cached_ip_from_config] and [domain_configurations] to [None].  In the
    next iteration, the file being the same, the loader is not called
    again; the loop finds no domains and saves the resolved IP with the
    document it still holds in memory. *)
Theorem failed_reload_is_not_retried :
  iteration example_unparsable_env example_state
  = ([EvLog LogChangeDetected; EvLoadConfig; EvLog LogCriticalReloadFailed;
      EvSleep 300],
     Continues (mkState (module_globals example_state) YNone None 6))
  /\ run [example_unparsable_env; example_unparsable_env] example_state
     = ([EvLog LogChangeDetected; EvLoadConfig; EvLog LogCriticalReloadFailed;
         EvSleep 300;
         EvGetPublicIp DEFAULT_PUBLIC_IP_SERVICE_URL; EvLog LogIpDiffers;
         EvLog LogNoDomainsCachingIp;
         EvCacheIp
           (parsed_config_data
              (cache_ip_in_yaml "203.0.113.9" (module_globals example_state)));
         EvLog (LogWaiting 300); EvSleep 300],
        Continues
          (mkState (cache_ip_in_yaml "203.0.113.9" (module_globals example_state))
             (YStr "203.0.113.9") None 6)).
Proof. split; reflexivity. Qed.

(** The same file at startup: the loader returns [None, None], the main
    block goes on, and the first iteration saves the resolved IP with an
    empty structure. *)
Example startup_with_unparsable_file :
  startup (mkLoadEnv (Some "key") ReadYamlError None) (Some 6)
  = ([EvLog LogStarted; EvLoadConfig; EvLog LogInitialSettings;
      EvLog (LogInitialIp false); EvLog LogNoDomainsInitially],
     Continues (mkState (mkGlobals (Some "key") 300 DEFAULT_PUBLIC_IP_SERVICE_URL [])
                  YNone None 6))
  /\ saves
       (fst (iteration example_unparsable_env
               (mkState
                  (mkGlobals (Some "key") 300 DEFAULT_PUBLIC_IP_SERVICE_URL [])
                  YNone None 6)))
     = [[("global_settings",
          YDict [("last_known_ip", YStr "203.0.113.9");
                 ("check_interval_seconds", YInt 300);
                 ("public_ip_service_url", YStr DEFAULT_PUBLIC_IP_SERVICE_URL)]);
         ("domains", YList [])]].
Proof. split; reflexivity. Qed.

(* ================================================================= *)
(** * The scenarios of the specification *)

(** The resolver returns 203.0.113.9, the cached IP is 203.0.113.1 and
    [example.com] has the record [{name: "@", type: "A", ttl: 300}]: one
    request for [example.com.] with the new value; when it succeeds,
    [last_known_ip] is saved as 203.0.113.9. *)
Example scenario_update_succeeds :
  patches (fst (reconcile (example_env "203.0.113.9" true) example_state))
  = [(mkRequest "https://mijn.host/api/v2/domains/example.com/dns" (Some "key")
        "A" "example.com." "203.0.113.9" 300, true)]
  /\ map (fun document =>
            get YNone "last_known_ip"
              (entries_of (get YNone "global_settings" document)))
         (saves (fst (reconcile (example_env "203.0.113.9" true) example_state)))
     = [YStr "203.0.113.9"]
  /\ cached_ip_from_config
       (snd (reconcile (example_env "203.0.113.9" true) example_state))
     = YStr "203.0.113.9".
Proof. repeat split. Qed.

(** The same with a failing update: nothing is saved and the cached IP
    stays 203.0.113.1. *)
Example scenario_update_fails :
  saves (fst (reconcile (example_env "203.0.113.9" false) example_state)) = []
  /\ cached_ip_from_config
       (snd (reconcile (example_env "203.0.113.9" false) example_state))
     = YStr "203.0.113.1".
Proof. repeat split. Qed.

(** Neither the configuration file nor the template exists: the loader
    goes on with the empty structure and no domains. *)
Example scenario_no_file_no_template :
  load_and_validate_config (mkLoadEnv (Some "key") ReadNotFound None)
    initial_globals
  = (mkGlobals (Some "key") 300 DEFAULT_PUBLIC_IP_SERVICE_URL empty_structure,
     LoadOk YNone []).
Proof. reflexivity. Qed.

(* ================================================================= *)
(** * Further properties of the loader *)

Section LoaderOutcomes.

Variables (env : load_env) (g : globals).

(** A successful load went through the validation pipeline, on the
    document read or on the empty structure. *)
Lemma load_ok_pipeline (g1 : globals) (ip : yaml) (ds : list DomainConfig) :
  load_and_validate_config env g = (g1, LoadOk ip ds) ->
  exists g0 document,
    MIJNHOST_API_KEY g0 = env_api_key env
    /\ validate_document g0 document = (g1, LoadOk ip ds).
Proof.
  unfold load_and_validate_config. cbn [MIJNHOST_API_KEY].
  destruct (env_api_key env) as [[|c key]|] eqn:Ekey; try discriminate.
  set (g0 := mkGlobals _ _ _ _).
  assert (Hloaded : forall v,
             validate_loaded g0 v = (g1, LoadOk ip ds) ->
             exists document, validate_document g0 document = (g1, LoadOk ip ds)).
  { intros v. unfold validate_loaded.
    destruct (negb (truthy v)); [eauto|].
    destruct v; try discriminate. eauto. }
  destruct (config_file env) as [v| | |]; try discriminate.
  - intros H. destruct (Hloaded v H) as (document & Hd).
    exists g0, document. now split.
  - destruct (seeded_file env) as [v|].
    + intros H. destruct (Hloaded v H) as (document & Hd).
      exists g0, document. now split.
    + intros H. exists g0, empty_structure. now split.
Qed.

Lemma validate_document_not_fatal (g0 : globals) (document : pydict) :
  snd (validate_document g0 document) <> LoadFatal.
Proof.
  unfold validate_document.
  destruct (check_interval_of _); cbn; discriminate.
Qed.

Lemma validate_loaded_not_fatal (g0 : globals) (v : yaml) :
  snd (validate_loaded g0 v) <> LoadFatal.
Proof.
  unfold validate_loaded.
  destruct (negb (truthy v)); [apply validate_document_not_fatal|].
  destruct v; try (cbn; discriminate). apply validate_document_not_fatal.
Qed.

End LoaderOutcomes.

(** X1.  Without the [MIJNHOST_API_KEY] environment variable, or with an
    empty one, the loader returns [None, None] whatever the configuration
    file holds, and leaves the interval, the service URL and the document
    in memory as they were. *)
Theorem load_without_api_key (env : load_env) (g : globals) :
  env_api_key env = None \/ env_api_key env = Some "" ->
  load_and_validate_config env g
  = (mkGlobals (env_api_key env) (CHECK_INTERVAL_SECONDS g)
       (PUBLIC_IP_SERVICE_URL g) (parsed_config_data g),
     LoadFatal).
Proof.
  intros [H|H]; unfold load_and_validate_config; cbn [MIJNHOST_API_KEY];
    now rewrite H.
Qed.

Lemma load_without_api_key_witness :
  load_and_validate_config
    (mkLoadEnv (Some "") (ReadOk (YDict example_raw_document)) None)
    (module_globals example_state)
  = (mkGlobals (Some "") 300 DEFAULT_PUBLIC_IP_SERVICE_URL example_raw_document,
     LoadFatal).
Proof.
  apply (load_without_api_key
           (mkLoadEnv (Some "") (ReadOk (YDict example_raw_document)) None)
           (module_globals example_state)).
  right. reflexivity.
Defined.

Lemma load_ok_settings (env : load_env) (g g1 : globals) (ip : yaml)
    (ds : list DomainConfig) :
  load_and_validate_config env g = (g1, LoadOk ip ds) ->
  0 < CHECK_INTERVAL_SECONDS g1
  /\ has_scheme (PUBLIC_IP_SERVICE_URL g1) = true.
Proof.
  intros H. destruct (load_ok_pipeline env g g1 ip ds H) as (g0 & doc & _ & Hv).
  apply validate_document_ok in Hv. destruct Hv as (Hint & Hurl & _).
  split.
  - exact (check_interval_of_positive _ _ Hint).
  - rewrite Hurl. apply service_url_of_has_scheme.
Qed.

(** X2.  After every successful load the effective check interval is
    positive and the effective service URL starts with [http://] or
    [https://], whatever the document says. *)
Theorem loaded_settings_are_valid (env : load_env) (g g1 : globals) (ip : yaml)
    (ds : list DomainConfig) :
  load_and_validate_config env g = (g1, LoadOk ip ds) ->
  0 < CHECK_INTERVAL_SECONDS g1
  /\ has_scheme (PUBLIC_IP_SERVICE_URL g1) = true.
Proof. exact (load_ok_settings env g g1 ip ds). Qed.

Lemma loaded_settings_are_valid_witness :
  0 < CHECK_INTERVAL_SECONDS
        (fst (load_and_validate_config
                (mkLoadEnv (Some "key") (ReadOk (YDict example_raw_document)) None)
                initial_globals))
  /\ has_scheme
       (PUBLIC_IP_SERVICE_URL
          (fst (load_and_validate_config
                  (mkLoadEnv (Some "key") (ReadOk (YDict example_raw_document))
                     None)
                  initial_globals))) = true.
Proof.
  apply (loaded_settings_are_valid
           (mkLoadEnv (Some "key") (ReadOk (YDict example_raw_document)) None)
           initial_globals _ (YStr "203.0.113.1")
           [mkDomain "example.com" [mkRecord "@" "A" 300]]).
  reflexivity.
Defined.

Lemma normal_record_true (r : RecordConfig) :
  normal_record r = true ->
  strip (rec_name r) = rec_name r
  /\ rec_name r <> ""
  /\ (rec_type r = "A" \/ rec_type r = "AAAA")
  /\ 0 < rec_ttl r.
Proof.
  unfold normal_record. intros H.
  apply andb_prop in H. destruct H as [H Httl].
  apply andb_prop in H. destruct H as [H Htype].
  apply andb_prop in H. destruct H as [Hstrip Hname].
  apply String.eqb_eq in Hstrip. apply negb_true_iff, String.eqb_neq in Hname.
  apply Z.ltb_lt in Httl.
  repeat split; try assumption.
  apply orb_prop in Htype.
  destruct Htype as [E|E]; apply String.eqb_eq in E; auto.
Qed.

Lemma normal_domain_true (d : DomainConfig) :
  normal_domain d = true ->
  strip (domain_name d) = domain_name d
  /\ domain_name d <> ""
  /\ records d <> []
  /\ forallb normal_record (records d) = true.
Proof.
  unfold normal_domain. intros H.
  apply andb_prop in H. destruct H as [H Hrs].
  apply andb_prop in H. destruct H as [H Hne].
  apply andb_prop in H. destruct H as [Hstrip Hname].
  apply String.eqb_eq in Hstrip. apply negb_true_iff, String.eqb_neq in Hname.
  repeat split; try assumption.
  destruct (records d); discriminate.
Qed.

Lemma load_ok_domains_normal (env : load_env) (g g1 : globals) (ip : yaml)
    (ds : list DomainConfig) :
  load_and_validate_config env g = (g1, LoadOk ip ds) ->
  forallb normal_domain ds = true.
Proof.
  intros H.
  destruct (load_ok_pipeline env g g1 ip ds H) as (g0 & doc & _ & Hv).
  apply validate_document_ok in Hv. destruct Hv as (_ & _ & _ & _ & _ & Hds).
  rewrite Hds. apply validate_domains_give_normal.
Qed.

(** X3.  Every domain that a successful load returns has a trimmed,
    non-empty name and at least one record, and every record of it has a
    trimmed, non-empty name, the type ["A"] or ["AAAA"] and a positive
    TTL. *)
Theorem loaded_domains_are_normal (env : load_env) (g g1 : globals) (ip : yaml)
    (ds : list DomainConfig) :
  load_and_validate_config env g = (g1, LoadOk ip ds) ->
  forall d, In d ds ->
    strip (domain_name d) = domain_name d
    /\ domain_name d <> ""
    /\ records d <> []
    /\ forall r, In r (records d) ->
         strip (rec_name r) = rec_name r
         /\ rec_name r <> ""
         /\ (rec_type r = "A" \/ rec_type r = "AAAA")
         /\ 0 < rec_ttl r.
Proof.
  intros H d Hd.
  pose proof (load_ok_domains_normal env g g1 ip ds H) as Hn.
  rewrite forallb_forall in Hn.
  destruct (normal_domain_true d (Hn d Hd)) as (Hs & Hname & Hne & Hrs).
  split; [exact Hs|split; [exact Hname|split; [exact Hne|]]].
  intros r Hr. rewrite forallb_forall in Hrs.
  exact (normal_record_true r (Hrs r Hr)).
Qed.

Lemma loaded_domains_are_normal_witness :
  records (mkDomain "example.com" [mkRecord "@" "A" 300]) <> [].
Proof.
  refine (proj1 (proj2 (proj2
    (loaded_domains_are_normal
       (mkLoadEnv (Some "key") (ReadOk (YDict example_raw_document)) None)
       initial_globals _ (YStr "203.0.113.1")
       [mkDomain "example.com" [mkRecord "@" "A" 300]] eq_refl
       (mkDomain "example.com" [mkRecord "@" "A" 300]) (or_introl eq_refl))))).
Defined.

(** X4.  After every successful load the document in memory has a mapping
    under [global_settings] and a sequence under [domains]; the cached IP
    returned is the value under [last_known_ip] (or [None]) and the
    domains returned are the validation of that sequence. *)
Theorem loaded_document_shape (env : load_env) (g g1 : globals) (ip : yaml)
    (ds : list DomainConfig) :
  load_and_validate_config env g = (g1, LoadOk ip ds) ->
  exists gs L,
    dict_get "global_settings" (parsed_config_data g1) = Some (YDict gs)
    /\ dict_get "domains" (parsed_config_data g1) = Some (YList L)
    /\ ip = get YNone "last_known_ip" gs
    /\ ds = validate_domains L
    /\ MIJNHOST_API_KEY g1 = env_api_key env.
Proof.
  intros H. destruct (load_ok_pipeline env g g1 ip ds H) as (g0 & doc & Hk & Hv).
  apply validate_document_ok in Hv.
  destruct Hv as (_ & _ & Hkey & Hdoc & Hip & Hds).
  set (doc1 := ensure_key "global_settings" is_dict (YDict []) doc) in *.
  set (doc2 := ensure_key "domains" is_list (YList []) doc1) in *.
  assert (Hgs : exists gs, dict_get "global_settings" doc1 = Some (YDict gs)).
  { unfold doc1, ensure_key, dict_has, get.
    destruct (dict_get "global_settings" doc) as [[| | | | | |gs]|] eqn:E;
      cbn [negb orb is_dict];
      try (rewrite dict_get_set_same; now eexists).
    rewrite E. now eexists. }
  assert (Hdom : exists L, dict_get "domains" doc2 = Some (YList L)).
  { unfold doc2, ensure_key, dict_has, get.
    destruct (dict_get "domains" doc1) as [[| | | | |L|]|] eqn:E;
      cbn [negb orb is_list];
      try (rewrite dict_get_set_same; now eexists).
    rewrite E. now eexists. }
  destruct Hgs as (gs & Hgs). destruct Hdom as (L & Hdom).
  exists gs, L. rewrite Hdoc.
  assert (Hgs2 : dict_get "global_settings" doc2 = Some (YDict gs)).
  { unfold doc2. rewrite ensure_key_other by discriminate. exact Hgs. }
  repeat split; try assumption.
  - rewrite Hip. unfold get at 2. now rewrite Hgs.
  - rewrite Hds. unfold get. now rewrite Hdom.
  - congruence.
Qed.

Lemma loaded_document_shape_witness :
  exists gs L,
    dict_get "global_settings" empty_structure = Some (YDict gs)
    /\ dict_get "domains" empty_structure = Some (YList L)
    /\ YNone = get YNone "last_known_ip" gs
    /\ [] = validate_domains L
    /\ Some "key" = Some "key".
Proof.
  exact (loaded_document_shape (mkLoadEnv (Some "key") ReadNotFound None)
           initial_globals
           (mkGlobals (Some "key") 300 DEFAULT_PUBLIC_IP_SERVICE_URL
              empty_structure)
           YNone [] eq_refl).
Defined.

Lemma load_fatal_keeps (env : load_env) (g g1 : globals) :
  load_and_validate_config env g = (g1, LoadFatal) ->
  CHECK_INTERVAL_SECONDS g1 = CHECK_INTERVAL_SECONDS g
  /\ PUBLIC_IP_SERVICE_URL g1 = PUBLIC_IP_SERVICE_URL g
  /\ parsed_config_data g1 = parsed_config_data g
  /\ MIJNHOST_API_KEY g1 = env_api_key env.
Proof.
  unfold load_and_validate_config. cbn [MIJNHOST_API_KEY].
  set (g0 := mkGlobals _ _ _ _).
  assert (Hl : forall v, validate_loaded g0 v <> (g1, LoadFatal)).
  { intros v E. apply (validate_loaded_not_fatal g0 v). now rewrite E. }
  assert (Hd : forall d, validate_document g0 d <> (g1, LoadFatal)).
  { intros d E. apply (validate_document_not_fatal g0 d). now rewrite E. }
  destruct (env_api_key env) as [[|c key]|] eqn:Ekey;
    try (intros [= <-]; subst g0; now rewrite ?Ekey).
  destruct (config_file env) as [v| | |];
    try (intros [= <-]; subst g0; now rewrite ?Ekey).
  - intros E. now elim (Hl v).
  - destruct (seeded_file env) as [v|]; intros E;
      [now elim (Hl v)|now elim (Hd empty_structure)].
Qed.

(** X5.  A load that returns [None, None] leaves the interval, the service
    URL and the document in memory as they were: the loop goes on with the
    last valid settings. *)
Theorem fatal_load_keeps_settings (env : load_env) (g g1 : globals) :
  load_and_validate_config env g = (g1, LoadFatal) ->
  CHECK_INTERVAL_SECONDS g1 = CHECK_INTERVAL_SECONDS g
  /\ PUBLIC_IP_SERVICE_URL g1 = PUBLIC_IP_SERVICE_URL g
  /\ parsed_config_data g1 = parsed_config_data g
  /\ MIJNHOST_API_KEY g1 = env_api_key env.
Proof. exact (load_fatal_keeps env g g1). Qed.

Lemma fatal_load_keeps_settings_witness :
  parsed_config_data
    (fst (load_and_validate_config (reload_env example_unparsable_env)
            (module_globals example_state)))
  = example_raw_document.
Proof.
  exact (proj1 (proj2 (proj2
    (fatal_load_keeps_settings (reload_env example_unparsable_env)
       (module_globals example_state) _ eq_refl)))).
Defined.

(** X6.  With the API key set, an empty configuration file (a document
    that is false: [None], [{}], [[]], [""], [0]) and an absent file that
    could not be seeded from the template both give the empty structure in
    memory, the default interval and service URL, no cached IP and no
    domains; it is not an error. *)
Theorem nothing_to_load_gives_defaults (env : load_env) (g : globals)
    (c : ascii) (key : string) :
  env_api_key env = Some (String c key) ->
  match document_read env with
  | Some document => truthy document = false
  | None => config_file env = ReadNotFound
  end ->
  load_and_validate_config env g
  = (mkGlobals (Some (String c key)) DEFAULT_CHECK_INTERVAL_SECONDS
       DEFAULT_PUBLIC_IP_SERVICE_URL empty_structure,
     LoadOk YNone []).
Proof.
  intros Hkey Hdoc. unfold load_and_validate_config. cbn [MIJNHOST_API_KEY].
  rewrite Hkey. unfold document_read in Hdoc.
  destruct (config_file env) as [v| | |]; try discriminate.
  - unfold validate_loaded. now rewrite Hdoc.
  - destruct (seeded_file env) as [v|]; [|reflexivity].
    unfold validate_loaded. now rewrite Hdoc.
Qed.

Lemma nothing_to_load_gives_defaults_witness :
  load_and_validate_config (mkLoadEnv (Some "key") (ReadOk (YStr "")) None)
    (module_globals example_state)
  = (mkGlobals (Some "key") 300 DEFAULT_PUBLIC_IP_SERVICE_URL empty_structure,
     LoadOk YNone []).
Proof.
  apply (nothing_to_load_gives_defaults
           (mkLoadEnv (Some "key") (ReadOk (YStr "")) None)
           (module_globals example_state) "k" "ey"); reflexivity.
Defined.

(** X7.  With the API key set, a document that is true but is no mapping
    (a non-empty string or list, a number, [True]) makes the loader raise
    [TypeError] or [AttributeError] at the first access to
    [global_settings]; no [except] clause covers that line. *)
Theorem non_mapping_document_raises (env : load_env) (g : globals)
    (c : ascii) (key : string) (document : yaml) :
  env_api_key env = Some (String c key) ->
  document_read env = Some document ->
  truthy document = true ->
  is_dict document = false ->
  exists e,
    snd (load_and_validate_config env g) = LoadRaise e
    /\ (e = TypeError \/ e = AttributeError).
Proof.
  intros Hkey Hread Htrue Hdict.
  exists (not_a_mapping_error document). split.
  - unfold load_and_validate_config. cbn [MIJNHOST_API_KEY]. rewrite Hkey.
    assert (Hl : forall g0,
               snd (validate_loaded g0 document)
               = LoadRaise (not_a_mapping_error document)).
    { intros g0. unfold validate_loaded. rewrite Htrue. cbn [negb].
      destruct document; try reflexivity. discriminate. }
    unfold document_read in Hread.
    destruct (config_file env) as [v| | |]; try discriminate.
    + injection Hread as ->. apply Hl.
    + rewrite Hread. apply Hl.
  - unfold not_a_mapping_error.
    destruct document as [| | | | s | items |]; auto.
    + destruct (substring_in _ _); auto.
    + destruct (existsb _ _); auto.
Qed.

Lemma non_mapping_document_raises_witness :
  exists e,
    snd (load_and_validate_config
           (mkLoadEnv (Some "key") (ReadOk (YList [YStr "example.com"])) None)
           initial_globals)
    = LoadRaise e
    /\ (e = TypeError \/ e = AttributeError).
Proof.
  apply (non_mapping_document_raises
           (mkLoadEnv (Some "key") (ReadOk (YList [YStr "example.com"])) None)
           initial_globals "k" "ey" (YList [YStr "example.com"]));
    reflexivity.
Defined.

Lemma ensured_settings (document : pydict) :
  entries_of
    (get YNone "global_settings"
       (ensure_key "global_settings" is_dict (YDict []) document))
  = entries_of (get YNone "global_settings" document).
Proof.
  unfold ensure_key, dict_has, get at 2 3.
  destruct (dict_get "global_settings" document) as [[| | | | | |gs]|] eqn:E;
    cbn [negb orb is_dict]; unfold get;
    rewrite ?dict_get_set_same, ?E; reflexivity.
Qed.

(** X8.  On a mapping inside the limits of the model ([plain]) whose
    [check_interval_seconds] is not an infinite float, validation
    succeeds; the effective interval is [int()] of the value when that is
    accepted and positive (so [True] gives 1 and 2.7 gives 2) and the
    default 300 otherwise, and the effective service URL is [str()] of
    [public_ip_service_url] when that starts with [http://] or
    [https://] and the default otherwise.  [int()] of a string skips
    blanks, tabs and line ends around the number but not the separators
    that [strip] removes, and refuses more than 4300 digits. *)
Theorem effective_settings (g : globals) (document : pydict) :
  let gs := entries_of (get YNone "global_settings" document) in
  plain (YDict document) = true ->
  (forall negative,
      get YNone "check_interval_seconds" gs <> YFloat (FInf negative)) ->
  (exists ip ds, snd (validate_document g document) = LoadOk ip ds)
  /\ CHECK_INTERVAL_SECONDS (fst (validate_document g document))
     = match py_int (get YNone "check_interval_seconds" gs) with
       | IntOk z => if 0 <? z then z else DEFAULT_CHECK_INTERVAL_SECONDS
       | IntRaise _ => DEFAULT_CHECK_INTERVAL_SECONDS
       end
  /\ PUBLIC_IP_SERVICE_URL (fst (validate_document g document))
     = match get YNone "public_ip_service_url" gs with
       | YNone => DEFAULT_PUBLIC_IP_SERVICE_URL
       | v => if has_scheme (py_str v) then py_str v
              else DEFAULT_PUBLIC_IP_SERVICE_URL
       end
  /\ py_int (YStr (String "028" "60")) = IntRaise ValueError
  /\ py_int (YStr " 6_0 ") = IntOk 60.
Proof.
  cbv zeta. intros _ Hfin. unfold validate_document.
  rewrite ensured_settings.
  rewrite (check_interval_of_cases _ Hfin). cbn [fst snd CHECK_INTERVAL_SECONDS
    PUBLIC_IP_SERVICE_URL].
  split; [eauto|split; [reflexivity|split; [|split; reflexivity]]].
  unfold service_url_of, has_scheme.
  now destruct (get YNone "public_ip_service_url" _).
Qed.

Lemma effective_settings_witness :
  CHECK_INTERVAL_SECONDS
    (fst (validate_document initial_globals
            [("global_settings",
              YDict [("check_interval_seconds", YFloat (FFinite "2.7" 2));
                     ("public_ip_service_url", YStr "ftp://example.com")])]))
  = 2
  /\ PUBLIC_IP_SERVICE_URL
       (fst (validate_document initial_globals
               [("global_settings",
                 YDict [("check_interval_seconds", YFloat (FFinite "2.7" 2));
                        ("public_ip_service_url", YStr "ftp://example.com")])]))
     = DEFAULT_PUBLIC_IP_SERVICE_URL.
Proof.
  refine ((fun H => conj (proj1 (proj2 H)) (proj1 (proj2 (proj2 H))))
            (effective_settings initial_globals
               [("global_settings",
                 YDict [("check_interval_seconds", YFloat (FFinite "2.7" 2));
                        ("public_ip_service_url", YStr "ftp://example.com")])]
               eq_refl _)).
  discriminate.
Defined.

(* ================================================================= *)
(** * Further properties of the save *)

Section SaveFacts.

Lemma ensure_key_has (k : string) (is_T : yaml -> bool) (fresh : yaml)
    (d : pydict) :
  is_T fresh = true ->
  exists v, dict_get k (ensure_key k is_T fresh d) = Some v /\ is_T v = true.
Proof.
  intros HT. unfold ensure_key, dict_has, get.
  destruct (dict_get k d) as [v|] eqn:E; cbn [negb orb].
  - destruct (is_T v) eqn:Hv; cbn [negb].
    + exists v. now split.
    + exists fresh. split; [apply dict_get_set_same|exact HT].
  - exists fresh. split; [apply dict_get_set_same|exact HT].
Qed.

(** The document that [cache_ip_in_yaml] hands to [yaml.dump]: the three
    settings under [global_settings], and a sequence under [domains]. *)
Lemma cache_ip_in_yaml_fields (ip : string) (g : globals) :
  exists gs L,
    dict_get "global_settings" (parsed_config_data (cache_ip_in_yaml ip g))
    = Some (YDict gs)
    /\ dict_get "last_known_ip" gs = Some (YStr ip)
    /\ dict_get "check_interval_seconds" gs
       = Some (YInt (CHECK_INTERVAL_SECONDS g))
    /\ dict_get "public_ip_service_url" gs
       = Some (YStr (PUBLIC_IP_SERVICE_URL g))
    /\ dict_get "domains" (parsed_config_data (cache_ip_in_yaml ip g))
       = Some (YList L).
Proof.
  unfold cache_ip_in_yaml. cbn [parsed_config_data].
  set (doc0 := if negb (truthy (YDict (parsed_config_data g)))
               then empty_structure else parsed_config_data g).
  set (doc1 := ensure_key "global_settings" is_dict (YDict []) doc0).
  set (gs := dict_set "public_ip_service_url" _ _).
  set (doc2 := dict_set "global_settings" (YDict gs) doc1).
  destruct (ensure_key_has "domains" is_list (YList []) doc2 eq_refl)
    as (v & Hv & Hlist).
  destruct v as [| | | | |L|]; try discriminate.
  exists gs, L. split; [|split; [|split; [|split]]].
  - rewrite ensure_key_other by discriminate. apply dict_get_set_same.
  - unfold gs. rewrite !dict_get_set_other by discriminate.
    apply dict_get_set_same.
  - unfold gs. rewrite dict_get_set_other by discriminate.
    apply dict_get_set_same.
  - apply dict_get_set_same.
  - exact Hv.
Qed.

End SaveFacts.

(** X9.  Whatever the document in memory is, the document that
    [cache_ip_in_yaml] writes has a mapping under [global_settings] that
    holds the given IP under [last_known_ip] and the effective interval and
    service URL under their keys, and it has a sequence under [domains];
    the API key, the interval and the URL in memory are not changed. *)
Theorem saved_document_holds_settings (ip : string) (g : globals) :
  (exists gs L,
      dict_get "global_settings" (parsed_config_data (cache_ip_in_yaml ip g))
      = Some (YDict gs)
      /\ dict_get "last_known_ip" gs = Some (YStr ip)
      /\ dict_get "check_interval_seconds" gs
         = Some (YInt (CHECK_INTERVAL_SECONDS g))
      /\ dict_get "public_ip_service_url" gs
         = Some (YStr (PUBLIC_IP_SERVICE_URL g))
      /\ dict_get "domains" (parsed_config_data (cache_ip_in_yaml ip g))
         = Some (YList L))
  /\ MIJNHOST_API_KEY (cache_ip_in_yaml ip g) = MIJNHOST_API_KEY g
  /\ CHECK_INTERVAL_SECONDS (cache_ip_in_yaml ip g) = CHECK_INTERVAL_SECONDS g
  /\ PUBLIC_IP_SERVICE_URL (cache_ip_in_yaml ip g) = PUBLIC_IP_SERVICE_URL g.
Proof. split; [apply cache_ip_in_yaml_fields|now repeat split]. Qed.

Lemma load_saved_document (ip : string) (g g' : globals) (env : load_env)
    (c : ascii) (key : string) :
  0 < CHECK_INTERVAL_SECONDS g ->
  has_scheme (PUBLIC_IP_SERVICE_URL g) = true ->
  env_api_key env = Some (String c key) ->
  config_file env = ReadOk (YDict (parsed_config_data (cache_ip_in_yaml ip g))) ->
  load_and_validate_config env g'
  = (mkGlobals (Some (String c key)) (CHECK_INTERVAL_SECONDS g)
       (PUBLIC_IP_SERVICE_URL g) (parsed_config_data (cache_ip_in_yaml ip g)),
     LoadOk (YStr ip)
       (validate_domains
          (items_of (get YNone "domains"
                       (parsed_config_data (cache_ip_in_yaml ip g)))))).
Proof.
  intros Hpos Hurl Hkey Hfile.
  destruct (cache_ip_in_yaml_fields ip g) as (gs & L & Hgs & Hip & Hci & Hu & Hdom).
  remember (parsed_config_data (cache_ip_in_yaml ip g)) as saved eqn:Es.
  clear Es.
  assert (Ht : negb (truthy (YDict saved)) = false)
    by (destruct saved; [discriminate|reflexivity]).
  assert (Gg : get YNone "global_settings" saved = YDict gs)
    by (unfold get; now rewrite Hgs).
  assert (Gd : get YNone "domains" saved = YList L)
    by (unfold get; now rewrite Hdom).
  assert (Gip : get YNone "last_known_ip" gs = YStr ip)
    by (unfold get; now rewrite Hip).
  assert (Gci : get YNone "check_interval_seconds" gs
                = YInt (CHECK_INTERVAL_SECONDS g))
    by (unfold get; now rewrite Hci).
  assert (Gu : get YNone "public_ip_service_url" gs
               = YStr (PUBLIC_IP_SERVICE_URL g))
    by (unfold get; now rewrite Hu).
  unfold load_and_validate_config. cbn [MIJNHOST_API_KEY].
  rewrite Hkey, Hfile. unfold validate_loaded. rewrite Ht.
  unfold validate_document.
  rewrite (ensure_key_kept "global_settings" is_dict (YDict []) (YDict gs) saved
             Hgs eq_refl).
  rewrite (ensure_key_kept "domains" is_list (YList []) (YList L) saved
             Hdom eq_refl).
  rewrite Gg. cbn [entries_of]. rewrite Gip, Gci, Gu, Gd.
  unfold check_interval_of. cbn [py_int].
  replace (CHECK_INTERVAL_SECONDS g <=? 0) with false
    by (symmetry; apply Z.leb_gt; lia).
  unfold service_url_of. cbn [py_str].
  fold (has_scheme (PUBLIC_IP_SERVICE_URL g)). rewrite Hurl.
  reflexivity.
Qed.

(** X10.  What the save writes, the loader reads back: when the settings in
    memory are valid (a positive interval, a URL with a scheme), loading
    the document written by [cache_ip_in_yaml] returns the saved IP as the
    cached IP, gives the same interval and service URL, returns the
    validation of the saved [domains] sequence, and leaves the document
    as it is. *)
Theorem save_then_load (ip : string) (g g' : globals) (env : load_env)
    (c : ascii) (key : string) :
  0 < CHECK_INTERVAL_SECONDS g ->
  has_scheme (PUBLIC_IP_SERVICE_URL g) = true ->
  env_api_key env = Some (String c key) ->
  config_file env = ReadOk (YDict (parsed_config_data (cache_ip_in_yaml ip g))) ->
  load_and_validate_config env g'
  = (mkGlobals (Some (String c key)) (CHECK_INTERVAL_SECONDS g)
       (PUBLIC_IP_SERVICE_URL g) (parsed_config_data (cache_ip_in_yaml ip g)),
     LoadOk (YStr ip)
       (validate_domains
          (items_of (get YNone "domains"
                       (parsed_config_data (cache_ip_in_yaml ip g)))))).
Proof.
  exact (load_saved_document ip g g' env c key).
Qed.

Lemma save_then_load_witness :
  load_and_validate_config
    (mkLoadEnv (Some "key")
       (ReadOk (YDict (parsed_config_data
                         (cache_ip_in_yaml "203.0.113.9"
                            (module_globals example_state)))))
       None)
    initial_globals
  = (mkGlobals (Some "key") 300 DEFAULT_PUBLIC_IP_SERVICE_URL
       (parsed_config_data
          (cache_ip_in_yaml "203.0.113.9" (module_globals example_state))),
     LoadOk (YStr "203.0.113.9") [mkDomain "example.com" [mkRecord "@" "A" 300]]).
Proof.
  apply (save_then_load "203.0.113.9" (module_globals example_state)
           initial_globals
           (mkLoadEnv (Some "key")
              (ReadOk (YDict (parsed_config_data
                                (cache_ip_in_yaml "203.0.113.9"
                                   (module_globals example_state)))))
              None)
           "k" "ey"); reflexivity.
Defined.

(** X11.  When no document was ever loaded (the document in memory is
    empty), [cache_ip_in_yaml] starts from the empty structure: it writes
    exactly the three settings and an empty [domains] sequence. *)
Theorem save_without_document (ip : string) (g : globals) :
  parsed_config_data g = [] ->
  parsed_config_data (cache_ip_in_yaml ip g)
  = [("global_settings",
      YDict [("last_known_ip", YStr ip);
             ("check_interval_seconds", YInt (CHECK_INTERVAL_SECONDS g));
             ("public_ip_service_url", YStr (PUBLIC_IP_SERVICE_URL g))]);
     ("domains", YList [])].
Proof.
  intros Hempty. unfold cache_ip_in_yaml. rewrite Hempty. reflexivity.
Qed.

Lemma save_without_document_witness :
  parsed_config_data (cache_ip_in_yaml "203.0.113.9" initial_globals)
  = [("global_settings",
      YDict [("last_known_ip", YStr "203.0.113.9");
             ("check_interval_seconds", YInt 300);
             ("public_ip_service_url", YStr DEFAULT_PUBLIC_IP_SERVICE_URL)]);
     ("domains", YList [])].
Proof.
  apply (save_without_document "203.0.113.9" initial_globals). reflexivity.
Defined.

Section RepeatedSave.

Lemma dict_set_twice (k : string) (v1 v2 : yaml) (d : pydict) :
  dict_set k v2 (dict_set k v1 d) = dict_set k v2 d.
Proof.
  induction d as [|[k0 v0] d IH]; simpl.
  - now rewrite String.eqb_refl.
  - destruct (k =? k0)%string eqn:E; simpl.
    + now rewrite String.eqb_refl.
    + now rewrite E, IH.
Qed.

Lemma dict_has_set (k : string) (v : yaml) (d : pydict) :
  dict_has k (dict_set k v d) = true.
Proof. unfold dict_has. now rewrite dict_get_set_same. Qed.

Lemma dict_has_set_other (k k' : string) (v : yaml) (d : pydict) :
  dict_has k d = true -> dict_has k (dict_set k' v d) = true.
Proof.
  intros H. destruct (String.eqb_spec k k') as [->|Hne].
  - apply dict_has_set.
  - unfold dict_has in *. now rewrite dict_get_set_other.
Qed.

(** Assignments to two keys commute when the key assigned last is
    already there. *)
Lemma dict_set_swap (k k' : string) (v v' : yaml) (d : pydict) :
  k <> k' -> dict_has k d = true ->
  dict_set k v (dict_set k' v' d) = dict_set k' v' (dict_set k v d).
Proof.
  intros Hne. pose proof Hne as Hne'.
  apply String.eqb_neq in Hne.
  assert (Hne2 : (k' =? k)%string = false)
    by (apply String.eqb_neq; congruence).
  induction d as [|[k0 v0] d IH]; [discriminate|].
  unfold dict_has. simpl.
  destruct (k =? k0)%string eqn:E.
  - apply String.eqb_eq in E. subst k0. intros _.
    rewrite Hne2. simpl. now rewrite String.eqb_refl, Hne2.
  - intros Hhas. destruct (k' =? k0)%string eqn:E'; simpl.
    + now rewrite Hne, E'.
    + rewrite E, E'. f_equal. apply IH. exact Hhas.
Qed.

Lemma ensure_key_set_swap (k k' : string) (is_T : yaml -> bool)
    (fresh v : yaml) (d : pydict) :
  k <> k' -> dict_has k' d = true ->
  dict_set k' v (ensure_key k is_T fresh d)
  = ensure_key k is_T fresh (dict_set k' v d).
Proof.
  intros Hne Hhas. unfold ensure_key, dict_has, get.
  rewrite (dict_get_set_other k' k v d Hne).
  destruct (_ || _); [|reflexivity].
  apply dict_set_swap; [congruence|exact Hhas].
Qed.

(** The three settings written twice are the settings written last. *)
Lemma settings_twice (ip1 ip2 : string) (interval : yaml) (url : yaml)
    (gs : pydict) :
  dict_set "public_ip_service_url" url
    (dict_set "check_interval_seconds" interval
       (dict_set "last_known_ip" (YStr ip2)
          (dict_set "public_ip_service_url" url
             (dict_set "check_interval_seconds" interval
                (dict_set "last_known_ip" (YStr ip1) gs)))))
  = dict_set "public_ip_service_url" url
      (dict_set "check_interval_seconds" interval
         (dict_set "last_known_ip" (YStr ip2) gs)).
Proof.
  rewrite (dict_set_swap "last_known_ip" "public_ip_service_url")
    by (try discriminate; apply dict_has_set_other, dict_has_set).
  rewrite (dict_set_swap "last_known_ip" "check_interval_seconds")
    by (try discriminate; apply dict_has_set).
  rewrite dict_set_twice.
  rewrite (dict_set_swap "check_interval_seconds" "public_ip_service_url")
    by (try discriminate; apply dict_has_set).
  now rewrite !dict_set_twice.
Qed.

End RepeatedSave.

(** X12.  Saving twice is saving once with the last IP: after
    [cache_ip_in_yaml(a)], [cache_ip_in_yaml(b)] leaves the globals and the
    document exactly as a single [cache_ip_in_yaml(b)] would, so repeated
    saves neither reorder nor accumulate entries; with [a = b] the save is
    idempotent. *)
Theorem last_save_wins (ip1 ip2 : string) (g : globals) :
  cache_ip_in_yaml ip2 (cache_ip_in_yaml ip1 g) = cache_ip_in_yaml ip2 g.
Proof.
  destruct (cache_ip_in_yaml_fields ip1 g) as (G1 & L & Hgs & _ & _ & _ & Hdom).
  unfold cache_ip_in_yaml at 1.
  remember (cache_ip_in_yaml ip1 g) as g1 eqn:Eg1.
  assert (Hne : negb (truthy (YDict (parsed_config_data g1))) = false)
    by (destruct (parsed_config_data g1); [discriminate|reflexivity]).
  rewrite Hne.
  rewrite (ensure_key_kept "global_settings" is_dict (YDict []) (YDict G1) _
             Hgs eq_refl).
  assert (Gg : get YNone "global_settings" (parsed_config_data g1) = YDict G1)
    by (unfold get; now rewrite Hgs).
  rewrite Gg. cbn [entries_of].
  assert (Hk : MIJNHOST_API_KEY g1 = MIJNHOST_API_KEY g) by now subst g1.
  assert (Hc : CHECK_INTERVAL_SECONDS g1 = CHECK_INTERVAL_SECONDS g)
    by now subst g1.
  assert (Hu : PUBLIC_IP_SERVICE_URL g1 = PUBLIC_IP_SERVICE_URL g)
    by now subst g1.
  rewrite Hk, Hc, Hu.
  unfold cache_ip_in_yaml. f_equal.
  set (doc0 := if negb (truthy (YDict (parsed_config_data g)))
               then empty_structure else parsed_config_data g).
  set (doc1 := ensure_key "global_settings" is_dict (YDict []) doc0).
  assert (Hdoc : parsed_config_data g1
                 = ensure_key "domains" is_list (YList [])
                     (dict_set "global_settings"
                        (YDict
                           (dict_set "public_ip_service_url"
                              (YStr (PUBLIC_IP_SERVICE_URL g))
                              (dict_set "check_interval_seconds"
                                 (YInt (CHECK_INTERVAL_SECONDS g))
                                 (dict_set "last_known_ip" (YStr ip1)
                                    (entries_of
                                       (get YNone "global_settings" doc1))))))
                        doc1))
    by now subst g1.
  assert (HG1 : G1
                = dict_set "public_ip_service_url"
                    (YStr (PUBLIC_IP_SERVICE_URL g))
                    (dict_set "check_interval_seconds"
                       (YInt (CHECK_INTERVAL_SECONDS g))
                       (dict_set "last_known_ip" (YStr ip1)
                          (entries_of (get YNone "global_settings" doc1))))).
  { rewrite Hdoc in Hgs. rewrite ensure_key_other in Hgs by discriminate.
    rewrite dict_get_set_same in Hgs. congruence. }
  rewrite Hdoc, HG1, settings_twice.
  rewrite ensure_key_set_swap by (try discriminate; apply dict_has_set).
  rewrite ensure_key_again by reflexivity.
  now rewrite dict_set_twice.
Qed.

(* ================================================================= *)
(** * Further properties of the DNS update *)

Section RequestFacts.

Lemma length_append (a b : string) :
  String.length (a ++ b) = (String.length a + String.length b)%nat.
Proof. induction a as [|c a IH]; simpl; [reflexivity|now rewrite IH]. Qed.

Lemma is_apex_iff (record_name : string) :
  is_apex record_name = true <-> record_name = "@" \/ record_name = "".
Proof.
  unfold is_apex. rewrite orb_true_iff, !String.eqb_eq. reflexivity.
Qed.

End RequestFacts.

(** X13.  [update_dns_record] targets the bare domain ([domainName.])
    exactly for the record names ["@"] and [""]; every other name is put
    in front of the domain, so the name sent is never the domain's own. *)
Theorem bare_domain_only_for_apex (domain record_name : string) :
  fqdn_record_name domain record_name = (domain ++ ".")%string
  <-> (record_name = "@" \/ record_name = "").
Proof.
  rewrite <- is_apex_iff. unfold fqdn_record_name.
  destruct (is_apex record_name); split; intros H; try reflexivity;
    try discriminate.
  apply (f_equal String.length) in H.
  rewrite !length_append in H. simpl in H. lia.
Qed.

Section CycleRequests.

Lemma in_cycle_requests (api_key : option string) (ip : string)
    (ds : list DomainConfig) (request : dns_request) :
  In request (cycle_requests api_key ip ds)
  <-> exists d r,
        In d ds /\ In r (records d)
        /\ request = update_request api_key ip (domain_name d) (rec_name r)
                       (rec_type r) (rec_ttl r).
Proof.
  unfold cycle_requests. rewrite in_flat_map. split.
  - intros (d & Hd & Hin). apply in_map_iff in Hin.
    destruct Hin as (r & <- & Hr). now exists d, r.
  - intros (d & r & Hd & Hr & ->). exists d. split; [exact Hd|].
    apply in_map_iff. now exists r.
Qed.

Lemma in_exchanges (api : dns_api) (sent : nat) (requests : list dns_request)
    (request : dns_request) (ok : bool) :
  In (request, ok) (exchanges api sent requests) -> In request requests.
Proof.
  intros H. rewrite <- (exchanges_requests api sent requests).
  apply in_map_iff. now exists (request, ok).
Qed.

End CycleRequests.

(** X14.  With a configuration as the loader returns it, every request that
    a cycle sends is well formed: its value is the IP just resolved, it
    carries the API key, its type is ["A"] or ["AAAA"], its TTL is
    positive, and it goes to the endpoint of a configured domain with a
    name that is that domain's own or ends in it. *)
Theorem cycle_requests_are_well_formed (env : iteration_env) (st : loop_state)
    (ds : list DomainConfig) (request : dns_request) (ok : bool) :
  domain_configurations st = Some ds ->
  forallb normal_domain ds = true ->
  In (request, ok) (patches (fst (reconcile env st))) ->
  get_public_ip (ip_response env) = Some (payload_value request)
  /\ header_api_key request = MIJNHOST_API_KEY (module_globals st)
  /\ (payload_type request = "A" \/ payload_type request = "AAAA")
  /\ 0 < payload_ttl request
  /\ exists d,
       In d ds
       /\ api_url request
          = ("https://mijn.host/api/v2/domains/" ++ domain_name d ++ "/dns")%string
       /\ (payload_name request = (domain_name d ++ ".")%string
           \/ exists name,
                name <> ""
                /\ payload_name request
                   = (name ++ "." ++ domain_name d ++ ".")%string).
Proof.
  intros Hdom Hnormal Hin. rewrite reconcile_patches, Hdom in Hin.
  destruct (get_public_ip (ip_response env)) as [ip|]; [|contradiction].
  destruct ds as [|d0 ds0]; [contradiction|].
  destruct (ip_differs ip (cached_ip_from_config st)); [|contradiction].
  apply in_exchanges, in_cycle_requests in Hin.
  destruct Hin as (d & r & Hd & Hr & ->).
  rewrite forallb_forall in Hnormal.
  destruct (normal_domain_true d (Hnormal d Hd)) as (_ & _ & _ & Hrs).
  rewrite forallb_forall in Hrs.
  destruct (normal_record_true r (Hrs r Hr)) as (_ & Hname & Htype & Httl).
  unfold update_request. cbn [payload_value header_api_key payload_type
    payload_ttl api_url payload_name].
  split; [reflexivity|split; [reflexivity|split; [exact Htype|split;
    [exact Httl|]]]].
  exists d. split; [exact Hd|split; [reflexivity|]].
  unfold fqdn_record_name. destruct (is_apex (rec_name r)); [now left|].
  right. now exists (rec_name r).
Qed.

Lemma cycle_requests_are_well_formed_witness :
  0 < payload_ttl
        (update_request (Some "key") "203.0.113.9" "example.com" "@" "A" 300).
Proof.
  refine (proj1 (proj2 (proj2 (proj2
    (cycle_requests_are_well_formed (example_env "203.0.113.9" true)
       example_state [mkDomain "example.com" [mkRecord "@" "A" 300]]
       (update_request (Some "key") "203.0.113.9" "example.com" "@" "A" 300)
       true eq_refl eq_refl (or_introl eq_refl)))))).
Defined.

(* ================================================================= *)
(** * Further properties of the reconciliation cycle *)

(** X15.  When the public IP cannot be determined (the request fails or
    the answer holds no or an empty [ip]), the cycle logs it and goes to
    the sleep step: no record is updated, nothing is saved, and the state
    is unchanged, so the next cycle tries again. *)
Theorem no_public_ip_skips_cycle (env : iteration_env) (st : loop_state) :
  ip_response env = None \/ ip_response env = Some "" ->
  let interval := CHECK_INTERVAL_SECONDS (module_globals st) in
  reconcile env st
  = ([EvGetPublicIp (PUBLIC_IP_SERVICE_URL (module_globals st));
      EvLog LogNoPublicIp; EvLog (LogWaiting interval); EvSleep interval],
     st).
Proof.
  intros H. cbv zeta.
  assert (Hnone : get_public_ip (ip_response env) = None)
    by (destruct H as [-> | ->]; reflexivity).
  unfold reconcile. now rewrite Hnone.
Qed.

Lemma no_public_ip_skips_cycle_witness :
  reconcile (mkEnv (Some 5) (reload_env example_unparsable_env) (Some "")
               (fun _ _ => true))
    example_state
  = ([EvGetPublicIp DEFAULT_PUBLIC_IP_SERVICE_URL; EvLog LogNoPublicIp;
      EvLog (LogWaiting 300); EvSleep 300],
     example_state).
Proof.
  apply (no_public_ip_skips_cycle
           (mkEnv (Some 5) (reload_env example_unparsable_env) (Some "")
              (fun _ _ => true))
           example_state).
  right. reflexivity.
Defined.

Lemma reconcile_without_domains (env : iteration_env) (st : loop_state)
    (ip : string) :
  get_public_ip (ip_response env) = Some ip ->
  ip_differs ip (cached_ip_from_config st) = true ->
  domain_configurations st = None \/ domain_configurations st = Some [] ->
  let interval := CHECK_INTERVAL_SECONDS (module_globals st) in
  let g := cache_ip_in_yaml ip (module_globals st) in
  reconcile env st
  = ([EvGetPublicIp (PUBLIC_IP_SERVICE_URL (module_globals st));
      EvLog LogIpDiffers; EvLog LogNoDomainsCachingIp;
      EvCacheIp (parsed_config_data g);
      EvLog (LogWaiting interval); EvSleep interval],
     mkState g (YStr ip) (domain_configurations st)
       (dns_config_last_modified_time st)).
Proof.
  intros Hip Hdiff Hdom. cbv zeta. unfold reconcile, cache_and_remember.
  rewrite Hip, Hdiff. now destruct Hdom as [-> | ->].
Qed.

(** X16.  When the resolved IP differs from the cached one and no domains
    are configured (an empty list, or [None] after a failed load), the
    cycle sends no update, calls [cache_ip_in_yaml] once with the new IP
    and takes that IP as the cached one. *)
Theorem no_domains_caches_ip (env : iteration_env) (st : loop_state)
    (ip : string) :
  get_public_ip (ip_response env) = Some ip ->
  ip_differs ip (cached_ip_from_config st) = true ->
  domain_configurations st = None \/ domain_configurations st = Some [] ->
  let interval := CHECK_INTERVAL_SECONDS (module_globals st) in
  let g := cache_ip_in_yaml ip (module_globals st) in
  reconcile env st
  = ([EvGetPublicIp (PUBLIC_IP_SERVICE_URL (module_globals st));
      EvLog LogIpDiffers; EvLog LogNoDomainsCachingIp;
      EvCacheIp (parsed_config_data g);
      EvLog (LogWaiting interval); EvSleep interval],
     mkState g (YStr ip) (domain_configurations st)
       (dns_config_last_modified_time st)).
Proof. exact (reconcile_without_domains env st ip). Qed.

Lemma no_domains_caches_ip_witness :
  cached_ip_from_config
    (snd (reconcile (example_env "203.0.113.9" true)
            (mkState (module_globals example_state) YNone None 6)))
  = YStr "203.0.113.9".
Proof.
  exact (f_equal (fun x => cached_ip_from_config (snd x))
           (no_domains_caches_ip (example_env "203.0.113.9" true)
              (mkState (module_globals example_state) YNone None 6)
              "203.0.113.9" eq_refl eq_refl (or_introl eq_refl))).
Defined.

Section CycleOutcomes.

Variables (env : iteration_env) (st : loop_state).

(** The two ways a cycle ends: the state as it was and nothing saved, or
    one save of the resolved IP, which becomes the cached IP. *)
Lemma reconcile_outcome :
  (snd (reconcile env st) = st /\ saves (fst (reconcile env st)) = [])
  \/ exists ip,
       get_public_ip (ip_response env) = Some ip
       /\ ip_differs ip (cached_ip_from_config st) = true
       /\ snd (reconcile env st)
          = mkState (cache_ip_in_yaml ip (module_globals st)) (YStr ip)
              (domain_configurations st) (dns_config_last_modified_time st)
       /\ saves (fst (reconcile env st))
          = [parsed_config_data (cache_ip_in_yaml ip (module_globals st))].
Proof.
  destruct (get_public_ip (ip_response env)) as [ip|] eqn:Hip;
    [|left; unfold reconcile; now rewrite Hip].
  destruct (ip_differs ip (cached_ip_from_config st)) eqn:Hdiff;
    [|left; unfold reconcile; now rewrite Hip, Hdiff].
  destruct (domain_configurations st) as [[|d ds]|] eqn:Hdom.
  - right. exists ip.
    rewrite (reconcile_without_domains env st ip Hip Hdiff (or_intror Hdom)).
    rewrite Hdom. now repeat split.
  - rewrite (reconcile_updating env st ip d ds Hip Hdiff Hdom).
    destruct (update_domains_spec (provider env)
                (MIJNHOST_API_KEY (module_globals st)) ip (d :: ds))
      as (_ & _ & Hs & _).
    destruct (all_updates_successful_for_new_ip _).
    + right. exists ip. cbn [fst snd saves app].
      rewrite !saves_app, Hs, Hdom. now repeat split.
    + left. cbn [fst snd saves app]. rewrite !saves_app, Hs. now split.
  - right. exists ip.
    rewrite (reconcile_without_domains env st ip Hip Hdiff (or_introl Hdom)).
    rewrite Hdom. now repeat split.
Qed.

End CycleOutcomes.

(** X17.  A cycle saves at most once, and only the IP it resolved; after a
    cycle that saved, that IP is the cached one, and a following cycle
    that resolves the same IP sends no update and saves nothing. *)
Theorem saved_ip_is_not_updated_again (env : iteration_env) (st : loop_state) :
  saves (fst (reconcile env st)) <> [] ->
  exists ip,
    get_public_ip (ip_response env) = Some ip
    /\ saves (fst (reconcile env st))
       = [parsed_config_data (cache_ip_in_yaml ip (module_globals st))]
    /\ cached_ip_from_config (snd (reconcile env st)) = YStr ip
    /\ forall env',
         get_public_ip (ip_response env') = Some ip ->
         patches (fst (reconcile env' (snd (reconcile env st)))) = []
         /\ saves (fst (reconcile env' (snd (reconcile env st)))) = []
         /\ snd (reconcile env' (snd (reconcile env st)))
            = snd (reconcile env st).
Proof.
  intros Hsaved.
  destruct (reconcile_outcome env st) as [(_ & Hnone)|(ip & Hip & _ & Hst & Hs)];
    [congruence|].
  exists ip. split; [exact Hip|split; [exact Hs|]].
  assert (Hc : cached_ip_from_config (snd (reconcile env st)) = YStr ip)
    by now rewrite Hst.
  split; [exact Hc|].
  intros env' Hip'.
  now rewrite (reconcile_unchanged env' _ ip Hip' Hc).
Qed.

Lemma saved_ip_is_not_updated_again_witness :
  exists ip,
    get_public_ip (ip_response (example_env "203.0.113.9" true)) = Some ip
    /\ saves (fst (reconcile (example_env "203.0.113.9" true) example_state))
       = [parsed_config_data
            (cache_ip_in_yaml ip (module_globals example_state))]
    /\ cached_ip_from_config
         (snd (reconcile (example_env "203.0.113.9" true) example_state))
       = YStr ip
    /\ forall env',
         get_public_ip (ip_response env') = Some ip ->
         patches (fst (reconcile env'
                         (snd (reconcile (example_env "203.0.113.9" true)
                                 example_state)))) = []
         /\ saves (fst (reconcile env'
                          (snd (reconcile (example_env "203.0.113.9" true)
                                  example_state)))) = []
         /\ snd (reconcile env'
                   (snd (reconcile (example_env "203.0.113.9" true)
                           example_state)))
            = snd (reconcile (example_env "203.0.113.9" true) example_state).
Proof.
  apply (saved_ip_is_not_updated_again (example_env "203.0.113.9" true)
           example_state).
  discriminate.
Defined.

(** X18.  A cycle never changes the configured domains, the recorded
    modification time, the API key, the check interval or the service
    URL; the cached IP either stays or becomes the IP just resolved. *)
Theorem cycle_keeps_configuration (env : iteration_env) (st : loop_state) :
  let st' := snd (reconcile env st) in
  domain_configurations st' = domain_configurations st
  /\ dns_config_last_modified_time st' = dns_config_last_modified_time st
  /\ MIJNHOST_API_KEY (module_globals st') = MIJNHOST_API_KEY (module_globals st)
  /\ CHECK_INTERVAL_SECONDS (module_globals st')
     = CHECK_INTERVAL_SECONDS (module_globals st)
  /\ PUBLIC_IP_SERVICE_URL (module_globals st')
     = PUBLIC_IP_SERVICE_URL (module_globals st)
  /\ (cached_ip_from_config st' = cached_ip_from_config st
      \/ exists ip,
           get_public_ip (ip_response env) = Some ip
           /\ cached_ip_from_config st' = YStr ip).
Proof.
  cbv zeta.
  destruct (reconcile_outcome env st) as [(Hst & _)|(ip & Hip & _ & Hst & _)];
    rewrite Hst.
  - repeat split. now left.
  - repeat split. right. now exists ip.
Qed.

(* ================================================================= *)
(** * Further properties of the main loop *)

Section SleepFacts.

Lemma sleeps_app (a b : list event) : sleeps (a ++ b) = (sleeps a ++ sleeps b)%list.
Proof.
  induction a as [|e a IH]; [reflexivity|].
  destruct e; simpl; now rewrite IH.
Qed.

Lemma sleeps_patch_events (xs : list (dns_request * bool)) :
  sleeps (map patch_event xs) = [].
Proof. induction xs as [|x xs IH]; [reflexivity|exact IH]. Qed.

Lemma update_domains_sleeps (api : dns_api) (api_key : option string)
    (ip : string) (ds : list DomainConfig) (pass : update_pass) :
  sleeps (pass_events (fold_left (update_domain api api_key ip) ds pass))
  = sleeps (pass_events pass).
Proof.
  revert pass. induction ds as [|d ds IH]; intros pass; [reflexivity|].
  cbn [fold_left]. rewrite IH. unfold update_domain.
  rewrite update_records_spec. cbn [pass_events].
  rewrite !sleeps_app, sleeps_patch_events. cbn. now rewrite !app_nil_r.
Qed.

(** A cycle sleeps once, for the check interval. *)
Lemma reconcile_sleeps (env : iteration_env) (st : loop_state) :
  sleeps (fst (reconcile env st)) = [CHECK_INTERVAL_SECONDS (module_globals st)].
Proof.
  destruct (get_public_ip (ip_response env)) as [ip|] eqn:Hip;
    [|unfold reconcile; now rewrite Hip].
  destruct (ip_differs ip (cached_ip_from_config st)) eqn:Hdiff;
    [|unfold reconcile; now rewrite Hip, Hdiff].
  destruct (domain_configurations st) as [[|d ds]|] eqn:Hdom.
  - now rewrite (reconcile_without_domains env st ip Hip Hdiff (or_intror Hdom)).
  - rewrite (reconcile_updating env st ip d ds Hip Hdiff Hdom).
    pose proof (update_domains_sleeps (provider env)
                  (MIJNHOST_API_KEY (module_globals st)) ip (d :: ds)
                  (mkPass true 0 [])) as Hs.
    fold (update_domains (provider env) (MIJNHOST_API_KEY (module_globals st))
            ip (d :: ds)) in Hs.
    destruct (all_updates_successful_for_new_ip _);
      cbn [fst sleeps app]; rewrite !sleeps_app, Hs; reflexivity.
  - now rewrite (reconcile_without_domains env st ip Hip Hdiff (or_introl Hdom)).
Qed.


Lemma reconcile_mtime (env : iteration_env) (st : loop_state) :
  dns_config_last_modified_time (snd (reconcile env st))
  = dns_config_last_modified_time st.
Proof.
  destruct (reconcile_outcome env st) as [(Hst & _)|(ip & _ & _ & Hst & _)];
    now rewrite Hst.
Qed.

End SleepFacts.

Section IterationShapes.

Variables (env : iteration_env) (st : loop_state).

(** The file cannot be looked at: no reload, the cycle runs with the
    modification time reset to 0. *)
Lemma iteration_missing_file :
  getmtime env = None ->
  let st0 := mkState (module_globals st) (cached_ip_from_config st)
               (domain_configurations st) 0 in
  iteration env st
  = ((if negb (dns_config_last_modified_time st =? 0)
      then [EvLog LogConfigInaccessible] else [])
     ++ fst (reconcile env st0),
     Continues (snd (reconcile env st0)))%list.
Proof.
  intros Hm. cbv zeta. unfold iteration. rewrite Hm.
  cbn [app]. now destruct (reconcile env _).
Qed.

(** The file changed and the load succeeded: the cycle of the same
    iteration runs on what was loaded. *)
Lemma iteration_reloaded (m : Z) (g1 : globals) (ip : yaml)
    (ds : list DomainConfig) :
  getmtime env = Some m ->
  m <> dns_config_last_modified_time st ->
  load_and_validate_config (reload_env env) (module_globals st)
  = (g1, LoadOk ip ds) ->
  let st1 := mkState g1 ip (Some ds) m in
  iteration env st
  = (EvLog LogChangeDetected :: EvLoadConfig :: EvLog LogConfigReloaded
       :: match ds with
          | [] => [EvLog LogNoDomainsAfterReload]
          | _ => []
          end
       ++ fst (reconcile env st1),
     Continues (snd (reconcile env st1)))%list.
Proof.
  intros Hm Hne Hload. cbv zeta.
  assert (Hkey : exists k, MIJNHOST_API_KEY g1 = Some k).
  { destruct (load_ok_pipeline _ _ _ _ _ Hload) as (g0 & doc & Hk & Hv).
    apply validate_document_ok in Hv. destruct Hv as (_ & _ & Hkey & _).
    rewrite Hkey, Hk. revert Hload. unfold load_and_validate_config.
    cbn [MIJNHOST_API_KEY].
    destruct (env_api_key (reload_env env)) as [k|]; [eauto|discriminate]. }
  destruct Hkey as (k & Hkey).
  unfold iteration. rewrite Hm. apply Z.eqb_neq in Hne. rewrite Hne.
  cbn [negb module_globals]. rewrite Hload. cbn [returned]. rewrite Hkey.
  cbn [app]. destruct (reconcile env _). now destruct ds.
Qed.

(** The file changed and the load returned [None, None]. *)
Lemma iteration_fatal_reload (m : Z) (g1 : globals) :
  getmtime env = Some m ->
  m <> dns_config_last_modified_time st ->
  load_and_validate_config (reload_env env) (module_globals st)
  = (g1, LoadFatal) ->
  iteration env st
  = ([EvLog LogChangeDetected; EvLoadConfig;
      EvLog (match MIJNHOST_API_KEY g1 with
             | None => LogCriticalApiKeyUnset
             | Some _ => LogCriticalReloadFailed
             end);
      EvSleep (match MIJNHOST_API_KEY g1 with
               | None => DEFAULT_CHECK_INTERVAL_SECONDS
               | Some _ =>
                   if CHECK_INTERVAL_SECONDS g1 >? 0
                   then CHECK_INTERVAL_SECONDS g1
                   else DEFAULT_CHECK_INTERVAL_SECONDS
               end)],
     Continues (mkState g1 YNone None m)).
Proof.
  intros Hm Hne Hload. unfold iteration.
  rewrite Hm. apply Z.eqb_neq in Hne. rewrite Hne.
  cbn [negb module_globals]. rewrite Hload. cbn [returned app].
  now destruct (MIJNHOST_API_KEY g1).
Qed.

(** The file changed and the loader raised. *)
Lemma iteration_raising_reload (m : Z) (g1 : globals) (e : pyexc) :
  getmtime env = Some m ->
  m <> dns_config_last_modified_time st ->
  load_and_validate_config (reload_env env) (module_globals st)
  = (g1, LoadRaise e) ->
  iteration env st = ([EvLog LogChangeDetected; EvLoadConfig], Dies e).
Proof.
  intros Hm Hne Hload. unfold iteration.
  rewrite Hm. apply Z.eqb_neq in Hne. rewrite Hne.
  cbn [negb module_globals]. now rewrite Hload.
Qed.

End IterationShapes.

(** ** Rounds: the iteration and its [time.sleep] *)

Section Rounds.

Variables (env : iteration_env) (st : loop_state).





Lemma round_events : fst (round env st) = fst (iteration env st).
Proof.
  unfold round. now destruct (iteration env st) as [events [st'|code|e]].
Qed.

Lemma round_continues (st' : loop_state) :
  snd (round env st) = Continues st' -> snd (iteration env st) = Continues st'.
Proof.
  unfold round. destruct (iteration env st) as [events [st1|code|e]];
    cbn [snd]; try discriminate.
  destruct (slept events) as [seconds|]; [|trivial].
  now destruct (sleep_error seconds).
Qed.



End Rounds.

(** C6, the code at the failing input.  The configuration file is there
    and does not parse as YAML when the program starts, with the API key
    set.  [load_and_validate_config] returns the sentinel, both
    components [None].  The caller at line 288 tests the API key only and
    enters the loop with no document in memory; the first round, the file
    being as it was, looks up the IP, finds no cached IP and no domains,
    and calls [cache_ip_in_yaml], which starts from the empty structure
    and writes it, with the IP, over the file. *)
Theorem unparsable_startup_runs_cycle (lenv : load_env) (env : iteration_env)
    (mtime : Z) (c : ascii) (key ip : string) :
  env_api_key lenv = Some (String c key) ->
  config_file lenv = ReadYamlError ->
  getmtime env = Some mtime ->
  get_public_ip (ip_response env) = Some ip ->
  let g0 :=
    mkGlobals (Some (String c key)) DEFAULT_CHECK_INTERVAL_SECONDS
      DEFAULT_PUBLIC_IP_SERVICE_URL [] in
  let written :=
    [("global_settings",
      YDict [("last_known_ip", YStr ip);
             ("check_interval_seconds", YInt DEFAULT_CHECK_INTERVAL_SECONDS);
             ("public_ip_service_url", YStr DEFAULT_PUBLIC_IP_SERVICE_URL)]);
     ("domains", YList [])] in
  load_and_validate_config lenv initial_globals = (g0, LoadFatal)
  /\ returned LoadFatal = (YNone, None)
  /\ startup lenv (Some mtime)
     = ([EvLog LogStarted; EvLoadConfig; EvLog LogInitialSettings;
         EvLog (LogInitialIp false); EvLog LogNoDomainsInitially],
        Continues (mkState g0 YNone None mtime))
  /\ round env (mkState g0 YNone None mtime)
     = ([EvGetPublicIp DEFAULT_PUBLIC_IP_SERVICE_URL; EvLog LogIpDiffers;
         EvLog LogNoDomainsCachingIp; EvCacheIp written;
         EvLog (LogWaiting DEFAULT_CHECK_INTERVAL_SECONDS);
         EvSleep DEFAULT_CHECK_INTERVAL_SECONDS],
        Continues
          (mkState
             (mkGlobals (Some (String c key)) DEFAULT_CHECK_INTERVAL_SECONDS
                DEFAULT_PUBLIC_IP_SERVICE_URL written)
             (YStr ip) None mtime))
  /\ ~ no_cycle (fst (round env (mkState g0 YNone None mtime))).
Proof.
  intros Hkey Hfile Hm Hip. cbv zeta.
  assert (Hload : load_and_validate_config lenv initial_globals
                  = (mkGlobals (Some (String c key)) DEFAULT_CHECK_INTERVAL_SECONDS
                       DEFAULT_PUBLIC_IP_SERVICE_URL [],
                     LoadFatal))
    by (rewrite (load_yaml_error lenv initial_globals Hfile); now rewrite Hkey).
  assert (Hround :
            round env
              (mkState
                 (mkGlobals (Some (String c key)) DEFAULT_CHECK_INTERVAL_SECONDS
                    DEFAULT_PUBLIC_IP_SERVICE_URL [])
                 YNone None mtime)
            = ([EvGetPublicIp DEFAULT_PUBLIC_IP_SERVICE_URL; EvLog LogIpDiffers;
                EvLog LogNoDomainsCachingIp;
                EvCacheIp
                  [("global_settings",
                    YDict [("last_known_ip", YStr ip);
                           ("check_interval_seconds",
                            YInt DEFAULT_CHECK_INTERVAL_SECONDS);
                           ("public_ip_service_url",
                            YStr DEFAULT_PUBLIC_IP_SERVICE_URL)]);
                   ("domains", YList [])];
                EvLog (LogWaiting DEFAULT_CHECK_INTERVAL_SECONDS);
                EvSleep DEFAULT_CHECK_INTERVAL_SECONDS],
               Continues
                 (mkState
                    (mkGlobals (Some (String c key)) DEFAULT_CHECK_INTERVAL_SECONDS
                       DEFAULT_PUBLIC_IP_SERVICE_URL
                       [("global_settings",
                         YDict [("last_known_ip", YStr ip);
                                ("check_interval_seconds",
                                 YInt DEFAULT_CHECK_INTERVAL_SECONDS);
                                ("public_ip_service_url",
                                 YStr DEFAULT_PUBLIC_IP_SERVICE_URL)]);
                        ("domains", YList [])])
                    (YStr ip) None mtime))).
  { set (st0 := mkState
                  (mkGlobals (Some (String c key)) DEFAULT_CHECK_INTERVAL_SECONDS
                     DEFAULT_PUBLIC_IP_SERVICE_URL [])
                  YNone None mtime).
    unfold round.
    rewrite (iteration_unchanged_file env st0 Hm).
    rewrite (reconcile_without_domains env st0 ip Hip eq_refl
               (or_introl eq_refl)).
    reflexivity. }
  split; [exact Hload|]. split; [reflexivity|].
  split; [unfold startup; now rewrite Hload|].
  split; [exact Hround|].
  rewrite Hround. cbn [fst]. intros (Hresolve & _). discriminate Hresolve.
Qed.

Lemma unparsable_startup_runs_cycle_witness :
  saves
    (fst (round example_unparsable_env
            (mkState (mkGlobals (Some "key") 300 DEFAULT_PUBLIC_IP_SERVICE_URL [])
               YNone None 6)))
  = [[("global_settings",
       YDict [("last_known_ip", YStr "203.0.113.9");
              ("check_interval_seconds", YInt 300);
              ("public_ip_service_url", YStr DEFAULT_PUBLIC_IP_SERVICE_URL)]);
      ("domains", YList [])]].
Proof.
  exact (f_equal (fun x => saves (fst x))
           (proj1 (proj2 (proj2 (proj2
              (unparsable_startup_runs_cycle
                 (mkLoadEnv (Some "key") ReadYamlError None)
                 example_unparsable_env 6 "k" "ey" "203.0.113.9"
                 eq_refl eq_refl eq_refl eq_refl)))))).
Defined.

Lemma iteration_changed_file_loads (env : iteration_env) (st : loop_state)
    (m : Z) :
  getmtime env = Some m ->
  m <> dns_config_last_modified_time st ->
  existsb is_load (fst (iteration env st)) = true.
Proof.
  intros Hm Hne.
  destruct (load_and_validate_config (reload_env env) (module_globals st))
    as [g1 [ip ds| |e]] eqn:Hload.
  - now rewrite (iteration_reloaded env st m g1 ip ds Hm Hne Hload).
  - now rewrite (iteration_fatal_reload env st m g1 Hm Hne Hload).
  - now rewrite (iteration_raising_reload env st m g1 e Hm Hne Hload).
Qed.

(** X19.  An iteration calls [load_and_validate_config] exactly when the
    modification time of the configuration file can be read and differs
    from the recorded one; an unreadable or unchanged file never causes a
    load. *)
Theorem load_is_called_on_change (env : iteration_env) (st : loop_state) :
  existsb is_load (fst (iteration env st))
  = match getmtime env with
    | Some mtime => negb (mtime =? dns_config_last_modified_time st)
    | None => false
    end.
Proof.
  destruct (getmtime env) as [m|] eqn:Hm.
  - destruct (Z.eqb_spec m (dns_config_last_modified_time st)) as [->|Hne].
    + now apply iteration_unchanged_file_loads.
    + now apply (iteration_changed_file_loads env st m).
  - rewrite (iteration_missing_file env st Hm). cbn [fst].
    rewrite existsb_app, reconcile_loads.
    now destruct (negb _).
Qed.

(** X20.  When the modification time of the file cannot be read, the
    iteration reloads nothing, warns only if the file was there before,
    runs the cycle on the configuration it has and records the time 0; so
    the next time the file is there with a time other than 0, it is
    loaded. *)
Theorem missing_file_is_reloaded_when_back (env : iteration_env)
    (st : loop_state) :
  getmtime env = None ->
  let st0 := mkState (module_globals st) (cached_ip_from_config st)
               (domain_configurations st) 0 in
  iteration env st
  = ((if negb (dns_config_last_modified_time st =? 0)
      then [EvLog LogConfigInaccessible] else [])
     ++ fst (reconcile env st0),
     Continues (snd (reconcile env st0)))%list
  /\ dns_config_last_modified_time (snd (reconcile env st0)) = 0
  /\ forall env' mtime,
       getmtime env' = Some mtime -> mtime <> 0 ->
       existsb is_load (fst (iteration env' (snd (reconcile env st0)))) = true.
Proof.
  intros Hm. cbv zeta.
  split; [exact (iteration_missing_file env st Hm)|].
  split; [now rewrite reconcile_mtime|].
  intros env' m Hm' Hne.
  apply (iteration_changed_file_loads env' _ m Hm').
  now rewrite reconcile_mtime.
Qed.

Lemma missing_file_is_reloaded_when_back_witness :
  dns_config_last_modified_time
    (snd (reconcile
            (mkEnv None (reload_env example_unparsable_env) None
               (fun _ _ => true))
            (mkState (module_globals example_state)
               (cached_ip_from_config example_state)
               (domain_configurations example_state) 0)))
  = 0.
Proof.
  exact (proj1 (proj2
    (missing_file_is_reloaded_when_back
       (mkEnv None (reload_env example_unparsable_env) None (fun _ _ => true))
       example_state eq_refl))).
Defined.



(** X22.  When the file has changed and the API key is no longer in the
    environment, the iteration does not read the file's settings: it logs
    the critical line, sleeps the default 300 seconds and does no cycle;
    the new modification time is recorded and the cached IP and the
    domains in memory become [None]. *)
Theorem reload_without_api_key (env : iteration_env) (st : loop_state) (m : Z) :
  getmtime env = Some m ->
  m <> dns_config_last_modified_time st ->
  env_api_key (reload_env env) = None ->
  iteration env st
  = ([EvLog LogChangeDetected; EvLoadConfig; EvLog LogCriticalApiKeyUnset;
      EvSleep DEFAULT_CHECK_INTERVAL_SECONDS],
     Continues
       (mkState
          (mkGlobals None (CHECK_INTERVAL_SECONDS (module_globals st))
             (PUBLIC_IP_SERVICE_URL (module_globals st))
             (parsed_config_data (module_globals st)))
          YNone None m)).
Proof.
  intros Hm Hne Hkey.
  assert (Hload : load_and_validate_config (reload_env env) (module_globals st)
                  = (mkGlobals None (CHECK_INTERVAL_SECONDS (module_globals st))
                       (PUBLIC_IP_SERVICE_URL (module_globals st))
                       (parsed_config_data (module_globals st)),
                     LoadFatal)).
  { unfold load_and_validate_config. cbn [MIJNHOST_API_KEY]. now rewrite Hkey. }
  now rewrite (iteration_fatal_reload env st m _ Hm Hne Hload).
Qed.

Lemma reload_without_api_key_witness :
  sleeps (fst (iteration
                 (mkEnv (Some 6)
                    (mkLoadEnv None (ReadOk (YDict example_raw_document)) None)
                    (Some "203.0.113.9") (fun _ _ => true))
                 example_state))
  = [300].
Proof.
  refine (f_equal (fun x => sleeps (fst x))
            (reload_without_api_key
               (mkEnv (Some 6)
                  (mkLoadEnv None (ReadOk (YDict example_raw_document)) None)
                  (Some "203.0.113.9") (fun _ _ => true))
               example_state 6 eq_refl _ eq_refl)).
  discriminate.
Defined.



(** X24.  The statements before the loop exit with code 1 exactly when
    [MIJNHOST_API_KEY] is absent from the environment, before looking at
    the file; they exit with no other code, and an empty key does not make
    them exit. *)
Theorem startup_exits_without_api_key (env : load_env) (mtime : option Z) :
  (env_api_key env = None ->
   startup env mtime
   = ([EvLog LogStarted; EvLoadConfig; EvLog LogCriticalNoApiKeyAtStartup],
      Exits 1))
  /\ forall code,
       snd (startup env mtime) = Exits code ->
       code = 1 /\ env_api_key env = None.
Proof.
  split.
  - intros Hkey. unfold startup, load_and_validate_config.
    cbn [MIJNHOST_API_KEY]. now rewrite Hkey.
  - intros code. unfold startup.
    destruct (load_and_validate_config env initial_globals)
      as [g1 [ip ds| |e]] eqn:Hload; cbn [returned].
    + destruct (load_ok_pipeline _ _ _ _ _ Hload) as (g0 & doc & Hk & Hv).
      apply validate_document_ok in Hv. destruct Hv as (_ & _ & Hkey & _).
      destruct (MIJNHOST_API_KEY g1) eqn:E.
      * destruct mtime; cbn [snd]; discriminate.
      * cbn [snd]. intros [= <-]. split; [reflexivity|congruence].
    + destruct (load_fatal_keeps _ _ _ Hload) as (_ & _ & _ & Hkey).
      destruct (MIJNHOST_API_KEY g1) eqn:E.
      * destruct mtime; cbn [snd]; discriminate.
      * cbn [snd]. intros [= <-]. split; [reflexivity|congruence].
    + cbn [snd]. discriminate.
Qed.

Lemma startup_exits_without_api_key_witness :
  startup (mkLoadEnv None (ReadOk (YDict example_raw_document)) None) (Some 5)
  = ([EvLog LogStarted; EvLoadConfig; EvLog LogCriticalNoApiKeyAtStartup],
     Exits 1).
Proof.
  exact (proj1 (startup_exits_without_api_key
                  (mkLoadEnv None (ReadOk (YDict example_raw_document)) None)
                  (Some 5))
           eq_refl).
Defined.

Section SettingsInvariant.

Lemma lookups_app (a b : list event) :
  lookups (a ++ b) = (lookups a ++ lookups b)%list.
Proof.
  induction a as [|e a IH]; [reflexivity|].
  destruct e; simpl; now rewrite IH.
Qed.

Lemma lookups_patch_events (xs : list (dns_request * bool)) :
  lookups (map patch_event xs) = [].
Proof. induction xs as [|x xs IH]; [reflexivity|exact IH]. Qed.

Lemma update_domains_lookups (api : dns_api) (api_key : option string)
    (ip : string) (ds : list DomainConfig) (pass : update_pass) :
  lookups (pass_events (fold_left (update_domain api api_key ip) ds pass))
  = lookups (pass_events pass).
Proof.
  revert pass. induction ds as [|d ds IH]; intros pass; [reflexivity|].
  cbn [fold_left]. rewrite IH. unfold update_domain.
  rewrite update_records_spec. cbn [pass_events].
  rewrite !lookups_app, lookups_patch_events. cbn. now rewrite !app_nil_r.
Qed.

(** A cycle looks the IP up once, at the service URL in memory. *)
Lemma reconcile_lookups (env : iteration_env) (st : loop_state) :
  lookups (fst (reconcile env st)) = [PUBLIC_IP_SERVICE_URL (module_globals st)].
Proof.
  destruct (get_public_ip (ip_response env)) as [ip|] eqn:Hip;
    [|unfold reconcile; now rewrite Hip].
  destruct (ip_differs ip (cached_ip_from_config st)) eqn:Hdiff;
    [|unfold reconcile; now rewrite Hip, Hdiff].
  destruct (domain_configurations st) as [[|d ds]|] eqn:Hdom.
  - now rewrite (reconcile_without_domains env st ip Hip Hdiff (or_intror Hdom)).
  - rewrite (reconcile_updating env st ip d ds Hip Hdiff Hdom).
    pose proof (update_domains_lookups (provider env)
                  (MIJNHOST_API_KEY (module_globals st)) ip (d :: ds)
                  (mkPass true 0 [])) as Hs.
    fold (update_domains (provider env) (MIJNHOST_API_KEY (module_globals st))
            ip (d :: ds)) in Hs.
    destruct (all_updates_successful_for_new_ip _);
      cbn [fst lookups app]; rewrite !lookups_app, Hs; reflexivity.
  - now rewrite (reconcile_without_domains env st ip Hip Hdiff (or_introl Hdom)).
Qed.

Lemma reconcile_settings (env : iteration_env) (st : loop_state) :
  settings_ok (module_globals st) ->
  settings_ok (module_globals (snd (reconcile env st))).
Proof.
  unfold settings_ok.
  destruct (reconcile_outcome env st) as [(Hst & _)|(ip & _ & _ & Hst & _)];
    now rewrite Hst.
Qed.

(** One iteration keeps the settings valid, sleeps only positive times and
    looks the IP up only at URLs with a scheme. *)
Lemma iteration_settings (env : iteration_env) (st : loop_state) :
  settings_ok (module_globals st) ->
  (forall n, In n (sleeps (fst (iteration env st))) -> 0 < n)
  /\ (forall url, In url (lookups (fst (iteration env st))) ->
        has_scheme url = true)
  /\ (forall st', snd (iteration env st) = Continues st' ->
        settings_ok (module_globals st')).
Proof.
  intros Hok. pose proof Hok as (Hpos & Hurl).
  destruct (getmtime env) as [m|] eqn:Hm.
  - destruct (Z.eqb_spec m (dns_config_last_modified_time st)) as [E|Hne].
    + subst m. rewrite (iteration_unchanged_file env st Hm). cbn [fst snd].
      rewrite reconcile_sleeps, reconcile_lookups.
      split; [|split].
      * intros n [<-|[]]. exact Hpos.
      * intros url [<-|[]]. exact Hurl.
      * intros st' [= <-]. now apply reconcile_settings.
    + destruct (load_and_validate_config (reload_env env) (module_globals st))
        as [g1 [ip ds| |e]] eqn:Hload.
      * rewrite (iteration_reloaded env st m g1 ip ds Hm Hne Hload).
        pose proof (load_ok_settings _ _ _ _ _ Hload) as Hok1.
        cbn [fst snd sleeps lookups].
        rewrite sleeps_app, lookups_app, reconcile_sleeps, reconcile_lookups.
        cbn [module_globals].
        split; [|split].
        -- destruct ds; intros n [<-|[]]; exact (proj1 Hok1).
        -- destruct ds; intros url [<-|[]]; exact (proj2 Hok1).
        -- intros st' [= <-]. now apply reconcile_settings.
      * rewrite (iteration_fatal_reload env st m g1 Hm Hne Hload).
        destruct (load_fatal_keeps _ _ _ Hload) as (Hc & Hu & _).
        cbn [fst snd sleeps lookups].
        split; [|split].
        -- intros n [<-|[]].
           destruct (MIJNHOST_API_KEY g1);
             [|unfold DEFAULT_CHECK_INTERVAL_SECONDS; lia].
           destruct (CHECK_INTERVAL_SECONDS g1 >? 0) eqn:E;
             [|unfold DEFAULT_CHECK_INTERVAL_SECONDS; lia].
           apply Z.gtb_lt in E. exact E.
        -- intros url [].
        -- intros st' [= <-]. unfold settings_ok. cbn [module_globals].
           now rewrite Hc, Hu.
      * rewrite (iteration_raising_reload env st m g1 e Hm Hne Hload).
        cbn [fst snd sleeps lookups].
        split; [intros n []|split; [intros url []|discriminate]].
  - rewrite (iteration_missing_file env st Hm). cbn [fst snd].
    rewrite sleeps_app, lookups_app, reconcile_sleeps, reconcile_lookups.
    cbn [module_globals].
    split; [|split].
    + destruct (negb _); intros n [<-|[]]; exact Hpos.
    + destruct (negb _); intros url [<-|[]]; exact Hurl.
    + intros st' [= <-]. now apply reconcile_settings.
Qed.

Lemma startup_settings (env : load_env) (mtime : option Z) (st : loop_state) :
  snd (startup env mtime) = Continues st -> settings_ok (module_globals st).
Proof.
  unfold startup.
  destruct (load_and_validate_config env initial_globals)
    as [g1 [ip ds| |e]] eqn:Hload; cbn [returned].
  - pose proof (load_ok_settings _ _ _ _ _ Hload) as Hok.
    destruct (MIJNHOST_API_KEY g1); [|discriminate].
    destruct mtime; cbn [snd]; intros [= <-]; exact Hok.
  - destruct (load_fatal_keeps _ _ _ Hload) as (Hc & Hu & _).
    destruct (MIJNHOST_API_KEY g1); [|discriminate].
    destruct mtime; cbn [snd]; intros [= <-]; unfold settings_ok;
      cbn [module_globals]; rewrite Hc, Hu; split; reflexivity.
  - discriminate.
Qed.

Lemma run_settings (envs : list iteration_env) (st : loop_state) :
  settings_ok (module_globals st) ->
  (forall n, In n (sleeps (fst (run envs st))) -> 0 < n)
  /\ (forall url, In url (lookups (fst (run envs st))) -> has_scheme url = true).
Proof.
  revert st. induction envs as [|env envs IH]; intros st Hok.
  - split; intros x [].
  - cbn [run].
    destruct (iteration_settings env st Hok) as (Hs & Hl & Hnext).
    rewrite <- round_events in Hs, Hl.
    pose proof (round_continues env st) as Hgo.
    destruct (round env st) as [events [st'| code | e]]; cbn [fst snd] in *.
    + destruct (IH st' (Hnext st' (Hgo st' eq_refl))) as (Hs' & Hl').
      destruct (run envs st') as [more final]. cbn [fst] in *.
      rewrite sleeps_app, lookups_app.
      split; intros x Hx; apply in_app_or in Hx; destruct Hx; auto.
    + now split.
    + now split.
Qed.

End SettingsInvariant.

(** X25.  However the configuration file, the environment and the
    services behave, from startup on the settings in memory stay valid:
    every [time.sleep] of the loop is called with a positive number of
    seconds, and every IP lookup goes to a URL that starts with [http://]
    or [https://]. *)
Theorem loop_settings_stay_valid (env : load_env) (mtime : option Z)
    (st : loop_state) (envs : list iteration_env) :
  snd (startup env mtime) = Continues st ->
  (forall n, In n (sleeps (fst (run envs st))) -> 0 < n)
  /\ (forall url, In url (lookups (fst (run envs st))) -> has_scheme url = true).
Proof.
  intros Hstart. apply run_settings. exact (startup_settings env mtime st Hstart).
Qed.

Lemma loop_settings_stay_valid_witness :
  0 < hd 0 (sleeps (fst (run [example_unparsable_env; example_unparsable_env]
                           example_state))).
Proof.
  exact (proj1 (loop_settings_stay_valid
                  (mkLoadEnv (Some "key") (ReadOk (YDict example_raw_document))
                     None)
                  (Some 5) example_state
                  [example_unparsable_env; example_unparsable_env] eq_refl)
           300 (or_introl eq_refl)).
Defined.

Section OwnSave.

Lemma ensured_items (d : pydict) :
  items_of (get YNone "domains" (ensure_key "domains" is_list (YList []) d))
  = items_of (get YNone "domains" d).
Proof.
  unfold ensure_key, dict_has, get at 2 3.
  destruct (dict_get "domains" d) as [[| | | | |L|]|] eqn:E;
    cbn [negb orb is_list]; unfold get;
    rewrite ?dict_get_set_same, ?E; reflexivity.
Qed.

(** The save keeps the items of the [domains] sequence. *)
Lemma cache_domain_items (ip : string) (g : globals) :
  items_of (get YNone "domains" (parsed_config_data (cache_ip_in_yaml ip g)))
  = items_of (get YNone "domains" (parsed_config_data g)).
Proof.
  unfold cache_ip_in_yaml. cbn [parsed_config_data].
  rewrite ensured_items. unfold get.
  rewrite dict_get_set_other by discriminate.
  rewrite ensure_key_other by discriminate.
  now destruct (parsed_config_data g).
Qed.

End OwnSave.

(** X26.  The reload that the program's own save causes changes nothing.
    When the settings in memory are valid and the domains in use are the
    validation of the document in memory (as after every successful load),
    and the file holds what [cache_ip_in_yaml] wrote, then the iteration
    that finds the new modification time reloads to the same interval,
    service URL and domains, with the saved IP as the cached IP; if the IP
    service still returns that IP, it updates no record and saves
    nothing. *)
Theorem own_save_reloads_the_same (env : iteration_env) (st : loop_state)
    (ip : string) (m : Z) (c : ascii) (key : string) :
  settings_ok (module_globals st) ->
  domain_configurations st
  = Some (validate_domains
            (items_of (get YNone "domains"
                         (parsed_config_data (module_globals st))))) ->
  getmtime env = Some m ->
  m <> dns_config_last_modified_time st ->
  env_api_key (reload_env env) = Some (String c key) ->
  config_file (reload_env env)
  = ReadOk (YDict (parsed_config_data
                     (cache_ip_in_yaml ip (module_globals st)))) ->
  let saved_state :=
    mkState (cache_ip_in_yaml ip (module_globals st)) (YStr ip)
      (domain_configurations st) (dns_config_last_modified_time st) in
  let reloaded :=
    mkState
      (mkGlobals (Some (String c key))
         (CHECK_INTERVAL_SECONDS (module_globals st))
         (PUBLIC_IP_SERVICE_URL (module_globals st))
         (parsed_config_data (cache_ip_in_yaml ip (module_globals st))))
      (YStr ip) (domain_configurations st) m in
  snd (iteration env saved_state) = Continues (snd (reconcile env reloaded))
  /\ (get_public_ip (ip_response env) = Some ip ->
      snd (iteration env saved_state) = Continues reloaded
      /\ patches (fst (iteration env saved_state)) = []
      /\ saves (fst (iteration env saved_state)) = []).
Proof.
  intros (Hpos & Hurl) Hdoms Hm Hne Hkey Hfile. cbv zeta.
  pose proof (load_saved_document ip (module_globals st)
                (cache_ip_in_yaml ip (module_globals st)) (reload_env env)
                c key Hpos Hurl Hkey Hfile) as Hload.
  rewrite cache_domain_items in Hload.
  destruct (domain_configurations st) as [ds|] eqn:Eds; [|discriminate].
  injection Hdoms as Hds. rewrite <- Hds in Hload.
  rewrite (iteration_reloaded env
             (mkState (cache_ip_in_yaml ip (module_globals st)) (YStr ip)
                (Some ds) (dns_config_last_modified_time st))
             m _ (YStr ip) ds Hm Hne Hload).
  split; [reflexivity|].
  intros Hip. cbn [fst snd].
  rewrite (reconcile_unchanged env
             (mkState
                (mkGlobals (Some (String c key))
                   (CHECK_INTERVAL_SECONDS (module_globals st))
                   (PUBLIC_IP_SERVICE_URL (module_globals st))
                   (parsed_config_data (cache_ip_in_yaml ip (module_globals st))))
                (YStr ip) (Some ds) m)
             ip Hip eq_refl).
  cbn [fst snd]. split; [reflexivity|]. now destruct ds.
Qed.

Lemma own_save_reloads_the_same_witness :
  snd (iteration
         (mkEnv (Some 6)
            (mkLoadEnv (Some "key")
               (ReadOk (YDict (parsed_config_data
                                 (cache_ip_in_yaml "203.0.113.9"
                                    (module_globals example_state)))))
               None)
            (Some "203.0.113.9") (fun _ _ => false))
         (mkState (cache_ip_in_yaml "203.0.113.9" (module_globals example_state))
            (YStr "203.0.113.9") (domain_configurations example_state) 5))
  = Continues
      (mkState
         (mkGlobals (Some "key") 300 DEFAULT_PUBLIC_IP_SERVICE_URL
            (parsed_config_data
               (cache_ip_in_yaml "203.0.113.9" (module_globals example_state))))
         (YStr "203.0.113.9") (domain_configurations example_state) 6).
Proof.
  refine (proj1 (proj2
    (own_save_reloads_the_same
       (mkEnv (Some 6)
          (mkLoadEnv (Some "key")
             (ReadOk (YDict (parsed_config_data
                               (cache_ip_in_yaml "203.0.113.9"
                                  (module_globals example_state)))))
             None)
          (Some "203.0.113.9") (fun _ _ => false))
       example_state "203.0.113.9" 6 "k" "ey"
       (conj eq_refl eq_refl) eq_refl eq_refl _ eq_refl eq_refl) eq_refl)).
  discriminate.
Defined.

(* ================================================================= *)
(** * Further properties of record validation *)

Section TextNormalisation.

Lemma upper_char_twice (c : ascii) : upper_char (upper_char c) = upper_char c.
Proof. destruct c as [[] [] [] [] [] [] [] []]; reflexivity. Qed.

Lemma upper_twice (s : string) : upper (upper s) = upper s.
Proof.
  induction s as [|c s IH]; simpl; [reflexivity|].
  now rewrite upper_char_twice, IH.
Qed.

Lemma get_set_same (default : yaml) (k : string) (v : yaml) (d : pydict) :
  get default k (dict_set k v d) = v.
Proof. unfold get. now rewrite dict_get_set_same. Qed.

Lemma get_set_other (default : yaml) (k k' : string) (v : yaml) (d : pydict) :
  k' <> k -> get default k' (dict_set k v d) = get default k' d.
Proof. intros H. unfold get. now rewrite dict_get_set_other. Qed.

Lemma dict_has_set_neq (k k' : string) (v : yaml) (d : pydict) :
  k' <> k -> dict_has k' (dict_set k v d) = dict_has k' d.
Proof. intros H. unfold dict_has. now rewrite dict_get_set_other. Qed.

End TextNormalisation.

(** X27.  Record validation does not depend on the case of the type or on
    white space around the name: writing the type of a record entry in
    upper case and its name trimmed gives the same result, accepted or
    dropped. *)
Theorem record_case_and_padding (item : pydict) (name type : string) :
  dict_get "name" item = Some (YStr name) ->
  dict_get "type" item = Some (YStr type) ->
  validate_record
    (YDict (dict_set "name" (YStr (strip name))
              (dict_set "type" (YStr (upper type)) item)))
  = validate_record (YDict item).
Proof.
  intros Hname Htype. unfold validate_record.
  rewrite dict_has_set, (dict_has_set_neq "name" "type") by discriminate.
  rewrite dict_has_set.
  rewrite !(dict_has_set_neq _ "ttl") by discriminate.
  rewrite get_set_same, (get_set_other _ "name" "type") by discriminate.
  rewrite get_set_same, !(get_set_other _ _ "ttl") by discriminate.
  assert (Hn : dict_has "name" item = true) by (unfold dict_has; now rewrite Hname).
  assert (Ht : dict_has "type" item = true) by (unfold dict_has; now rewrite Htype).
  assert (Gn : get (YStr "") "name" item = YStr name)
    by (unfold get; now rewrite Hname).
  assert (Gt : get (YStr "") "type" item = YStr type)
    by (unfold get; now rewrite Htype).
  rewrite Hn, Ht, Gn, Gt. cbn [py_str andb].
  now rewrite strip_strip, upper_twice.
Qed.

Lemma record_case_and_padding_witness :
  validate_record
    (YDict (dict_set "name" (YStr (strip " www "))
              (dict_set "type" (YStr (upper "aaaa"))
                 [("name", YStr " www "); ("type", YStr "aaaa");
                  ("ttl", YInt 60)])))
  = validate_record
      (YDict [("name", YStr " www "); ("type", YStr "aaaa"); ("ttl", YInt 60)]).
Proof.
  apply (record_case_and_padding
           [("name", YStr " www "); ("type", YStr "aaaa"); ("ttl", YInt 60)]
           " www " "aaaa"); reflexivity.
Defined.

(* ================================================================= *)
(** * The save on values and on objects *)

Section SaveModels.

Lemma view_empty (m : memory) : view m = [] <-> root_items m = [].
Proof.
  unfold view, view_items. destruct (root_items m) as [|[k n] d];
    split; intros H; try reflexivity; discriminate.
Qed.

(** An assignment to the settings, when they are a dict of their own. *)
Lemma settings_assign_own (k : string) (v : yaml) (m : memory) (n : node) :
  node_get "global_settings" (root_items m) = Some n ->
  is_dict_node n = true -> n <> Shared ->
  view (settings_assign k v m)
  = dict_set "global_settings"
      (YDict (dict_set k v (entries_of (get YNone "global_settings" (view m)))))
      (view m)
    /\ exists n',
         node_get "global_settings" (root_items (settings_assign k v m)) = Some n'
         /\ is_dict_node n' = true /\ n' <> Shared.
Proof.
  intros Hget Hdict Hown. unfold settings_assign, get, view.
  rewrite dict_get_view_items, Hget.
  destruct n as [[| | | | | |gs]| |items|gs]; try discriminate;
    try congruence; cbn [root_items shared_items option_map resolve entries_of].
  - rewrite view_items_set. split; [reflexivity|].
    eexists. rewrite node_get_set_same. now repeat split.
  - rewrite view_items_set. cbn [resolve].
    change (map (fun kv : string * node =>
                   let (k0, x) := kv in (k0, resolve (shared_items m) x))
              (node_set k (Leaf v) gs))
      with (view_items (shared_items m) (node_set k (Leaf v) gs)).
    rewrite view_items_set. split; [reflexivity|].
    eexists. rewrite node_get_set_same. now repeat split.
Qed.

(** As long as the mapping under [global_settings] is not the shared
    dict, [cache_ip_in_yaml] on the value of the document gives the value
    of the document that the assignments of lines 176-194 leave. *)
Lemma cache_ip_in_memory_view (ip : string) (g : globals) (m : memory) :
  node_get "global_settings" (root_items m) <> Some Shared ->
  view (cache_ip_in_memory ip g m)
  = parsed_config_data
      (cache_ip_in_yaml ip
         (mkGlobals (MIJNHOST_API_KEY g) (CHECK_INTERVAL_SECONDS g)
            (PUBLIC_IP_SERVICE_URL g) (view m))).
Proof.
  intros Hown. unfold cache_ip_in_memory, cache_ip_in_yaml.
  cbn [parsed_config_data CHECK_INTERVAL_SECONDS PUBLIC_IP_SERVICE_URL].
  set (m0 := match root_items m with
             | [] => mkMemory (shared_items m)
                       [("global_settings", Leaf (YDict []));
                        ("domains", Leaf (YList []))]
             | _ :: _ => m
             end).
  assert (H0 : view m0
               = (if negb (truthy (YDict (view m))) then empty_structure
                  else view m)
               /\ node_get "global_settings" (root_items m0) <> Some Shared).
  { unfold m0, view, view_items. clear m0.
    destruct m as [s [|[k n] d]]; cbn [root_items shared_items] in *.
    - split; [reflexivity|discriminate].
    - split; [reflexivity|exact Hown]. }
  destruct H0 as (Hview0 & Hown0). rewrite <- Hview0. clearbody m0.
  set (m1 := ensure_item "global_settings" is_dict_node (YDict []) m0).
  assert (Hview1 : view m1 = ensure_key "global_settings" is_dict (YDict []) (view m0))
    by (apply view_ensure_item; intros n; apply is_dict_resolve).
  assert (Hgs1 : exists n, node_get "global_settings" (root_items m1) = Some n
                           /\ is_dict_node n = true /\ n <> Shared).
  { unfold m1, ensure_item.
    destruct (node_get "global_settings" (root_items m0)) as [n|] eqn:E;
      [destruct (is_dict_node n) eqn:En|]; cbn [root_items];
      rewrite ?node_get_set_same, ?E; eexists;
      (split; [reflexivity|split; [reflexivity || exact En|congruence]]). }
  rewrite <- Hview1. clearbody m1.
  destruct Hgs1 as (n1 & Hn1 & Hd1 & Ho1).
  destruct (settings_assign_own "last_known_ip" (YStr ip) m1 n1 Hn1 Hd1 Ho1)
    as (Hv2 & n2 & Hn2 & Hd2 & Ho2).
  destruct (settings_assign_own "check_interval_seconds"
              (YInt (CHECK_INTERVAL_SECONDS g)) _ n2 Hn2 Hd2 Ho2)
    as (Hv3 & n3 & Hn3 & Hd3 & Ho3).
  destruct (settings_assign_own "public_ip_service_url"
              (YStr (PUBLIC_IP_SERVICE_URL g)) _ n3 Hn3 Hd3 Ho3)
    as (Hv4 & _).
  rewrite (view_ensure_item "domains" is_list_node is_list)
    by (intros n; apply is_list_resolve).
  f_equal. rewrite Hv4, Hv3, Hv2.
  unfold get. rewrite !dict_get_set_same. cbn [entries_of].
  now rewrite !dict_set_twice.
Qed.

End SaveModels.
